(** * Expense Management System: the expense repository, its schemas and routes

    A shallow embedding of
      - [src/repository/crud/expense.py]   (queries, summaries, update, delete),
      - [src/models/schemas/expense.py]    (the pydantic schemas and validators),
      - [src/models/schemas/user.py]       (the registration schema),
      - [src/api/routes/expense.py]        (the HTTP endpoints),
    followed by the properties the specification states about them and by
    further properties of the code.

    Modelling conventions.
      - The database session is a pair of tables, each a list of rows; a
        query is a function of the tables.  Database calls are taken to
        succeed: connection failures are outside the model.
      - Amounts are Python floats in the source.  They are modelled as exact
        rationals [Q]; equalities between amounts are stated with [==].
      - [datetime.now()] and [pendulum.now()] are an argument [now].
      - Python [str] is [string]; a character is a code point below 256.
      - A [UUID] is its canonical text. *)

From Stdlib Require Import List ZArith QArith Qround Lia String Ascii Bool.
From Stdlib Require Import Sorted Permutation DecimalString Morphisms Setoid.
From Stdlib Require Import Lqa.
Import ListNotations.
Open Scope Z_scope.

(* ================================================================== *)
(** * Part I: the model                                                *)
(* ================================================================== *)

(** ** Basic data *)

Definition UUID := string.
Bind Scope string_scope with UUID.

Module Date.
Record t := make { year : Z; month : Z; day : Z }.

Definition eqb (a b : t) : bool :=
  (year a =? year b) && (month a =? month b) && (day a =? day b).

(** Python compares dates as (year, month, day) triples. *)
Definition ltb (a b : t) : bool :=
  (year a <? year b)
  || ((year a =? year b)
      && ((month a <? month b)
          || ((month a =? month b) && (day a <? day b)))).

(** A [datetime.date] always has a month between 1 and 12. *)
Definition valid (d : t) : Prop := 1 <= month d <= 12.
End Date.

Module Datetime.
Record t := make {
  year : Z; month : Z; day : Z;
  hour : Z; minute : Z; second : Z; microsecond : Z }.
End Datetime.

(** [strftime("%b")] in the C locale; a [date] cannot hold another month. *)
Definition strftime_b (m : Z) : string :=
  match m with
  | 1 => "Jan" | 2 => "Feb" | 3 => "Mar" | 4 => "Apr"
  | 5 => "May" | 6 => "Jun" | 7 => "Jul" | 8 => "Aug"
  | 9 => "Sep" | 10 => "Oct" | 11 => "Nov" | 12 => "Dec"
  | _ => ""
  end%string.

(** ** Tables: [models/db] as created by the initial migration *)

Module ExpenseModel.
Record t := make {
  expenses_id : UUID;
  user_id : UUID;
  category_id : UUID;
  subject : string;
  expense_date : Date.t;
  amount : Q;
  reimbursable : bool;
  description : option string;
  invoice_image : option string;
  employee : option string;
  updated_at : Datetime.t }.
End ExpenseModel.

Module Category.
Record t := make {
  category_id : UUID;
  name : string;
  is_active : bool }.
End Category.

Module AsyncSession.
Record t := make {
  expenses : list ExpenseModel.t;
  category : list Category.t }.
End AsyncSession.

(** The unique index [ix_category_name] of the migration. *)
Definition unique_category_name (db : AsyncSession.t) : Prop :=
  NoDup (map Category.name (AsyncSession.category db)).

(** ** The fragment of SQL and Python the repository uses *)

Fixpoint Qsum (l : list Q) : Q :=
  match l with
  | [] => 0%Q
  | x :: l' => (x + Qsum l')%Q
  end.

(** [func.sum(...)] then [.scalar()]: NULL over no rows. *)
Definition sql_sum (l : list Q) : option Q :=
  match l with
  | [] => None
  | _ => Some (Qsum l)
  end.

(** [float(x or 0)]: [None] and a zero sum both give 0. *)
Definition float_or_0 (x : option Q) : Q :=
  match x with
  | None => 0%Q
  | Some v => if Qeq_bool v 0 then 0%Q else v
  end.

(** [round(x, 2)]: to the nearest hundredth, a tie going to the even one. *)
Definition round_half_even (q : Q) : Z :=
  let f := Qfloor q in
  match (q - inject_Z f ?= 1 # 2)%Q with
  | Lt => f
  | Gt => f + 1
  | Eq => if Z.even f then f else f + 1
  end.

Definition round2 (x : Q) : Q :=
  (inject_Z (round_half_even (x * 100)) / 100)%Q.

(** [range(a, b)] and the SQL operator [IN]. *)
Definition range (a b : Z) : list Z :=
  map (fun i => a + Z.of_nat i) (seq 0 (Z.to_nat (b - a))).

Definition in_ (x : Z) (l : list Z) : bool := existsb (Z.eqb x) l.

Definition extract_year (e : ExpenseModel.t) : Z :=
  Date.year (ExpenseModel.expense_date e).

Definition extract_month (e : ExpenseModel.t) : Z :=
  Date.month (ExpenseModel.expense_date e).

Section Sorting.
Context {A : Type}.
(** [after x y]: [x] has to come later than [y]. *)
Variable after : A -> A -> bool.

(** Stable insertion: [x] stood before every element of [l] and stays
    before those it does not have to follow. *)
Fixpoint insert_sorted (x : A) (l : list A) : list A :=
  match l with
  | [] => [x]
  | y :: l' => if after x y then y :: insert_sorted x l' else x :: y :: l'
  end.

Definition stable_sort (l : list A) : list A :=
  fold_right insert_sorted [] l.
End Sorting.

(** [sorted(l, key=key, reverse=True)] on integer keys. *)
Definition sorted_reverse {A : Type} (key : A -> Z) (l : list A) : list A :=
  stable_sort (fun x y => key x <? key y) l.

(** [l.sort(key=key, reverse=True)] on float keys. *)
Definition sort_reverse_Q {A : Type} (key : A -> Q) (l : list A) : list A :=
  stable_sort (fun x y => negb (Qle_bool (key y) (key x))) l.

(** [ORDER BY expense_date] (ascending). *)
Definition order_by_date {A : Type} (key : A -> Date.t) (l : list A) : list A :=
  stable_sort (fun x y => Date.ltb (key y) (key x)) l.

(** [DISTINCT] / [GROUP BY]: one representative per value, first come. *)
Fixpoint distinct {A : Type} (eqb : A -> A -> bool) (l : list A) : list A :=
  match l with
  | [] => []
  | x :: l' => x :: filter (fun y => negb (eqb x y)) (distinct eqb l')
  end.

(** ** Summary views *)

Module GeneralSummary.
Record t := make {
  total_spending : Q;
  this_month : Q;
  last_month : Q;
  this_quarter : Q;
  last_quarter : Q }.

Definition equiv (a b : t) : Prop :=
  (total_spending a == total_spending b)%Q /\
  (this_month a == this_month b)%Q /\
  (last_month a == last_month b)%Q /\
  (this_quarter a == this_quarter b)%Q /\
  (last_quarter a == last_quarter b)%Q.
End GeneralSummary.

(** [select(func.sum(ExpenseModel.amount)).where(...)] and [.scalar()]. *)
Definition select_sum_where (db : AsyncSession.t)
    (whereclause : ExpenseModel.t -> bool) : option Q :=
  sql_sum (map ExpenseModel.amount
             (filter whereclause (AsyncSession.expenses db))).

(** [get_general_summary_data], expense.py lines 440-520. *)
Definition get_general_summary_data (db : AsyncSession.t) (year : Z)
    (now : Datetime.t) : GeneralSummary.t :=
  let base_query := fun e => extract_year e =? year in
  let total_spending := float_or_0 (select_sum_where db base_query) in
  let current_year := Datetime.year now in
  let current_month := Datetime.month now in
  let current_quarter := (current_month - 1) / 3 + 1 in
  let '(last_month, last_month_year) :=
    if current_month =? 1 then (12, current_year - 1)
    else (current_month - 1, year) in
  let '(last_quarter, last_quarter_year) :=
    if current_quarter - 1 =? 0 then (4, current_year - 1)
    else (current_quarter - 1, current_year) in
  let this_month_spending :=
    float_or_0 (select_sum_where db (fun e =>
      base_query e && (extract_month e =? current_month))) in
  let last_month_spending :=
    float_or_0 (select_sum_where db (fun e =>
      (extract_year e =? last_month_year) && (extract_month e =? last_month))) in
  let this_quarter_spending :=
    float_or_0 (select_sum_where db (fun e =>
      base_query e &&
      in_ (extract_month e)
          (range ((current_quarter - 1) * 3 + 1) (current_quarter * 3 + 1)))) in
  let last_quarter_spending :=
    float_or_0 (select_sum_where db (fun e =>
      (extract_year e =? last_quarter_year) &&
      in_ (extract_month e)
          (range ((last_quarter - 1) * 3 + 1) (last_quarter * 3 + 1)))) in
  GeneralSummary.make
    (round2 total_spending)
    (round2 this_month_spending)
    (round2 last_month_spending)
    (round2 this_quarter_spending)
    (round2 last_quarter_spending).

(** [get_available_years], expense.py lines 424-437. *)
Definition get_available_years (db : AsyncSession.t) : list Z :=
  let years := distinct Z.eqb (map extract_year (AsyncSession.expenses db)) in
  sorted_reverse (fun y => y) years.

(** Rows of the category rollup: [{"category": ..., "amount": ...}]. *)
Module CategoryTotal.
Record t := make { category : string; amount : Q }.
End CategoryTotal.

(** The query of [get_expenses_by_category]: each expense of the year is
    joined to its category; the joined rows are grouped by category name
    and each group is summed. *)
Definition join_category (db : AsyncSession.t) (e : ExpenseModel.t)
    : list (string * Q) :=
  map (fun c => (Category.name c, ExpenseModel.amount e))
      (filter (fun c => String.eqb (ExpenseModel.category_id e)
                                   (Category.category_id c))
              (AsyncSession.category db)).

Definition joined_rows (db : AsyncSession.t) (year : Z) : list (string * Q) :=
  flat_map (join_category db)
    (filter (fun e => extract_year e =? year) (AsyncSession.expenses db)).

Definition group_total (db : AsyncSession.t) (year : Z) (name : string) : Q :=
  Qsum (map snd (filter (fun r => String.eqb (fst r) name)
                        (joined_rows db year))).

Definition select_category_totals (db : AsyncSession.t) (year : Z)
    : list (string * Q) :=
  map (fun name => (name, group_total db year name))
      (distinct String.eqb (map fst (joined_rows db year))).

(** [get_expenses_by_category], expense.py lines 292-316. *)
Definition get_expenses_by_category (db : AsyncSession.t) (year : Z)
    : list CategoryTotal.t :=
  let result := select_category_totals db year in
  let expenses_by_category :=
    map (fun row => CategoryTotal.make (fst row) (snd row)) result in
  sort_reverse_Q CategoryTotal.amount expenses_by_category.

(** A Python [dict] with string keys: an association list in insertion
    order; assigning to a key that is present keeps its place. *)
Definition dict (V : Type) := list (string * V).

Fixpoint dict_get {V : Type} (k : string) (d : dict V) : option V :=
  match d with
  | [] => None
  | (k', v) :: d' => if String.eqb k k' then Some v else dict_get k d'
  end.

Definition dict_contains {V : Type} (k : string) (d : dict V) : bool :=
  match dict_get k d with Some _ => true | None => false end.

Fixpoint dict_set {V : Type} (k : string) (v : V) (d : dict V) : dict V :=
  match d with
  | [] => [(k, v)]
  | (k', v') :: d' =>
      if String.eqb k k' then (k', v) :: d' else (k', v') :: dict_set k v d'
  end.

(** Values of [monthly_totals]: [{"amount": ..., "month_num": ...}]. *)
Module MonthData.
Record t := make { amount : Q; month_num : Z }.
End MonthData.

(** Rows of the month rollup: [{"month": ..., "amount": ...}]. *)
Module MonthTotal.
Record t := make { month : string; amount : Q }.

Definition equiv (a b : t) : Prop :=
  month a = month b /\ (amount a == amount b)%Q.
End MonthTotal.

(** The query of [get_last_5_months_summary]: one row per distinct date of
    the year with the sum of its amounts, ordered by date. *)
Definition select_date_totals (db : AsyncSession.t) (year : Z)
    : list (Date.t * Q) :=
  let rows :=
    filter (fun e => extract_year e =? year) (AsyncSession.expenses db) in
  order_by_date fst
    (map (fun d =>
        (d, Qsum (map ExpenseModel.amount
                    (filter (fun e => Date.eqb (ExpenseModel.expense_date e) d)
                            rows))))
       (distinct Date.eqb (map ExpenseModel.expense_date rows))).

(** One turn of the loop over [raw_totals]. *)
Definition monthly_totals_step (monthly_totals : dict MonthData.t)
    (record : Date.t * Q) : dict MonthData.t :=
  let month := strftime_b (Date.month (fst record)) in
  let month_num := Date.month (fst record) in
  let monthly_totals :=
    if dict_contains month monthly_totals then monthly_totals
    else dict_set month (MonthData.make 0%Q month_num) monthly_totals in
  match dict_get month monthly_totals with
  | Some data =>
      dict_set month
        (MonthData.make (MonthData.amount data + snd record)%Q
                        (MonthData.month_num data))
        monthly_totals
  | None => monthly_totals
  end.

(** [get_last_5_months_summary], expense.py lines 319-377. *)
Definition get_last_5_months_summary (db : AsyncSession.t) (year : Z)
    : list MonthTotal.t :=
  let raw_totals := select_date_totals db year in
  let monthly_totals := fold_left monthly_totals_step raw_totals [] in
  let sorted_months :=
    firstn 5
      (sorted_reverse (fun x => MonthData.month_num (snd x)) monthly_totals) in
  map (fun x => MonthTotal.make (fst x) (MonthData.amount (snd x)))
      sorted_months.

(** ** Schemas: [models/schemas/expense.py] *)

(** [str.isspace] on one character, [str.split()] and [re.match(r"^\d")]. *)
Definition isspace (c : ascii) : bool :=
  let n := nat_of_ascii c in
  ((9 <=? n) && (n <=? 13) || (28 <=? n) && (n <=? 32)
   || (n =? 133) || (n =? 160))%nat.

Definition isdigit (c : ascii) : bool :=
  let n := nat_of_ascii c in ((48 <=? n) && (n <=? 57))%nat.

(** [word] is the word being read, empty between two words. *)
Fixpoint split_from (word : string) (s : string) : list string :=
  match s with
  | EmptyString =>
      match word with EmptyString => [] | _ => [word] end
  | String c s' =>
      if isspace c then
        match word with
        | EmptyString => split_from EmptyString s'
        | _ => word :: split_from EmptyString s'
        end
      else split_from (word ++ String c EmptyString)%string s'
  end.

Definition split (s : string) : list string := split_from EmptyString s.

Definition re_match_digit (s : string) : bool :=
  match s with
  | EmptyString => false
  | String c _ => isdigit c
  end.

(** A key of the decoded JSON object: missing, [null], or a value of the
    JSON type the field expects. *)
Inductive field (A : Type) : Type :=
  | Absent
  | Null
  | Value (a : A).
Arguments Absent {A}.
Arguments Null {A}.
Arguments Value {A} a.

(** The decoded form field [expense] / [expense_update]. *)
Module Payload.
Record t := make {
  category_id : field UUID;
  subject : field string;
  expense_date : field Date.t;
  amount : field Q;
  reimbursable : field bool;
  description : field string;
  employee : field string }.
End Payload.

(** One line of a pydantic [ValidationError]: the field and the message.
    The messages of the two validators of the schema are those of the
    source; the others stand for the ones the library words. *)
Definition ErrorDetails : Type := string * string.

Definition validated (A : Type) : Type := (list ErrorDetails + A)%type.

Definition errors_of {A : Type} (v : validated A) : list ErrorDetails :=
  match v with inl errs => errs | inr _ => [] end.

(** A field declared without a default: [Field(...)]. *)
Definition required {A : Type} (loc : string) (f : field A)
    (check : A -> option string) : validated A :=
  match f with
  | Absent => inl [(loc, "Field required"%string)]
  | Null => inl [(loc, "Input should not be None"%string)]
  | Value a =>
      match check a with
      | Some msg => inl [(loc, msg)]
      | None => inr a
      end
  end.

(** [Optional[str] = Field(default=None, max_length=n)] followed by a
    [@validator]: the validator is not run on the default. *)
Definition optional_str (loc : string) (f : field string) (max_length : nat)
    (validator : option string -> string + option string)
    : validated (option string) :=
  match f with
  | Absent => inr None
  | Null =>
      match validator None with
      | inl msg => inl [(loc, msg)]
      | inr v => inr v
      end
  | Value s =>
      if (max_length <? String.length s)%nat then
        inl [(loc, "String should have at most max_length characters"%string)]
      else
        match validator (Some s) with
        | inl msg => inl [(loc, msg)]
        | inr v => inr v
        end
  end.

Definition description_must_have_two_words (description : option string)
    : string + option string :=
  match description with
  | Some d =>
      if (List.length (split d) <? 2)%nat
      then inl "Description must contain at least two words"%string
      else inr description
  | None => inr description
  end.

Definition employee_name_validation (employee : option string)
    : string + option string :=
  match employee with
  | Some e =>
      if (String.length e <? 2)%nat
      then inl "Employee name must contain at least two characters"%string
      else if re_match_digit e
      then inl "Employee name cannot start with a number"%string
      else inr employee
  | None => inr employee
  end.

(** [ExpenseCreate], lines 40-67: the validated object. *)
Module ExpenseCreate.
Record t := make {
  category_id : UUID;
  subject : string;
  expense_date : Date.t;
  amount : Q;
  reimbursable : bool;
  description : option string;
  employee : option string }.

Definition validate_subject (f : field string) : validated string :=
  required "subject" f (fun s =>
    if (String.length s <? 2)%nat
    then Some "String should have at least 2 characters"%string
    else if (100 <? String.length s)%nat
    then Some "String should have at most 100 characters"%string
    else None).

Definition validate_amount (f : field Q) : validated Q :=
  required "amount" f (fun a =>
    if Qle_bool a 0 then Some "Input should be greater than 0"%string
    else None).

Definition validate_reimbursable (f : field bool) : validated bool :=
  match f with
  | Absent => inr false
  | Null => inl [("reimbursable", "Input should be a valid boolean")%string]
  | Value b => inr b
  end.

(** Building the object from the decoded payload: every field is validated
    and the errors of all of them are reported together. *)
Definition validate (p : Payload.t) : validated t :=
  let category_id := required "category_id" (Payload.category_id p)
                              (fun _ => None) in
  let subject := validate_subject (Payload.subject p) in
  let expense_date := required "expense_date" (Payload.expense_date p)
                               (fun _ => None) in
  let amount := validate_amount (Payload.amount p) in
  let reimbursable := validate_reimbursable (Payload.reimbursable p) in
  let description := optional_str "description" (Payload.description p) 500
                                  description_must_have_two_words in
  let employee := optional_str "employee" (Payload.employee p) 100
                               employee_name_validation in
  match category_id, subject, expense_date, amount,
        reimbursable, description, employee with
  | inr c, inr s, inr d, inr a, inr r, inr ds, inr e =>
      inr (make c s d a r ds e)
  | _, _, _, _, _, _, _ =>
      inl (errors_of category_id ++ errors_of subject ++ errors_of expense_date
           ++ errors_of amount ++ errors_of reimbursable
           ++ errors_of description ++ errors_of employee)
  end.
End ExpenseCreate.

(** [ExpenseUpdate(ExpenseCreate)], lines 70-74: the class adds nothing to
    its base, so it is validated the same way.  [update_expense] reads each
    attribute of the object it is given and tests it against [None]; [t] is
    that view, in which any attribute may be [None]. *)
Module ExpenseUpdate.
Record t := make {
  category_id : option UUID;
  subject : option string;
  expense_date : option Date.t;
  amount : option Q;
  reimbursable : option bool;
  description : option string;
  employee : option string }.

Definition of_validated (v : ExpenseCreate.t) : t :=
  make (Some (ExpenseCreate.category_id v))
       (Some (ExpenseCreate.subject v))
       (Some (ExpenseCreate.expense_date v))
       (Some (ExpenseCreate.amount v))
       (Some (ExpenseCreate.reimbursable v))
       (ExpenseCreate.description v)
       (ExpenseCreate.employee v).

Definition validate (p : Payload.t) : validated t :=
  match ExpenseCreate.validate p with
  | inl errs => inl errs
  | inr v => inr (of_validated v)
  end.
End ExpenseUpdate.

(** [Expense(ExpenseBase)], lines 10-37 and 96-111: the response schema,
    built from a row with [from_orm] / [model_validate]. *)
Module ExpenseSchema.
Definition payload_of_row (e : ExpenseModel.t) : Payload.t :=
  let opt := fun o : option string =>
    match o with Some s => Value s | None => Null end in
  Payload.make (Value (ExpenseModel.category_id e))
               (Value (ExpenseModel.subject e))
               (Value (ExpenseModel.expense_date e))
               (Value (ExpenseModel.amount e))
               (Value (ExpenseModel.reimbursable e))
               (opt (ExpenseModel.description e))
               (opt (ExpenseModel.employee e)).

(** The base schema has the fields and validators of [ExpenseCreate]; the
    remaining attributes of a row are copied. *)
Definition from_orm (e : ExpenseModel.t) : validated ExpenseModel.t :=
  match ExpenseCreate.validate (payload_of_row e) with
  | inl errs => inl errs
  | inr _ => inr e
  end.
End ExpenseSchema.

(** ** Attachments on disk *)

(** The upload directory as the repository sees it: the paths that exist,
    and the paths on which the operating system refuses a removal or a
    write (permissions, a read-only volume, ...). *)
Module FileSystem.
Record t := make {
  paths : list string;
  remove_fails : string -> bool;
  write_fails : string -> bool }.
End FileSystem.

Definition os_path_exists (fs : FileSystem.t) (path : string) : bool :=
  existsb (String.eqb path) (FileSystem.paths fs).

(** [os.remove]: [None] stands for [OSError]. *)
Definition os_remove (fs : FileSystem.t) (path : string)
    : option FileSystem.t :=
  if FileSystem.remove_fails fs path || negb (os_path_exists fs path)
  then None
  else Some (FileSystem.make
               (filter (fun p => negb (String.eqb path p)) (FileSystem.paths fs))
               (FileSystem.remove_fails fs) (FileSystem.write_fails fs)).

(** [aiofiles.open(path, "wb")] and the write: [None] stands for [IOError]. *)
Definition write_file (fs : FileSystem.t) (path : string)
    : option FileSystem.t :=
  if FileSystem.write_fails fs path then None
  else Some (FileSystem.make
               (path :: filter (fun p => negb (String.eqb path p))
                               (FileSystem.paths fs))
               (FileSystem.remove_fails fs) (FileSystem.write_fails fs)).

(** [os.path.join] of a directory and a file name (POSIX). *)
Definition os_path_join (a b : string) : string :=
  match b with
  | String "/" _ => b
  | _ =>
      match a with
      | EmptyString => b
      | _ =>
          if String.eqb (substring (String.length a - 1) 1 a) "/"
          then (a ++ b)%string
          else (a ++ "/" ++ b)%string
      end
  end.

(** [fastapi.UploadFile]; only the name is read by the repository. *)
Module UploadFile.
Record t := make { filename : option string }.
End UploadFile.

(** Truth value of an optional string: [None] and [""] are false. *)
Definition truthy (s : option string) : bool :=
  match s with
  | Some EmptyString => false
  | Some _ => true
  | None => false
  end.

(** [invoice_image and invoice_image.filename] *)
Definition uploaded_filename (invoice_image : option UploadFile.t)
    : option string :=
  match invoice_image with
  | Some f => if truthy (UploadFile.filename f) then UploadFile.filename f else None
  | None => None
  end.

(** ** The repository: create, read, update, delete *)

Inductive exn : Type :=
  | ValueError (msg : string)
  | RuntimeError (msg : string).

Module Row.
(** Attribute assignment on a row. *)
Definition set_category_id (v : UUID) (e : ExpenseModel.t) : ExpenseModel.t :=
  let (i, u, _, s, d, a, r, ds, im, em, up) := e in
  ExpenseModel.make i u v s d a r ds im em up.

Definition set_subject (v : string) (e : ExpenseModel.t) : ExpenseModel.t :=
  let (i, u, c, _, d, a, r, ds, im, em, up) := e in
  ExpenseModel.make i u c v d a r ds im em up.

Definition set_expense_date (v : Date.t) (e : ExpenseModel.t) : ExpenseModel.t :=
  let (i, u, c, s, _, a, r, ds, im, em, up) := e in
  ExpenseModel.make i u c s v a r ds im em up.

Definition set_amount (v : Q) (e : ExpenseModel.t) : ExpenseModel.t :=
  let (i, u, c, s, d, _, r, ds, im, em, up) := e in
  ExpenseModel.make i u c s d v r ds im em up.

Definition set_reimbursable (v : bool) (e : ExpenseModel.t) : ExpenseModel.t :=
  let (i, u, c, s, d, a, _, ds, im, em, up) := e in
  ExpenseModel.make i u c s d a v ds im em up.

Definition set_description (v : option string) (e : ExpenseModel.t)
    : ExpenseModel.t :=
  let (i, u, c, s, d, a, r, _, im, em, up) := e in
  ExpenseModel.make i u c s d a r v im em up.

Definition set_invoice_image (v : option string) (e : ExpenseModel.t)
    : ExpenseModel.t :=
  let (i, u, c, s, d, a, r, ds, _, em, up) := e in
  ExpenseModel.make i u c s d a r ds v em up.

Definition set_employee (v : option string) (e : ExpenseModel.t)
    : ExpenseModel.t :=
  let (i, u, c, s, d, a, r, ds, im, _, up) := e in
  ExpenseModel.make i u c s d a r ds im v up.

Definition set_updated_at (v : Datetime.t) (e : ExpenseModel.t)
    : ExpenseModel.t :=
  let (i, u, c, s, d, a, r, ds, im, em, _) := e in
  ExpenseModel.make i u c s d a r ds im em v.

(** [if value is not None: expense.attr = value] *)
Definition assign_if_not_none {A : Type}
    (set : A -> ExpenseModel.t -> ExpenseModel.t) (value : option A)
    (e : ExpenseModel.t) : ExpenseModel.t :=
  match value with
  | Some v => set v e
  | None => e
  end.
End Row.

(** [select(ExpenseModel).filter(expenses_id == expense_id)], [.first()]. *)
Definition select_by_id (db : AsyncSession.t) (expense_id : UUID)
    : option ExpenseModel.t :=
  find (fun e => String.eqb (ExpenseModel.expenses_id e) expense_id)
       (AsyncSession.expenses db).

(** What [db.commit()] writes: a new row, a changed row, a deleted row.
    A row is addressed by its primary key. *)
Definition commit_add (db : AsyncSession.t) (e : ExpenseModel.t)
    : AsyncSession.t :=
  AsyncSession.make (AsyncSession.expenses db ++ [e]) (AsyncSession.category db).

Definition commit_update (db : AsyncSession.t) (e : ExpenseModel.t)
    : AsyncSession.t :=
  AsyncSession.make
    (map (fun r =>
        if String.eqb (ExpenseModel.expenses_id r) (ExpenseModel.expenses_id e)
        then e else r)
       (AsyncSession.expenses db))
    (AsyncSession.category db).

Definition commit_delete (db : AsyncSession.t) (e : ExpenseModel.t)
    : AsyncSession.t :=
  AsyncSession.make
    (filter (fun r =>
        negb (String.eqb (ExpenseModel.expenses_id r)
                         (ExpenseModel.expenses_id e)))
       (AsyncSession.expenses db))
    (AsyncSession.category db).

(** The outcome of a repository call: the value or the exception, with the
    tables and the directory as the call leaves them. *)
Definition outcome (A : Type) : Type :=
  ((exn + A) * AsyncSession.t * FileSystem.t)%type.

Section Repository.
(** [config_env.INVOICE_UPLOAD_DIR] and the extension part of
    [os.path.splitext]. *)
Variable INVOICE_UPLOAD_DIR : string.
Variable splitext_ext : string -> string.

(** [create_expense], expense.py lines 23-83.  [uuid4] is the fresh name of
    the image, [new_id] the primary key the table default generates.  A
    failure to create the directory or to write the file is one failure of
    [write_file]; the text of the operating-system error, which the source
    appends to the message, is not modelled. *)
Definition create_expense (db : AsyncSession.t) (fs : FileSystem.t)
    (user_id : UUID) (expense : ExpenseCreate.t)
    (invoice_image : option UploadFile.t)
    (uuid4 new_id : UUID) (now : Datetime.t) : outcome ExpenseModel.t :=
  let saved :=
    match uploaded_filename invoice_image with
    | Some filename =>
        let file_extension := splitext_ext filename in
        let image_filename := (uuid4 ++ file_extension)%string in
        let file_path := os_path_join INVOICE_UPLOAD_DIR image_filename in
        match write_file fs file_path with
        | Some fs' => Some (Some image_filename, fs')
        | None => None
        end
    | None => Some (None, fs)
    end in
  match saved with
  | None => (inl (RuntimeError "Error creating expense"), db, fs)
  | Some (image_filename, fs') =>
      let db_expense :=
        ExpenseModel.make new_id user_id
          (ExpenseCreate.category_id expense)
          (ExpenseCreate.subject expense)
          (ExpenseCreate.expense_date expense)
          (ExpenseCreate.amount expense)
          (ExpenseCreate.reimbursable expense)
          (ExpenseCreate.description expense)
          image_filename
          (ExpenseCreate.employee expense)
          now in
      (inr db_expense, commit_add db db_expense, fs')
  end.

(** [get_expense_by_id], expense.py lines 86-115. *)
Definition get_expense_by_id (db : AsyncSession.t) (expense_id : UUID)
    : exn + ExpenseModel.t :=
  match select_by_id db expense_id with
  | None => inl (ValueError "Expense not found")
  | Some expense => inr expense
  end.

(** The seven assignments of [update_expense], lines 206-219. *)
Definition assign_fields (expense_update : ExpenseUpdate.t)
    (expense : ExpenseModel.t) : ExpenseModel.t :=
  let expense := Row.assign_if_not_none Row.set_category_id
                   (ExpenseUpdate.category_id expense_update) expense in
  let expense := Row.assign_if_not_none Row.set_subject
                   (ExpenseUpdate.subject expense_update) expense in
  let expense := Row.assign_if_not_none Row.set_expense_date
                   (ExpenseUpdate.expense_date expense_update) expense in
  let expense := Row.assign_if_not_none Row.set_amount
                   (ExpenseUpdate.amount expense_update) expense in
  let expense := Row.assign_if_not_none Row.set_reimbursable
                   (ExpenseUpdate.reimbursable expense_update) expense in
  let expense := Row.assign_if_not_none (fun v => Row.set_description (Some v))
                   (ExpenseUpdate.description expense_update) expense in
  Row.assign_if_not_none (fun v => Row.set_employee (Some v))
    (ExpenseUpdate.employee expense_update) expense.

(** Lines 220-232: the old image is removed, the new one written and its
    name assigned.  The directory is returned as the step leaves it, also
    when it raises ([None]). *)
Definition replace_invoice_image (fs : FileSystem.t) (expense : ExpenseModel.t)
    (invoice_image : option UploadFile.t) (uuid4 : UUID)
    : option ExpenseModel.t * FileSystem.t :=
  match uploaded_filename invoice_image with
  | None => (Some expense, fs)
  | Some filename =>
      let removed :=
        match ExpenseModel.invoice_image expense with
        | Some old =>
            if truthy (Some old) then
              let old_file_path := os_path_join INVOICE_UPLOAD_DIR old in
              if os_path_exists fs old_file_path
              then os_remove fs old_file_path
              else Some fs
            else Some fs
        | None => Some fs
        end in
      match removed with
      | None => (None, fs)
      | Some fs1 =>
          let file_extension := splitext_ext filename in
          let new_image_filename := (uuid4 ++ file_extension)%string in
          let new_file_path :=
            os_path_join INVOICE_UPLOAD_DIR new_image_filename in
          match write_file fs1 new_file_path with
          | None => (None, fs1)
          | Some fs2 =>
              (Some (Row.set_invoice_image (Some new_image_filename) expense),
               fs2)
          end
      end
  end.

(** [update_expense], expense.py lines 181-243. *)
Definition update_expense (db : AsyncSession.t) (fs : FileSystem.t)
    (expense_id : UUID) (expense_update : ExpenseUpdate.t)
    (invoice_image : option UploadFile.t)
    (uuid4 : UUID) (now : Datetime.t) : outcome ExpenseModel.t :=
  match select_by_id db expense_id with
  | None => (inl (ValueError "Expense not found"), db, fs)
  | Some expense =>
      let expense := assign_fields expense_update expense in
      match replace_invoice_image fs expense invoice_image uuid4 with
      | (None, fs') => (inl (RuntimeError "Error updating expense"), db, fs')
      | (Some expense, fs') =>
          let expense := Row.set_updated_at now expense in
          (inr expense, commit_update db expense, fs')
      end
  end.

(** [delete_expense], expense.py lines 246-289. *)
Definition delete_expense (db : AsyncSession.t) (fs : FileSystem.t)
    (expense_id : UUID) : outcome bool :=
  match select_by_id db expense_id with
  | None => (inl (ValueError "Expense not found"), db, fs)
  | Some expense =>
      let removed :=
        match ExpenseModel.invoice_image expense with
        | Some image =>
            if truthy (Some image) then
              let old_file_path := os_path_join INVOICE_UPLOAD_DIR image in
              if os_path_exists fs old_file_path
              then os_remove fs old_file_path
              else Some fs
            else Some fs
        | None => Some fs
        end in
      match removed with
      | None => (inl (RuntimeError "Error deleting expense"), db, fs)
      | Some fs' => (inr true, commit_delete db expense, fs')
      end
  end.

End Repository.

(** ** The routes: [api/routes/expense.py] *)

(** What an endpoint gives back: a body with its status code, or the
    [HTTPException] it raises. *)
Inductive response (A : Type) : Type :=
  | Response (status_code : Z) (body : A)
  | HTTPException (status_code : Z) (detail : string).
Arguments Response {A} status_code body.
Arguments HTTPException {A} status_code detail.

Definition status_code_of {A : Type} (r : response A) : Z :=
  match r with
  | Response c _ => c
  | HTTPException c _ => c
  end.

(** The form field holding JSON text, as [json.loads] sees it. *)
Inductive form : Type :=
  | JSONDecodeError
  | Decoded (data : Payload.t).

Definition str_int (z : Z) : string := NilZero.string_of_int (Z.to_int z).

(** [str(e)] of a [ValidationError]: one line per error. *)
Definition str_errors (errs : list ErrorDetails) : string :=
  fold_right (fun e acc => (fst e ++ ": " ++ snd e ++ "; " ++ acc)%string)
             EmptyString errs.

(** [utilities/messages/exceptions/http/exc_details.py] *)
Definition expense_update_not_found (expense_id : UUID) : string :=
  ("No expense found with ID '" ++ expense_id
   ++ "' for update. Please check the ID and try again.")%string.

Definition expense_deletion_not_found (expense_id : UUID) : string :=
  ("No expense found with ID '" ++ expense_id
   ++ "' for deletion. Please check the ID and try again.")%string.

Definition expense_unexpected_error_create (subject : string) : string :=
  ("An unexpected error occurred while creating the expense '" ++ subject
   ++ "'. Please try again later.")%string.

Definition expense_unexpected_error_update (expense_id : UUID) : string :=
  ("An unexpected error occurred while updating the expense with ID '"
   ++ expense_id ++ "'. Please try again later.")%string.

Definition expense_unexpected_error_delete (expense_id : UUID) : string :=
  ("An unexpected error occurred while deleting the expense with ID '"
   ++ expense_id ++ "'. Please try again later.")%string.

(** [get_general_summary_endpoint], routes lines 304-344.  The handlers for
    [ValueError] and [Exception] catch what the two repository calls raise;
    these calls raise nothing here. *)
Definition get_general_summary_endpoint (year : option Z)
    (db : AsyncSession.t) (now : Datetime.t) : response GeneralSummary.t :=
  let available_years := get_available_years db in
  match available_years with
  | [] => HTTPException 404 "No expense data available."
  | most_recent :: _ =>
      match year with
      | None => Response 200 (get_general_summary_data db most_recent now)
      | Some year =>
          if negb (in_ year available_years)
          then HTTPException 400
                 ("No data available for year " ++ str_int year)%string
          else Response 200 (get_general_summary_data db year now)
      end
  end.

(** The body of a successful delete: [{"message": ..., "result": ...}]. *)
Module Deleted.
Record t := make { message : string; result : bool }.
End Deleted.

Section Routes.
Variable INVOICE_UPLOAD_DIR : string.
Variable splitext_ext : string -> string.

(** [create_expense_endpoint], routes lines 96-147.  A pydantic
    [ValidationError] is a [ValueError]. *)
Definition create_expense_endpoint (expense : form) (current_user : UUID)
    (db : AsyncSession.t) (fs : FileSystem.t)
    (invoice_image : option UploadFile.t)
    (uuid4 new_id : UUID) (now : Datetime.t)
    : response ExpenseModel.t * AsyncSession.t * FileSystem.t :=
  match expense with
  | JSONDecodeError =>
      (HTTPException 400 "Invalid JSON in expense data", db, fs)
  | Decoded expense_data =>
      match ExpenseCreate.validate expense_data with
      | inl errs => (HTTPException 400 (str_errors errs), db, fs)
      | inr expense_obj =>
          match create_expense INVOICE_UPLOAD_DIR splitext_ext db fs
                  current_user expense_obj invoice_image uuid4 new_id now with
          | (inl (ValueError msg), db', fs') =>
              (HTTPException 400 msg, db', fs')
          | (inl (RuntimeError _), db', fs') =>
              (HTTPException 500
                 (expense_unexpected_error_create
                    (ExpenseCreate.subject expense_obj)), db', fs')
          | (inr db_expense, db', fs') =>
              match ExpenseSchema.from_orm db_expense with
              | inl errs => (HTTPException 400 (str_errors errs), db', fs')
              | inr body => (Response 201 body, db', fs')
              end
          end
      end
  end.

(** [update_expense_endpoint], routes lines 498-539.  Every [ValueError],
    the one of the decoder and the one of the schema included, is answered
    with 404. *)
Definition update_expense_endpoint (expense_id : UUID) (expense_update : form)
    (db : AsyncSession.t) (fs : FileSystem.t)
    (invoice_image : option UploadFile.t)
    (uuid4 : UUID) (now : Datetime.t)
    : response ExpenseModel.t * AsyncSession.t * FileSystem.t :=
  match expense_update with
  | JSONDecodeError =>
      (HTTPException 404 (expense_update_not_found expense_id), db, fs)
  | Decoded expense_update_data =>
      match ExpenseUpdate.validate expense_update_data with
      | inl _ =>
          (HTTPException 404 (expense_update_not_found expense_id), db, fs)
      | inr expense_update_obj =>
          match update_expense INVOICE_UPLOAD_DIR splitext_ext db fs
                  expense_id expense_update_obj invoice_image uuid4 now with
          | (inl (ValueError _), db', fs') =>
              (HTTPException 404 (expense_update_not_found expense_id),
               db', fs')
          | (inl (RuntimeError _), db', fs') =>
              (HTTPException 500 (expense_unexpected_error_update expense_id),
               db', fs')
          | (inr db_expense, db', fs') =>
              match ExpenseSchema.from_orm db_expense with
              | inl _ =>
                  (HTTPException 404 (expense_update_not_found expense_id),
                   db', fs')
              | inr body => (Response 200 body, db', fs')
              end
          end
      end
  end.

(** [delete_expense_endpoint], routes lines 549-585. *)
Definition delete_expense_endpoint (expense_id : UUID)
    (db : AsyncSession.t) (fs : FileSystem.t)
    : response Deleted.t * AsyncSession.t * FileSystem.t :=
  match delete_expense INVOICE_UPLOAD_DIR db fs expense_id with
  | (inl (ValueError _), db', fs') =>
      (HTTPException 404 (expense_deletion_not_found expense_id), db', fs')
  | (inl (RuntimeError _), db', fs') =>
      (HTTPException 500 (expense_unexpected_error_delete expense_id),
       db', fs')
  | (inr result, db', fs') =>
      (Response 200 (Deleted.make "Expense deleted successfully" result),
       db', fs')
  end.

End Routes.

(** ** Reference definitions, in the words of the specification *)

(** Quarters: Q1 Jan-Mar, Q2 Apr-Jun, Q3 Jul-Sep, Q4 Oct-Dec. *)
Definition quarter_months (q : Z) : list Z := [3 * q - 2; 3 * q - 1; 3 * q].

(** The sum of the amounts of the expenses of [year] dated in one of
    [months]. *)
Definition spending (db : AsyncSession.t) (year : Z) (months : list Z) : Q :=
  Qsum (map ExpenseModel.amount
          (filter (fun e => (extract_year e =? year)
                            && in_ (extract_month e) months)
                  (AsyncSession.expenses db))).

(** The sum of the amounts of all the expenses of [year]. *)
Definition spending_of_year (db : AsyncSession.t) (year : Z) : Q :=
  Qsum (map ExpenseModel.amount
          (filter (fun e => extract_year e =? year)
                  (AsyncSession.expenses db))).

(** Some expense is stored under [expense_id]. *)
Definition has_id (db : AsyncSession.t) (expense_id : UUID) : Prop :=
  exists e, In e (AsyncSession.expenses db)
            /\ ExpenseModel.expenses_id e = expense_id.

(** The expense has an attachment filename, the file is there, and the
    operating system refuses to remove it. *)
Definition attachment_removal_fails (upload_dir : string) (fs : FileSystem.t)
    (expense : ExpenseModel.t) : Prop :=
  exists image,
    ExpenseModel.invoice_image expense = Some image
    /\ image <> EmptyString
    /\ os_path_exists fs (os_path_join upload_dir image) = true
    /\ FileSystem.remove_fails fs (os_path_join upload_dir image) = true.

(** A partial update of one attribute: a value of the payload replaces the
    stored one, [None] keeps it. *)
Definition overwrite {A : Type} (payload : option A) (stored : A) : A :=
  match payload with
  | Some v => v
  | None => stored
  end.

Definition overwrite_optional {A : Type} (payload : option A)
    (stored : option A) : option A :=
  match payload with
  | Some v => Some v
  | None => stored
  end.

(** A text of at least two words: a character that is not white space,
    later a white-space character, later again one that is not. *)
Definition two_words (s : string) : Prop :=
  exists a c1 b c2 c c3 d,
    s = (a ++ String c1 (b ++ String c2 (c ++ String c3 d)))%string
    /\ isspace c1 = false /\ isspace c2 = true /\ isspace c3 = false.

Definition starts_with_digit (s : string) : Prop :=
  exists c rest, s = String c rest /\ isdigit c = true.

(** The same three conditions, decided from left to right. *)
Fixpoint has_word (s : string) : bool :=
  match s with
  | EmptyString => false
  | String c s' => negb (isspace c) || has_word s'
  end.

Fixpoint space_then_word (s : string) : bool :=
  match s with
  | EmptyString => false
  | String c s' => if isspace c then has_word s' else space_then_word s'
  end.

Fixpoint two_wordsb (s : string) : bool :=
  match s with
  | EmptyString => false
  | String c s' => if isspace c then two_wordsb s' else space_then_word s'
  end.

(** The constraints of section 3 of the specification on what a client
    sends to create an expense. *)
Definition well_formed (p : Payload.t) : Prop :=
  (exists c, Payload.category_id p = Value c)
  /\ (exists s, Payload.subject p = Value s
                /\ (2 <= String.length s <= 100)%nat)
  /\ (exists d, Payload.expense_date p = Value d)
  /\ (exists a, Payload.amount p = Value a /\ (0 < a)%Q)
  /\ Payload.reimbursable p <> Null
  /\ (forall s, Payload.description p = Value s ->
                two_words s /\ (String.length s <= 500)%nat)
  /\ (forall s, Payload.employee p = Value s ->
                (2 <= String.length s <= 100)%nat /\ ~ starts_with_digit s).

(** The two constraints of the data model that an update could break:
    a strictly positive amount and a subject of 2 to 100 characters. *)
Definition row_constraints (e : ExpenseModel.t) : Prop :=
  (0 < ExpenseModel.amount e)%Q
  /\ (2 <= String.length (ExpenseModel.subject e) <= 100)%nat.

(** The payload leaves the field out, or sends [null]. *)
Definition omitted {A : Type} (f : field A) : Prop := forall a, f <> Value a.

(** The sum of the amounts of the expenses of [year] in one category. *)
Definition category_spending (db : AsyncSession.t) (year : Z)
    (category_id : UUID) : Q :=
  Qsum (map ExpenseModel.amount
          (filter (fun e => (extract_year e =? year)
                            && String.eqb (ExpenseModel.category_id e)
                                          category_id)
                  (AsyncSession.expenses db))).

(** The months of [year] in which some expense is dated, latest first, and
    the rollup the specification describes: the first five of them, each
    with its abbreviation and the sum of its amounts. *)
Definition has_data (db : AsyncSession.t) (year : Z) (m : Z) : bool :=
  existsb (fun e => (extract_year e =? year) && (extract_month e =? m))
          (AsyncSession.expenses db).

Definition months_descending : list Z := [12; 11; 10; 9; 8; 7; 6; 5; 4; 3; 2; 1].

Definition months_with_data (db : AsyncSession.t) (year : Z) : list Z :=
  filter (has_data db year) months_descending.

Definition last_5_months (db : AsyncSession.t) (year : Z)
    : list MonthTotal.t :=
  map (fun m => MonthTotal.make (strftime_b m) (spending db year [m]))
      (firstn 5 (months_with_data db year)).

(** Every stored date is a calendar date. *)
Definition valid_dates (db : AsyncSession.t) : Prop :=
  forall e, In e (AsyncSession.expenses db) ->
            Date.valid (ExpenseModel.expense_date e).

(** What the loop of [get_last_5_months_summary] has built after the
    records [seen]: one entry per month seen, under the abbreviation of the
    month, holding the number of the month and the sum of its records. *)
Definition record_month (r : Date.t * Q) : Z := Date.month (fst r).

Definition month_sum (m : Z) (seen : list (Date.t * Q)) : Q :=
  Qsum (map snd (filter (fun r => record_month r =? m) seen)).

Definition monthly_totals_of (monthly_totals : dict MonthData.t)
    (seen : list (Date.t * Q)) : Prop :=
  NoDup (map fst monthly_totals)
  /\ (forall k, In k (map fst monthly_totals) ->
        exists m, k = strftime_b m /\ In m (map record_month seen))
  /\ (forall m, In m (map record_month seen) ->
        exists data,
          dict_get (strftime_b m) monthly_totals = Some data
          /\ MonthData.month_num data = m
          /\ (MonthData.amount data == month_sum m seen)%Q).

(** The entry a record is added to: the one of its month, or a new one. *)
Definition entry_before (monthly_totals : dict MonthData.t)
    (record : Date.t * Q) : MonthData.t :=
  match dict_get (strftime_b (record_month record)) monthly_totals with
  | Some data => data
  | None => MonthData.make 0%Q (record_month record)
  end.

(** ** Test data: [tests/unit_tests/test_expense.py] *)

Module Fixture.
#[local] Open Scope string_scope.

Definition created_at : Datetime.t := Datetime.make 2024 9 18 12 0 0 0.

Definition expense (id : UUID) (category_id : UUID) (subject : string)
    (d : Date.t) (amount : Q) : ExpenseModel.t :=
  ExpenseModel.make id "user-1" category_id subject d amount false
                    None None None created_at.

Definition test_category : Category.t :=
  Category.make "cat-1" "Test Category_ab12cd" true.

(** [test_get_general_summary] *)
Definition general_summary_db : AsyncSession.t :=
  AsyncSession.make
    [ expense "e1" "cat-1" "Expense 1" (Date.make 2024 1 15) 100;
      expense "e2" "cat-1" "Expense 2" (Date.make 2024 2 20) 200;
      expense "e3" "cat-1" "Expense 3" (Date.make 2024 3 25) 150;
      expense "e4" "cat-1" "Expense 4" (Date.make 2024 4 10) 300;
      expense "e5" "cat-1" "Expense 5" (Date.make 2024 7 5) 250;
      expense "e6" "cat-1" "Expense 6" (Date.make 2024 8 15) 50 ]
    [ test_category ].

(** [test_get_last_5_months_summary] *)
Definition last_5_months_db : AsyncSession.t :=
  AsyncSession.make
    [ expense "e1" "cat-1" "Expense 1" (Date.make 2024 7 1) 100;
      expense "e2" "cat-1" "Expense 2" (Date.make 2024 8 1) 200;
      expense "e3" "cat-1" "Expense 3" (Date.make 2024 9 1) 150;
      expense "e4" "cat-1" "Expense 4" (Date.make 2024 10 1) 300;
      expense "e5" "cat-1" "Expense 5" (Date.make 2024 11 1) 250;
      expense "e6" "cat-1" "Expense 6" (Date.make 2024 12 1) 50 ]
    [ test_category ].

(** [test_get_expenses_by_category_recent_year] *)
Definition by_category_db : AsyncSession.t :=
  AsyncSession.make
    [ expense "e1" "cat-1" "Expense 1" (Date.make 2023 1 1) 10;
      expense "e2" "cat-1" "Expense 2" (Date.make 2023 1 1) 20;
      expense "e3" "cat-1" "Expense 3" (Date.make 2023 1 1) 30;
      expense "e4" "cat-1" "Expense 4" (Date.make 2023 1 1) 40;
      expense "e5" "cat-1" "Expense 5" (Date.make 2023 1 1) 50 ]
    [ test_category ].

(** Two categories, three months, two years; two expenses share a date. *)
Definition mixed_db : AsyncSession.t :=
  AsyncSession.make
    [ expense "e1" "cat-1" "Taxi" (Date.make 2024 3 2) 30;
      expense "e2" "cat-2" "Hotel" (Date.make 2024 3 2) 120;
      expense "e3" "cat-1" "Train" (Date.make 2024 1 9) (25 # 2);
      expense "e4" "cat-2" "Dinner" (Date.make 2024 3 17) (81 # 2);
      expense "e5" "cat-1" "Flight" (Date.make 2023 11 5) 400 ]
    [ test_category; Category.make "cat-2" "Lodging" true ].
End Fixture.

Module Sample.
#[local] Open Scope string_scope.

Definition now : Datetime.t := Datetime.make 2024 8 20 10 30 0 0.

Definition empty_db : AsyncSession.t := AsyncSession.make [] [].

Definition upload_dir : string := "uploads".

(** The extension of a file name with a single dot. *)
Definition splitext_ext (filename : string) : string :=
  match index 0 "." filename with
  | Some i => substring i (String.length filename - i) filename
  | None => ""
  end.

(** An expense with a receipt, and one without. *)
Definition with_receipt : ExpenseModel.t :=
  ExpenseModel.make "e1" "user-1" "cat-1" "Business Lunch"
    (Date.make 2024 9 18) 50 true (Some "Lunch with a client")
    (Some "receipt-1.png") (Some "John Doe") Fixture.created_at.

Definition without_receipt : ExpenseModel.t :=
  ExpenseModel.make "e2" "user-1" "cat-1" "Team Outing"
    (Date.make 2024 9 18) 120 true (Some "Lunch for team outing")
    None (Some "Jane Doe") Fixture.created_at.

Definition db : AsyncSession.t :=
  AsyncSession.make [with_receipt; without_receipt] [Fixture.test_category].

(** A payload as [update_expense] may see it: two attributes set. *)
Definition two_attributes : ExpenseUpdate.t :=
  ExpenseUpdate.make None (Some "Updated Business Lunch") None (Some 75%Q)
                     None None None.

Definition later : Datetime.t := Datetime.make 2024 9 20 9 0 0 0.

Definition new_receipt : UploadFile.t := UploadFile.make (Some "scan.jpg").

(** [test_create_expense], and the same with a one-word description;
    [only_optional] leaves out the four required fields. *)
Definition business_lunch : Payload.t :=
  Payload.make (Value "cat-1") (Value "Business Lunch")
    (Value (Date.make 2024 9 18)) (Value 50%Q) (Value false)
    (Value "Lunch with a client") (Value "John Doe").

Definition one_word : Payload.t :=
  Payload.make (Value "cat-1") (Value "Business Lunch")
    (Value (Date.make 2024 9 18)) (Value 50%Q) (Value false)
    (Value "Lunch") (Value "John Doe").

Definition only_optional : Payload.t :=
  Payload.make Absent Absent Absent Absent Absent
    (Value "Updated description") (Value "Jane Doe").

(** A full payload that leaves out the three optional fields. *)
Definition required_only : Payload.t :=
  Payload.make (Value "cat-1") (Value "Updated Business Lunch")
    (Value (Date.make 2024 9 20)) (Value 75%Q) Absent Absent Absent.

Definition lodging : Category.t := Category.make "cat-2" "Lodging" true.

(** The receipt is on disk; [locked] cannot be changed. *)
Definition fs : FileSystem.t :=
  FileSystem.make ["uploads/receipt-1.png"] (fun _ => false) (fun _ => false).

Definition locked : FileSystem.t :=
  FileSystem.make ["uploads/receipt-1.png"] (fun _ => true) (fun _ => true).
End Sample.

(** ** The other queries of the repository *)

(** [str.lower()] and SQL [lower] on code points below 256: the letters A-Z
    and the accented capitals, the multiplication sign apart. *)
Definition lower_char (c : ascii) : ascii :=
  let n := nat_of_ascii c in
  if ((65 <=? n) && (n <=? 90)
      || (192 <=? n) && (n <=? 222) && negb (n =? 215))%nat
  then ascii_of_nat (n + 32)
  else c.

Fixpoint lower (s : string) : string :=
  match s with
  | EmptyString => EmptyString
  | String c s' => String (lower_char c) (lower s')
  end.

(** SQL [LIKE] without an [ESCAPE] clause: [%] stands for any run of
    characters, [_] for any one character.  The escape character some
    dialects give a pattern by default (the backslash) is not modelled;
    the properties below are about patterns without it. *)
Fixpoint like (pattern text : string) {struct pattern} : bool :=
  match pattern with
  | EmptyString =>
      match text with EmptyString => true | String _ _ => false end
  | String c p =>
      if Ascii.eqb c "%" then
        (fix any (t : string) : bool :=
           like p t
           || match t with
              | EmptyString => false
              | String _ t' => any t'
              end) text
      else
        match text with
        | EmptyString => false
        | String d t' => (Ascii.eqb c "_" || Ascii.eqb c d) && like p t'
        end
  end.

(** SQL conditions have three values; [None] is NULL.  [ilike] compares
    without regard to case; [WHERE] keeps the rows whose condition is
    true. *)
Definition sql_lower (v : option string) : option string :=
  match v with
  | Some x => Some (lower x)
  | None => None
  end.

Definition ilike (v : option string) (pattern : string) : option bool :=
  match v with
  | Some x => Some (like (lower pattern) (lower x))
  | None => None
  end.

Definition sql_or (a b : option bool) : option bool :=
  match a, b with
  | Some true, _ => Some true
  | _, Some true => Some true
  | Some false, Some false => Some false
  | _, _ => None
  end.

Definition is_true (a : option bool) : bool :=
  match a with
  | Some true => true
  | _ => false
  end.

(** [ORDER BY expense_date DESC] *)
Definition order_by_date_desc {A : Type} (key : A -> Date.t) (l : list A)
    : list A :=
  stable_sort (fun x y => Date.ltb (key x) (key y)) l.

(** The query [get_expenses] builds, expense.py lines 138-148. *)
Definition select_expenses (db : AsyncSession.t) (search : option string)
    (sort_order : string) : list ExpenseModel.t :=
  let query := AsyncSession.expenses db in
  let query :=
    if truthy search then
      match search with
      | Some search =>
          let search := lower search in
          let pattern := ("%" ++ search ++ "%")%string in
          filter (fun e =>
              is_true
                (sql_or
                   (ilike (sql_lower (Some (ExpenseModel.subject e))) pattern)
                   (ilike (sql_lower (ExpenseModel.employee e)) pattern)))
            query
      | None => query
      end
    else query in
  if String.eqb sort_order "asc"
  then order_by_date ExpenseModel.expense_date query
  else order_by_date_desc ExpenseModel.expense_date query.

(** [fastapi_pagination]: [Params] and [Page], and [paginate], which counts
    the rows of the query and reads those of one page with LIMIT and
    OFFSET. *)
Module Params.
Record t := make { page : nat; size : nat }.
End Params.

Module Page.
Record t (A : Type) := make {
  items : list A;
  total : nat;
  page : nat;
  size : nat;
  pages : nat }.
Arguments make {A} items total page size pages.
Arguments items {A} t.
Arguments total {A} t.
Arguments page {A} t.
Arguments size {A} t.
Arguments pages {A} t.
End Page.

Definition paginate {A : Type} (query : list A) (params : Params.t)
    : Page.t A :=
  let size := Params.size params in
  let page := Params.page params in
  Page.make (firstn size (skipn ((page - 1) * size) query))
            (List.length query) page size
            ((List.length query + size - 1) / size)%nat.

(** [get_expenses], expense.py lines 118-154. *)
Definition get_expenses (db : AsyncSession.t) (params : Params.t)
    (search : option string) (sort_order : string) : Page.t ExpenseModel.t :=
  paginate (select_expenses db search sort_order) params.

(** [get_all_expenses], expense.py lines 157-178: every row is read through
    the response schema, and one row it refuses fails the whole call. *)
Definition get_all_expenses (db : AsyncSession.t)
    : exn + list ExpenseModel.t :=
  fold_right (fun expense acc =>
      match ExpenseSchema.from_orm expense, acc with
      | inr e, inr l => inr (e :: l)
      | _, _ => inl (RuntimeError "Error retrieving all expenses")
      end)
    (inr []) (AsyncSession.expenses db).

(** The [users] table of the migration. *)
Module UserModel.
Record t := make {
  user_id : UUID;
  username : string;
  hashed_password : string;
  is_active : option bool;
  timestamp : Datetime.t }.
End UserModel.

(** Rows of [get_recent_expenses]. *)
Module RecentExpense.
Record t := make {
  subject : string;
  amount : Q;
  added_by : string;
  category_name : string }.
End RecentExpense.

(** The query of [get_recent_expenses]: each expense joined to its user and
    its category, latest date first, five rows at most.  Rows of equal
    date keep the order of the table; SQL leaves their order open. *)
Definition select_recent (db : AsyncSession.t) (users : list UserModel.t)
    : list (ExpenseModel.t * UserModel.t * Category.t) :=
  let joined :=
    flat_map (fun e =>
        flat_map (fun u =>
            map (fun c => (e, u, c))
                (filter (fun c => String.eqb (ExpenseModel.category_id e)
                                             (Category.category_id c))
                        (AsyncSession.category db)))
          (filter (fun u => String.eqb (ExpenseModel.user_id e)
                                       (UserModel.user_id u))
                  users))
      (AsyncSession.expenses db) in
  firstn 5
    (order_by_date_desc (fun r => ExpenseModel.expense_date (fst (fst r)))
                        joined).

(** [get_recent_expenses], expense.py lines 380-421; the session holds the
    [users] table as well. *)
Definition get_recent_expenses (db : AsyncSession.t) (users : list UserModel.t)
    : list RecentExpense.t :=
  map (fun r =>
      RecentExpense.make (ExpenseModel.subject (fst (fst r)))
                         (ExpenseModel.amount (fst (fst r)))
                         (UserModel.username (snd (fst r)))
                         (Category.name (snd r)))
    (select_recent db users).

(** ** The other routes *)

(** What the body of a route raises before its handlers see it. *)
Inductive raised : Type :=
  | Raise_HTTPException (status_code : Z) (detail : string)
  | Raise_ValueError (msg : string)
  | Raise_RuntimeError (msg : string).

Definition expense_not_found (expense_id : UUID) : string :=
  ("No expense found with ID '" ++ expense_id
   ++ "'. Please check the ID and try again.")%string.

Definition expense_unexpected_error_retrieve_by_id (expense_id : UUID)
    : string :=
  ("An unexpected error occurred while retrieving the expense with ID '"
   ++ expense_id ++ "'. Please try again later.")%string.

Definition expense_unexpected_error_list : string :=
  "An unexpected error occurred while retrieving the list of expenses. Please try again later.".

Definition expense_recent_not_found : string :=
  "No recent expenses found. Please check your data or try again later.".

Definition expenses_not_found : string :=
  "No expenses found. Please enter expense and try again.".

(** [get_recent_expenses_endpoint], routes lines 158-199. *)
Definition get_recent_expenses_endpoint (db : AsyncSession.t)
    (users : list UserModel.t) : response (list RecentExpense.t) :=
  match get_recent_expenses db users with
  | [] => HTTPException 404 expense_recent_not_found
  | recent_expenses => Response 200 recent_expenses
  end.

(** [fetch_all_expenses], routes lines 257-291. *)
Definition fetch_all_expenses (db : AsyncSession.t)
    : response (list ExpenseModel.t) :=
  match get_all_expenses db with
  | inl _ => HTTPException 500 expense_unexpected_error_list
  | inr [] => HTTPException 404 expenses_not_found
  | inr expenses => Response 200 expenses
  end.

(** [get_last_5_months_summary_endpoint], routes lines 355-391. *)
Definition get_last_5_months_summary_endpoint (year : Z)
    (db : AsyncSession.t) : response (list MonthTotal.t) :=
  match get_last_5_months_summary db year with
  | [] => HTTPException 404 ("No data found for year " ++ str_int year)%string
  | result => Response 200 result
  end.

(** The [try] block of [get_expenses_by_category_endpoint], routes lines
    415-429. *)
Definition expenses_by_category_try (year : option Z) (db : AsyncSession.t)
    : raised + list CategoryTotal.t :=
  let available_years := get_available_years db in
  match available_years with
  | [] => inl (Raise_HTTPException 404 "No expense data available.")
  | most_recent :: _ =>
      match year with
      | None => inr (get_expenses_by_category db most_recent)
      | Some year =>
          if negb (in_ year available_years)
          then inl (Raise_HTTPException 400
                      ("No data available for year " ++ str_int year)%string)
          else inr (get_expenses_by_category db year)
      end
  end.

(** [get_expenses_by_category_endpoint], routes lines 403-440.  Its
    handlers are [except ValueError] and [except Exception]: there is no
    [except HTTPException] before them, and an [HTTPException] is an
    [Exception]. *)
Definition get_expenses_by_category_endpoint (year : option Z)
    (db : AsyncSession.t) : response (list CategoryTotal.t) :=
  match expenses_by_category_try year db with
  | inr rows => Response 200 rows
  | inl (Raise_ValueError msg) => HTTPException 400 msg
  | inl _ =>
      HTTPException 500
        "An unexpected error occurred while retrieving expenses by category."
  end.

(** [get_expense_endpoint], routes lines 451-487.  The [ValidationError] of
    the response schema is a [ValueError] and is answered like a missing
    row. *)
Definition get_expense_endpoint (expense_id : UUID) (db : AsyncSession.t)
    : response ExpenseModel.t :=
  match get_expense_by_id db expense_id with
  | inl (ValueError _) => HTTPException 404 (expense_not_found expense_id)
  | inl (RuntimeError _) =>
      HTTPException 500 (expense_unexpected_error_retrieve_by_id expense_id)
  | inr db_expense =>
      match ExpenseSchema.from_orm db_expense with
      | inl _ => HTTPException 404 (expense_not_found expense_id)
      | inr body => Response 200 body
      end
  end.

(** ** The user schemas: [models/schemas/user.py] *)

(** [re.search] for a character class. *)
Fixpoint re_search (class : ascii -> bool) (s : string) : bool :=
  match s with
  | EmptyString => false
  | String c s' => class c || re_search class s'
  end.

Definition isupper (c : ascii) : bool :=
  let n := nat_of_ascii c in ((65 <=? n) && (n <=? 90))%nat.

Definition islower (c : ascii) : bool :=
  let n := nat_of_ascii c in ((97 <=? n) && (n <=? 122))%nat.

(** The class of [validate_password], by code: ! @ # $ % ^ & * ( ) , . ? the
    double quote : { } | < > *)
Definition isspecial (c : ascii) : bool :=
  existsb (Nat.eqb (nat_of_ascii c))
    [33; 64; 35; 36; 37; 94; 38; 42; 40; 41; 44; 46; 63; 34; 58; 123; 125;
     124; 60; 62]%nat.

Module UserCreate.
Record t := make { username : string; password : string }.

(** The decoded body of [/register]. *)
Record payload := make_payload {
  payload_username : field string;
  payload_password : field string }.

(** [validate_password], user.py lines 46-69. *)
Definition validate_password (password : string) : string + string :=
  if negb (re_search isupper password)
  then inl "Password must contain at least one uppercase letter"%string
  else if negb (re_search islower password)
  then inl "Password must contain at least one lowercase letter"%string
  else if negb (re_search isdigit password)
  then inl "Password must contain at least one digit"%string
  else if negb (re_search isspecial password)
  then inl "Password must contain at least one special character"%string
  else inr password.

Definition validate_username_field (f : field string) : validated string :=
  required "username" f (fun s =>
    if (String.length s <? 3)%nat
    then Some "String should have at least 3 characters"%string
    else if (80 <? String.length s)%nat
    then Some "String should have at most 80 characters"%string
    else None).

(** [password: str = Field(..., min_length=8)], then the validator. *)
Definition validate_password_field (f : field string) : validated string :=
  required "password" f (fun s =>
    if (String.length s <? 8)%nat
    then Some "String should have at least 8 characters"%string
    else match validate_password s with
         | inl msg => Some msg
         | inr _ => None
         end).

Definition validate (p : payload) : validated t :=
  let username := validate_username_field (payload_username p) in
  let password := validate_password_field (payload_password p) in
  match username, password with
  | inr u, inr w => inr (make u w)
  | _, _ => inl (errors_of username ++ errors_of password)
  end.
End UserCreate.

(** ** Further reference definitions *)

(** A row the response schema accepts. *)
Definition readable (e : ExpenseModel.t) : Prop :=
  ExpenseSchema.from_orm e = inr e.

(** The primary key of the [expenses] table. *)
Definition primary_key (db : AsyncSession.t) : Prop :=
  NoDup (map ExpenseModel.expenses_id (AsyncSession.expenses db)).

(** The path under which an upload is stored. *)
Definition image_path (upload_dir : string) (splitext_ext : string -> string)
    (uuid4 : UUID) (filename : string) : string :=
  os_path_join upload_dir (uuid4 ++ splitext_ext filename)%string.

(** The category is a row of [category]: the foreign key of [expenses]. *)
Definition category_exists (db : AsyncSession.t) (category_id : UUID) : Prop :=
  In category_id (map Category.category_id (AsyncSession.category db)).

(** What the database checks when [create_expense] commits: the generated
    key is new, and the category of the payload is a row of [category].
    The user is the one the session authenticated, a row of [users]. *)
Definition insertable (db : AsyncSession.t) (new_id : UUID) (expense : form)
    : Prop :=
  ~ has_id db new_id
  /\ forall p c, expense = Decoded p -> Payload.category_id p = Value c ->
                 category_exists db c.

(** The row [create_expense] builds from the validated object. *)
Definition new_row (new_id user_id : UUID) (expense : ExpenseCreate.t)
    (image_filename : option string) (now : Datetime.t) : ExpenseModel.t :=
  ExpenseModel.make new_id user_id
    (ExpenseCreate.category_id expense)
    (ExpenseCreate.subject expense)
    (ExpenseCreate.expense_date expense)
    (ExpenseCreate.amount expense)
    (ExpenseCreate.reimbursable expense)
    (ExpenseCreate.description expense)
    image_filename
    (ExpenseCreate.employee expense)
    now.

(** The file an expense refers to, when it names one. *)
Definition attachment_path (upload_dir : string) (e : ExpenseModel.t)
    : option string :=
  match ExpenseModel.invoice_image e with
  | Some image =>
      if truthy (Some image) then Some (os_path_join upload_dir image)
      else None
  | None => None
  end.

Module Scenario.
#[local] Open Scope string_scope.

(** A directory that holds the receipt and takes no new file. *)
Definition full : FileSystem.t :=
  FileSystem.make ["uploads/receipt-1.png"] (fun _ => false) (fun _ => true).

(** The [users] table of the tests: one user. *)
Definition users : list UserModel.t :=
  [UserModel.make "user-1" "testuser" "hashed" (Some true) Fixture.created_at].

(** A payload dated in a year without expenses so far. *)
Definition new_year_dinner : Payload.t :=
  Payload.make (Value "cat-1") (Value "New year dinner")
    (Value (Date.make 2025 1 2)) (Value 90%Q) Absent Absent Absent.

Definition flight : ExpenseModel.t :=
  Fixture.expense "e5" "cat-1" "Flight" (Date.make 2023 11 5) 400.
End Scenario.

Module Legacy.
#[local] Open Scope string_scope.

(** A row written before the schema had its validators: the description
    has one word. *)
Definition imported : ExpenseModel.t :=
  ExpenseModel.make "e0" "user-1" "cat-1" "Stationery"
    (Date.make 2023 12 1) 15 false (Some "Pens") None None Fixture.created_at.

Definition db : AsyncSession.t :=
  AsyncSession.make [Sample.with_receipt; imported] [Fixture.test_category].
End Legacy.

(** Dates in calendar order. *)
Definition date_le (a b : Date.t) : Prop := Date.ltb b a = false.

(** [text] has [s] as a substring. *)
Definition contains (text s : string) : Prop :=
  exists a b, text = (a ++ s ++ b)%string.

(** A search text without the characters LIKE gives a meaning to: the
    per cent sign, the underscore and the backslash. *)
Definition plain_char (c : ascii) : bool :=
  negb (Ascii.eqb c "%") && negb (Ascii.eqb c "_")
  && negb (Nat.eqb (nat_of_ascii c) 92).

Fixpoint plain (s : string) : bool :=
  match s with
  | EmptyString => true
  | String c s' => plain_char c && plain s'
  end.

(** The primary key of [category], and the foreign key of [expenses]. *)
Definition category_primary_key (db : AsyncSession.t) : Prop :=
  NoDup (map Category.category_id (AsyncSession.category db)).

Definition category_foreign_key (db : AsyncSession.t) : Prop :=
  forall e, In e (AsyncSession.expenses db) ->
            category_exists db (ExpenseModel.category_id e).

(** The user and the category an expense refers to, and the row of
    [get_recent_expenses] for it. *)
Definition user_of (users : list UserModel.t) (e : ExpenseModel.t)
    : option UserModel.t :=
  find (fun u => String.eqb (ExpenseModel.user_id e) (UserModel.user_id u))
       users.

Definition category_of (db : AsyncSession.t) (e : ExpenseModel.t)
    : option Category.t :=
  find (fun c => String.eqb (ExpenseModel.category_id e)
                            (Category.category_id c))
       (AsyncSession.category db).

Definition recent_row (db : AsyncSession.t) (users : list UserModel.t)
    (e : ExpenseModel.t) : option RecentExpense.t :=
  match user_of users e, category_of db e with
  | Some u, Some c =>
      Some (RecentExpense.make (ExpenseModel.subject e)
                               (ExpenseModel.amount e)
                               (UserModel.username u) (Category.name c))
  | _, _ => None
  end.

(** The keys of [users] and [category] are unique and every expense refers
    to a stored user and a stored category. *)
Definition referential_integrity (db : AsyncSession.t)
    (users : list UserModel.t) : Prop :=
  NoDup (map UserModel.user_id users)
  /\ category_primary_key db
  /\ category_foreign_key db
  /\ forall e, In e (AsyncSession.expenses db) ->
               In (ExpenseModel.user_id e) (map UserModel.user_id users).

(** Some character of [s] is in the class. *)
Definition has_char (class : ascii -> bool) (s : string) : Prop :=
  exists a c b, s = (a ++ String c b)%string /\ class c = true.

(* ================================================================== *)
(** * Part II: properties                                              *)
(* ================================================================== *)

(** ** Sums and rounding *)

Lemma Qsum_app (l1 l2 : list Q) :
  (Qsum (l1 ++ l2) == Qsum l1 + Qsum l2)%Q.
Proof.
  induction l1 as [|x l1 IH]; simpl.
  - now rewrite Qplus_0_l.
  - rewrite IH. now rewrite Qplus_assoc.
Qed.

Lemma Qsum_Permutation (l1 l2 : list Q) :
  Permutation l1 l2 -> (Qsum l1 == Qsum l2)%Q.
Proof.
  induction 1; simpl.
  - reflexivity.
  - now rewrite IHPermutation.
  - rewrite !Qplus_assoc. now rewrite (Qplus_comm y x).
  - now rewrite IHPermutation1.
Qed.

Lemma float_or_0_sql_sum (l : list Q) :
  (float_or_0 (sql_sum l) == Qsum l)%Q.
Proof.
  destruct l as [|x l]; [reflexivity|].
  unfold sql_sum, float_or_0.
  destruct (Qeq_bool (Qsum (x :: l)) 0) eqn:E; [|reflexivity].
  apply Qeq_bool_eq in E. now symmetry.
Qed.

Lemma round_half_even_comp (x y : Q) :
  (x == y)%Q -> round_half_even x = round_half_even y.
Proof.
  intros H. unfold round_half_even.
  rewrite (Qfloor_comp x y H).
  assert (Hc : ((x - inject_Z (Qfloor y) ?= 1 # 2)
                = (y - inject_Z (Qfloor y) ?= 1 # 2))%Q)
    by (now rewrite H).
  now rewrite Hc.
Qed.

Lemma round2_comp (x y : Q) : (x == y)%Q -> round2 x = round2 y.
Proof.
  intros H. unfold round2.
  rewrite (round_half_even_comp (x * 100) (y * 100)); [reflexivity|].
  now rewrite H.
Qed.

(** ** Ranges and membership *)

Lemma in_spec (x : Z) (l : list Z) : in_ x l = true <-> In x l.
Proof.
  unfold in_. rewrite existsb_exists. split.
  - intros (y & Hy & E). apply Z.eqb_eq in E. now subst.
  - intros H. exists x. split; [assumption|apply Z.eqb_refl].
Qed.

Lemma In_range (x a b : Z) : In x (range a b) <-> a <= x < b.
Proof.
  unfold range. rewrite in_map_iff. split.
  - intros (i & <- & Hi). apply in_seq in Hi. lia.
  - intros H. exists (Z.to_nat (x - a)). split; [lia|].
    apply in_seq. lia.
Qed.

Lemma in_range (x a b : Z) : in_ x (range a b) = (a <=? x) && (x <? b).
Proof.
  apply eq_true_iff_eq.
  rewrite in_spec, In_range, andb_true_iff, Z.leb_le, Z.ltb_lt. reflexivity.
Qed.

Ltac bool_lia :=
  repeat match goal with
  | |- context [?a =? ?b] => destruct (Z.eqb_spec a b)
  | |- context [?a <=? ?b] => destruct (Z.leb_spec a b)
  | |- context [?a <? ?b] => destruct (Z.ltb_spec a b)
  end; cbn [andb orb negb]; try reflexivity; try lia.

Lemma in_quarter (x q : Z) :
  in_ x (range ((q - 1) * 3 + 1) (q * 3 + 1)) = in_ x (quarter_months q).
Proof.
  rewrite in_range. unfold quarter_months, in_. cbn [existsb]. bool_lia.
Qed.

Lemma select_sum_where_ext (db : AsyncSession.t)
    (f g : ExpenseModel.t -> bool) :
  (forall e, f e = g e) ->
  (float_or_0 (select_sum_where db f)
   == Qsum (map ExpenseModel.amount (filter g (AsyncSession.expenses db))))%Q.
Proof.
  intros H. unfold select_sum_where.
  rewrite float_or_0_sql_sum, (filter_ext f g H). reflexivity.
Qed.

Lemma select_sum_where_spending (db : AsyncSession.t) (year : Z)
    (months : list Z) (f : ExpenseModel.t -> bool) :
  (forall e, f e = (extract_year e =? year) && in_ (extract_month e) months) ->
  round2 (float_or_0 (select_sum_where db f))
  = round2 (spending db year months).
Proof.
  intros H. apply round2_comp. now apply select_sum_where_ext.
Qed.

(** ** The general summary *)

(** C1.  With the six expenses of the test fixture, the requested year 2024
    and a clock in August 2024 (any day and time of day), the general
    summary is total 1050.00, this month 50.00, last month 250.00, this
    quarter 300.00, last quarter 300.00. *)
Theorem general_summary_fixture_august :
  forall day hour minute second microsecond,
    GeneralSummary.equiv
      (get_general_summary_data Fixture.general_summary_db 2024
         (Datetime.make 2024 8 day hour minute second microsecond))
      (GeneralSummary.make 1050 50 250 300 300).
Proof.
  intros. unfold GeneralSummary.equiv. vm_compute. repeat split.
Qed.

Lemma general_summary_sums (db : AsyncSession.t) (year : Z)
    (now : Datetime.t) :
  let s := get_general_summary_data db year now in
  let current_year := Datetime.year now in
  let current_month := Datetime.month now in
  let current_quarter := (current_month - 1) / 3 + 1 in
  GeneralSummary.total_spending s = round2 (spending_of_year db year)
  /\ GeneralSummary.this_month s = round2 (spending db year [current_month])
  /\ GeneralSummary.last_month s
     = (if current_month =? 1
        then round2 (spending db (current_year - 1) [12])
        else round2 (spending db year [current_month - 1]))
  /\ GeneralSummary.this_quarter s
     = round2 (spending db year (quarter_months current_quarter))
  /\ GeneralSummary.last_quarter s
     = (if current_quarter =? 1
        then round2 (spending db (current_year - 1) [10; 11; 12])
        else round2 (spending db current_year
                       (quarter_months (current_quarter - 1)))).
Proof.
  cbv zeta. unfold get_general_summary_data.
  set (cm := Datetime.month now). set (cy := Datetime.year now).
  set (cq := (cm - 1) / 3 + 1).
  destruct (Z.eqb_spec cm 1) as [Em|Em];
    destruct (Z.eqb_spec (cq - 1) 0) as [Eq|Eq];
    destruct (Z.eqb_spec cq 1) as [Eq'|Eq']; try lia;
    cbv iota beta; cbn [GeneralSummary.total_spending GeneralSummary.this_month
      GeneralSummary.last_month GeneralSummary.this_quarter
      GeneralSummary.last_quarter].
  all: repeat split.
  all: try (apply round2_comp; apply select_sum_where_ext; reflexivity).
  all: apply select_sum_where_spending; intros e.
  all: rewrite ?in_quarter; try reflexivity.
  all: unfold in_; cbn [existsb]; now rewrite orb_false_r.
Qed.

Example quarter_months_calendar :
  map quarter_months [1; 2; 3; 4]
  = [[1; 2; 3]; [4; 5; 6]; [7; 8; 9]; [10; 11; 12]].
Proof. reflexivity. Qed.

(** C2.  The relative buckets of the general summary, for every table,
    requested year and clock: [this_month] is the spending of the requested
    year in the current month; [last_month] is December of the year before
    the current one when the current month is January, and otherwise the
    month before the current one in the requested year; [last_quarter] is
    the fourth quarter of the year before the current one when the current
    quarter is the first, and otherwise the quarter before the current one in
    the current year: it is the same whatever year is requested.  Each
    output is rounded to two decimals. *)
Theorem general_summary_buckets (db : AsyncSession.t) (year : Z)
    (now : Datetime.t) :
  let s := get_general_summary_data db year now in
  let current_year := Datetime.year now in
  let current_month := Datetime.month now in
  let current_quarter := (current_month - 1) / 3 + 1 in
  GeneralSummary.total_spending s = round2 (spending_of_year db year)
  /\ GeneralSummary.this_month s = round2 (spending db year [current_month])
  /\ GeneralSummary.last_month s
     = (if current_month =? 1
        then round2 (spending db (current_year - 1) [12])
        else round2 (spending db year [current_month - 1]))
  /\ GeneralSummary.this_quarter s
     = round2 (spending db year (quarter_months current_quarter))
  /\ GeneralSummary.last_quarter s
     = (if current_quarter =? 1
        then round2 (spending db (current_year - 1) [10; 11; 12])
        else round2 (spending db current_year
                       (quarter_months (current_quarter - 1))))
  /\ (forall other_year,
        GeneralSummary.last_quarter
          (get_general_summary_data db other_year now)
        = GeneralSummary.last_quarter s).
Proof.
  cbv zeta.
  destruct (general_summary_sums db year now) as (H1 & H2 & H3 & H4 & H5).
  repeat match goal with |- _ /\ _ => split end; try assumption.
  intros other_year.
  destruct (general_summary_sums db other_year now) as (_ & _ & _ & _ & H5').
  now rewrite H5, H5'.
Qed.

(** ** Sorting and grouping *)

Section SortingFacts.
Context {A : Type}.
Variable after : A -> A -> bool.

Lemma insert_sorted_Permutation (x : A) (l : list A) :
  Permutation (insert_sorted after x l) (x :: l).
Proof.
  induction l as [|y l IH]; simpl.
  - apply Permutation_refl.
  - destruct (after x y).
    + eapply perm_trans; [apply perm_skip, IH|apply perm_swap].
    + apply Permutation_refl.
Qed.

Lemma stable_sort_Permutation (l : list A) :
  Permutation (stable_sort after l) l.
Proof.
  induction l as [|x l IH]; simpl.
  - apply perm_nil.
  - eapply perm_trans; [apply insert_sorted_Permutation|].
    now apply perm_skip.
Qed.

Lemma stable_sort_In (x : A) (l : list A) :
  In x (stable_sort after l) <-> In x l.
Proof.
  split; apply Permutation_in;
    [|apply Permutation_sym]; apply stable_sort_Permutation.
Qed.

Lemma stable_sort_length (l : list A) :
  List.length (stable_sort after l) = List.length l.
Proof. apply Permutation_length, stable_sort_Permutation. Qed.

(** [after] comes from a total preorder on keys. *)
Hypothesis after_asym : forall x y, after x y = true -> after y x = false.
Hypothesis after_trans :
  forall x y z, after x y = false -> after y z = false -> after x z = false.

Lemma insert_sorted_Sorted (x : A) (l : list A) :
  StronglySorted (fun a b => after a b = false) l ->
  StronglySorted (fun a b => after a b = false) (insert_sorted after x l).
Proof.
  induction 1 as [|y l Hs IH Hy]; simpl.
  - constructor; constructor.
  - destruct (after x y) eqn:E.
    + constructor; [assumption|].
      apply (Permutation_Forall
               (Permutation_sym (insert_sorted_Permutation x l))).
      constructor; [now apply after_asym|assumption].
    + constructor; [now constructor|].
      constructor; [assumption|].
      eapply Forall_impl; [|exact Hy].
      intros b Hb. now apply after_trans with y.
Qed.

Lemma stable_sort_Sorted (l : list A) :
  StronglySorted (fun a b => after a b = false) (stable_sort after l).
Proof.
  induction l as [|x l IH]; simpl.
  - constructor.
  - now apply insert_sorted_Sorted.
Qed.
End SortingFacts.

Section DistinctFacts.
Context {A : Type}.
Variable eqb : A -> A -> bool.
Hypothesis eqb_eq : forall x y, eqb x y = true <-> x = y.

Lemma distinct_In (x : A) (l : list A) : In x (distinct eqb l) <-> In x l.
Proof.
  induction l as [|y l IH]; simpl; [reflexivity|].
  rewrite filter_In, IH. split.
  - intros [H|[H _]]; auto.
  - intros [H|H]; auto.
    destruct (eqb y x) eqn:E; [left; now apply eqb_eq|right; auto].
Qed.

Lemma distinct_NoDup (l : list A) : NoDup (distinct eqb l).
Proof.
  induction l as [|y l IH]; simpl; constructor.
  - rewrite filter_In. intros [_ H].
    rewrite (proj2 (eqb_eq y y) eq_refl) in H. discriminate.
  - now apply NoDup_filter.
Qed.
End DistinctFacts.

Lemma StronglySorted_weaken {A : Type} (R S : A -> A -> Prop) (l : list A) :
  (forall a b, R a b -> S a b) -> StronglySorted R l -> StronglySorted S l.
Proof.
  intros HRS. induction 1 as [|x l Hs IH Hx]; constructor.
  - assumption.
  - eapply Forall_impl; [|exact Hx]. intros b. apply HRS.
Qed.

Lemma sorted_reverse_Sorted {A : Type} (key : A -> Z) (l : list A) :
  StronglySorted (fun a b => key b <= key a) (sorted_reverse key l).
Proof.
  unfold sorted_reverse.
  eapply StronglySorted_weaken;
    [|apply stable_sort_Sorted; intros x y; rewrite ?Z.ltb_lt, ?Z.ltb_ge; lia].
  intros a b H. cbv beta in H. apply Z.ltb_ge in H. exact H.
Qed.

Lemma StronglySorted_NoDup_gt (l : list Z) :
  StronglySorted (fun a b => b <= a) l -> NoDup l -> StronglySorted Z.gt l.
Proof.
  induction 1 as [|x l Hs IH Hx]; intros Hnd; constructor.
  - apply IH. now inversion Hnd.
  - inversion Hnd as [|? ? Hnot _]; subst.
    rewrite Forall_forall in *. intros y Hy.
    specialize (Hx y Hy).
    assert (y <> x) by (intros ->; contradiction). lia.
Qed.

(** ** Available years *)

Lemma available_years_In (db : AsyncSession.t) (y : Z) :
  In y (get_available_years db)
  <-> exists e, In e (AsyncSession.expenses db) /\ extract_year e = y.
Proof.
  unfold get_available_years, sorted_reverse.
  rewrite stable_sort_In, (distinct_In Z.eqb Z.eqb_eq), in_map_iff.
  split; intros (e & H1 & H2); exists e; auto.
Qed.

Lemma available_years_NoDup (db : AsyncSession.t) :
  NoDup (get_available_years db).
Proof.
  unfold get_available_years, sorted_reverse.
  eapply Permutation_NoDup; [apply Permutation_sym, stable_sort_Permutation|].
  apply distinct_NoDup, Z.eqb_eq.
Qed.

Lemma available_years_Sorted (db : AsyncSession.t) :
  StronglySorted Z.gt (get_available_years db).
Proof.
  apply StronglySorted_NoDup_gt; [|apply available_years_NoDup].
  unfold get_available_years. apply (sorted_reverse_Sorted (fun y => y)).
Qed.

Lemma available_years_nil (db : AsyncSession.t) :
  get_available_years db = [] <-> AsyncSession.expenses db = [].
Proof.
  split; intros H.
  - destruct (AsyncSession.expenses db) as [|e l] eqn:E; [reflexivity|].
    assert (Hin : In (extract_year e) (get_available_years db)).
    { apply available_years_In. exists e. rewrite E. split; [now left|easy]. }
    rewrite H in Hin. destruct Hin.
  - unfold get_available_years. now rewrite H.
Qed.

(** C4.  The available years are exactly the calendar years in which some
    expense, of any user, is dated; no year is listed twice and the list is
    strictly descending. *)
Theorem available_years_distinct_descending (db : AsyncSession.t) :
  (forall y, In y (get_available_years db)
             <-> exists e, In e (AsyncSession.expenses db)
                           /\ extract_year e = y)
  /\ NoDup (get_available_years db)
  /\ StronglySorted Z.gt (get_available_years db).
Proof.
  split; [|split].
  - intros y. apply available_years_In.
  - apply available_years_NoDup.
  - apply available_years_Sorted.
Qed.

(** ** The general-summary endpoint *)

Lemma in_false (x : Z) (l : list Z) : in_ x l = false <-> ~ In x l.
Proof.
  rewrite <- in_spec. destruct (in_ x l); split; intros H; easy.
Qed.

(** C7.  The general-summary endpoint: without expenses it answers 404,
    whatever the year; without a year parameter it summarises the most
    recent available year; with a year that is not available it answers
    with a 4xx status, which is 400 as soon as some expense exists, and so
    never 500; with an available year it summarises that year. *)
Theorem general_summary_endpoint_year (db : AsyncSession.t)
    (now : Datetime.t) :
  let years := get_available_years db in
  (AsyncSession.expenses db = [] ->
     forall year,
       get_general_summary_endpoint year db now
       = HTTPException 404 "No expense data available.")
  /\ (AsyncSession.expenses db <> [] ->
      exists most_recent,
        In most_recent years
        /\ (forall y, In y years -> y <= most_recent)
        /\ get_general_summary_endpoint None db now
           = Response 200 (get_general_summary_data db most_recent now))
  /\ (forall year, ~ In year years ->
      exists code detail,
        get_general_summary_endpoint (Some year) db now
        = HTTPException code detail
        /\ 400 <= code < 500
        /\ (AsyncSession.expenses db <> [] -> code = 400))
  /\ (forall year, In year years ->
      get_general_summary_endpoint (Some year) db now
      = Response 200 (get_general_summary_data db year now)).
Proof.
  cbv zeta. unfold get_general_summary_endpoint.
  pose proof (available_years_nil db) as Hnil.
  pose proof (available_years_Sorted db) as Hsorted.
  destruct (get_available_years db) as [|y0 ys] eqn:E.
  - repeat split.
    + intros Hne. exfalso. apply Hne. now apply Hnil.
    + intros year _. exists 404, "No expense data available."%string.
      repeat split; try lia.
      intros Hne. exfalso. apply Hne. now apply Hnil.
    + intros year [].
  - assert (Hne : AsyncSession.expenses db <> []).
    { intros H. apply Hnil in H. discriminate. }
    repeat split.
    + intros H. contradiction.
    + intros _. exists y0. split; [now left|]. split; [|reflexivity].
      intros y [<-|Hy]; [lia|].
      inversion Hsorted as [|? ? _ Hall]; subst.
      rewrite Forall_forall in Hall. specialize (Hall y Hy). lia.
    + intros year Hnot. apply in_false in Hnot. rewrite Hnot. simpl.
      do 2 eexists. split; [reflexivity|]. split; [lia|reflexivity].
    + intros year Hin. apply in_spec in Hin. rewrite Hin. reflexivity.
Qed.

Lemma general_summary_endpoint_year_witness :
  (AsyncSession.expenses Sample.empty_db = []
   /\ get_general_summary_endpoint (Some 2024) Sample.empty_db Sample.now
      = HTTPException 404 "No expense data available.")
  /\ (AsyncSession.expenses Fixture.general_summary_db <> []
      /\ exists most_recent,
           In most_recent (get_available_years Fixture.general_summary_db)
           /\ (forall y, In y (get_available_years Fixture.general_summary_db)
                         -> y <= most_recent)
           /\ get_general_summary_endpoint None Fixture.general_summary_db
                Sample.now
              = Response 200
                  (get_general_summary_data Fixture.general_summary_db
                     most_recent Sample.now))
  /\ (~ In 1999 (get_available_years Fixture.general_summary_db)
      /\ exists code detail,
           get_general_summary_endpoint (Some 1999)
             Fixture.general_summary_db Sample.now
           = HTTPException code detail
           /\ 400 <= code < 500
           /\ (AsyncSession.expenses Fixture.general_summary_db <> []
               -> code = 400))
  /\ (In 2024 (get_available_years Fixture.general_summary_db)
      /\ get_general_summary_endpoint (Some 2024) Fixture.general_summary_db
           Sample.now
         = Response 200
             (get_general_summary_data Fixture.general_summary_db 2024
                Sample.now)).
Proof.
  destruct (general_summary_endpoint_year Sample.empty_db Sample.now)
    as (Hempty & _).
  destruct (general_summary_endpoint_year Fixture.general_summary_db
              Sample.now) as (_ & Hnone & Hbad & Hgood).
  assert (Hne : AsyncSession.expenses Fixture.general_summary_db <> [])
    by discriminate.
  assert (Hnot : ~ In 1999 (get_available_years Fixture.general_summary_db))
    by (vm_compute; intros [H|[]]; discriminate).
  assert (Hin : In 2024 (get_available_years Fixture.general_summary_db))
    by (vm_compute; now left).
  split; [split; [reflexivity|apply Hempty; reflexivity]|].
  split; [split; [exact Hne|apply Hnone; exact Hne]|].
  split; [split; [exact Hnot|apply Hbad; exact Hnot]|].
  split; [exact Hin|apply Hgood; exact Hin].
Defined.

(** ** Delete *)

Lemma select_by_id_Some (db : AsyncSession.t) (expense_id : UUID)
    (e : ExpenseModel.t) :
  select_by_id db expense_id = Some e ->
  In e (AsyncSession.expenses db) /\ ExpenseModel.expenses_id e = expense_id.
Proof.
  unfold select_by_id. intros H. apply find_some in H.
  now rewrite String.eqb_eq in H.
Qed.

Lemma select_by_id_None (db : AsyncSession.t) (expense_id : UUID) :
  select_by_id db expense_id = None <-> ~ has_id db expense_id.
Proof.
  unfold select_by_id, has_id. split.
  - intros H (e & Hin & Hid).
    apply (find_none _ _ H) in Hin. apply String.eqb_neq in Hin. contradiction.
  - intros H.
    destruct (find _ _) as [e|] eqn:E; [|reflexivity].
    exfalso. apply H. exists e. apply find_some in E.
    now rewrite String.eqb_eq in E.
Qed.

Lemma commit_delete_In (db : AsyncSession.t) (expense e : ExpenseModel.t) :
  In e (AsyncSession.expenses (commit_delete db expense))
  <-> In e (AsyncSession.expenses db)
      /\ ExpenseModel.expenses_id e <> ExpenseModel.expenses_id expense.
Proof.
  unfold commit_delete. cbn [AsyncSession.expenses].
  rewrite filter_In, negb_true_iff, String.eqb_neq. reflexivity.
Qed.

Lemma attachment_removal_dec (upload_dir : string) (fs : FileSystem.t)
    (expense : ExpenseModel.t) :
  {attachment_removal_fails upload_dir fs expense}
  + {~ attachment_removal_fails upload_dir fs expense}.
Proof.
  unfold attachment_removal_fails.
  destruct (ExpenseModel.invoice_image expense) as [image|].
  - destruct (string_dec image EmptyString) as [->|Hne].
    + right. intros (i & Hi & Hn & _). injection Hi as <-. contradiction.
    + destruct (os_path_exists fs (os_path_join upload_dir image)) eqn:Ex.
      * destruct (FileSystem.remove_fails fs (os_path_join upload_dir image))
          eqn:Er.
        -- left. exists image. auto.
        -- right. intros (i & Hi & _ & _ & Hf). injection Hi as <-.
           congruence.
      * right. intros (i & Hi & _ & He & _). injection Hi as <-. congruence.
  - right. intros (i & Hi & _). discriminate.
Qed.

(** The three ways [delete_expense] ends. *)
Lemma delete_expense_cases (upload_dir : string) (db : AsyncSession.t)
    (fs : FileSystem.t) (expense_id : UUID) :
  (~ has_id db expense_id
   /\ delete_expense upload_dir db fs expense_id
      = (inl (ValueError "Expense not found"), db, fs))
  \/ (exists expense,
        select_by_id db expense_id = Some expense
        /\ attachment_removal_fails upload_dir fs expense
        /\ delete_expense upload_dir db fs expense_id
           = (inl (RuntimeError "Error deleting expense"), db, fs))
  \/ (exists expense fs',
        select_by_id db expense_id = Some expense
        /\ ~ attachment_removal_fails upload_dir fs expense
        /\ delete_expense upload_dir db fs expense_id
           = (inr true, commit_delete db expense, fs')).
Proof.
  unfold delete_expense.
  destruct (select_by_id db expense_id) as [expense|] eqn:Es.
  - right.
    destruct (attachment_removal_dec upload_dir fs expense) as [Hf|Hf].
    + left. exists expense. split; [reflexivity|]. split; [exact Hf|].
      destruct Hf as (image & Hi & Hne & Hex & Hrm).
      rewrite Hi. destruct image as [|c image]; [contradiction|].
      cbn [truthy]. rewrite Hex. unfold os_remove. rewrite Hrm. reflexivity.
    + right.
      destruct (ExpenseModel.invoice_image expense) as [image|] eqn:Ei.
      * destruct image as [|c image]; cbn [truthy].
        -- exists expense, fs. auto.
        -- destruct (os_path_exists fs _) eqn:Ex.
           ++ unfold os_remove. rewrite Ex.
              destruct (FileSystem.remove_fails fs _) eqn:Er.
              ** exfalso. apply Hf. exists (String c image).
                 rewrite Ei. repeat split; auto. discriminate.
              ** cbn [orb negb]. eexists expense, _. auto.
           ++ exists expense, fs. auto.
      * exists expense, fs. auto.
  - left. split; [now apply select_by_id_None|reflexivity].
Qed.

(** C8.  [delete_expense] raises [ValueError] (NotFound, answered 404)
    exactly when no expense has the id, and then leaves the tables and the
    directory as they were.  When the expense exists, has an attachment
    filename and the removal of its file fails, the delete raises
    [RuntimeError] (answered 500) and the row stays.  When the expense
    exists and no such failure occurs, the row is removed, the other rows
    stay, the call returns [True] (answered 200), and reading the id
    afterwards raises NotFound. *)
Theorem delete_expense_outcomes (upload_dir : string) (db : AsyncSession.t)
    (fs : FileSystem.t) (expense_id : UUID) :
  let r := delete_expense upload_dir db fs expense_id in
  let http := delete_expense_endpoint upload_dir expense_id db fs in
  (~ has_id db expense_id <-> exists msg, fst (fst r) = inl (ValueError msg))
  /\ (~ has_id db expense_id ->
      r = (inl (ValueError "Expense not found"), db, fs)
      /\ http = (HTTPException 404 (expense_deletion_not_found expense_id),
                 db, fs))
  /\ (forall expense,
        select_by_id db expense_id = Some expense ->
        attachment_removal_fails upload_dir fs expense ->
        r = (inl (RuntimeError "Error deleting expense"), db, fs)
        /\ http = (HTTPException 500
                     (expense_unexpected_error_delete expense_id), db, fs)
        /\ In expense (AsyncSession.expenses (snd (fst r))))
  /\ (forall expense,
        select_by_id db expense_id = Some expense ->
        ~ attachment_removal_fails upload_dir fs expense ->
        exists fs',
          r = (inr true, commit_delete db expense, fs')
          /\ http = (Response 200
                       (Deleted.make "Expense deleted successfully" true),
                     commit_delete db expense, fs')
          /\ ~ has_id (commit_delete db expense) expense_id
          /\ get_expense_by_id (commit_delete db expense) expense_id
             = inl (ValueError "Expense not found")
          /\ (forall e, ExpenseModel.expenses_id e <> expense_id ->
                In e (AsyncSession.expenses (commit_delete db expense))
                <-> In e (AsyncSession.expenses db))).
Proof.
  cbv zeta. unfold delete_expense_endpoint.
  destruct (delete_expense_cases upload_dir db fs expense_id)
    as [(Hno & ->)|[(x & Hx & Hf & ->)|(x & fs' & Hx & Hf & ->)]];
    cbn [fst snd].
  - split; [split; [intros _; eauto|intros _; exact Hno]|].
    split; [intros _; split; reflexivity|].
    apply select_by_id_None in Hno.
    split; intros expense He; rewrite Hno in He; discriminate.
  - destruct (select_by_id_Some db expense_id x Hx) as (Hin & Hid).
    assert (Hhas : has_id db expense_id) by (exists x; auto).
    split; [split; [intros H; contradiction|intros (msg & H); discriminate]|].
    split; [intros H; contradiction|].
    split; intros expense He; rewrite Hx in He; injection He as <-.
    + intros _. repeat split; assumption.
    + intros H. contradiction.
  - destruct (select_by_id_Some db expense_id x Hx) as (Hin & Hid).
    assert (Hhas : has_id db expense_id) by (exists x; auto).
    split; [split; [intros H; contradiction|intros (msg & H); discriminate]|].
    split; [intros H; contradiction|].
    split; intros expense He; rewrite Hx in He; injection He as <-.
    + intros H. contradiction.
    + intros _. exists fs'. split; [reflexivity|]. split; [reflexivity|].
      assert (Hgone : ~ has_id (commit_delete db x) expense_id).
      { intros (e & He & Hide). apply commit_delete_In in He.
        destruct He as (_ & Hne). congruence. }
      split; [exact Hgone|]. split.
      * unfold get_expense_by_id.
        now rewrite (proj2 (select_by_id_None _ _) Hgone).
      * intros e Hne. rewrite commit_delete_In. rewrite Hid.
        split; [intros (H & _); exact H|intros H; split; assumption].
Qed.

Lemma delete_expense_outcomes_witness :
  (* an unknown id *)
  (~ has_id Sample.db "e9"
   /\ delete_expense Sample.upload_dir Sample.db Sample.fs "e9"
      = (inl (ValueError "Expense not found"), Sample.db, Sample.fs)
   /\ exists msg,
        fst (fst (delete_expense Sample.upload_dir Sample.db Sample.fs "e9"))
        = inl (ValueError msg))
  (* the receipt cannot be removed *)
  /\ (select_by_id Sample.db "e1" = Some Sample.with_receipt
      /\ attachment_removal_fails Sample.upload_dir Sample.locked
           Sample.with_receipt
      /\ delete_expense Sample.upload_dir Sample.db Sample.locked "e1"
         = (inl (RuntimeError "Error deleting expense"),
            Sample.db, Sample.locked))
  (* the receipt is removed with the row *)
  /\ (select_by_id Sample.db "e1" = Some Sample.with_receipt
      /\ ~ attachment_removal_fails Sample.upload_dir Sample.fs
             Sample.with_receipt
      /\ exists fs',
           delete_expense Sample.upload_dir Sample.db Sample.fs "e1"
           = (inr true, commit_delete Sample.db Sample.with_receipt, fs')
           /\ ~ has_id (commit_delete Sample.db Sample.with_receipt) "e1").
Proof.
  assert (Hno : ~ has_id Sample.db "e9").
  { intros (e & [<-|[<-|[]]] & H); discriminate. }
  assert (Hsel : select_by_id Sample.db "e1" = Some Sample.with_receipt)
    by reflexivity.
  assert (Hfail : attachment_removal_fails Sample.upload_dir Sample.locked
                    Sample.with_receipt).
  { exists "receipt-1.png"%string. repeat split. discriminate. }
  assert (Hok : ~ attachment_removal_fails Sample.upload_dir Sample.fs
                    Sample.with_receipt).
  { intros (image & _ & _ & _ & H). discriminate. }
  pose proof (delete_expense_outcomes Sample.upload_dir Sample.db
                Sample.fs "e9") as (Hiff & H9 & _).
  pose proof (delete_expense_outcomes Sample.upload_dir Sample.db
                Sample.locked "e1") as (_ & _ & Hlocked & _).
  pose proof (delete_expense_outcomes Sample.upload_dir Sample.db
                Sample.fs "e1") as (_ & _ & _ & Hremoved).
  split; [split; [exact Hno|split; [apply (H9 Hno)|apply Hiff, Hno]]|].
  split; [split; [exact Hsel|split; [exact Hfail|]]|].
  - apply (Hlocked _ Hsel Hfail).
  - split; [exact Hsel|split; [exact Hok|]].
    destruct (Hremoved _ Hsel Hok) as (fs' & H1 & _ & H2 & _ & _).
    exists fs'. split; assumption.
Defined.

(** ** Update *)

Lemma assign_fields_spec (u : ExpenseUpdate.t) (e : ExpenseModel.t) :
  let e' := assign_fields u e in
  ExpenseModel.expenses_id e' = ExpenseModel.expenses_id e
  /\ ExpenseModel.user_id e' = ExpenseModel.user_id e
  /\ ExpenseModel.category_id e'
     = overwrite (ExpenseUpdate.category_id u) (ExpenseModel.category_id e)
  /\ ExpenseModel.subject e'
     = overwrite (ExpenseUpdate.subject u) (ExpenseModel.subject e)
  /\ ExpenseModel.expense_date e'
     = overwrite (ExpenseUpdate.expense_date u) (ExpenseModel.expense_date e)
  /\ ExpenseModel.amount e'
     = overwrite (ExpenseUpdate.amount u) (ExpenseModel.amount e)
  /\ ExpenseModel.reimbursable e'
     = overwrite (ExpenseUpdate.reimbursable u) (ExpenseModel.reimbursable e)
  /\ ExpenseModel.description e'
     = overwrite_optional (ExpenseUpdate.description u)
                          (ExpenseModel.description e)
  /\ ExpenseModel.invoice_image e' = ExpenseModel.invoice_image e
  /\ ExpenseModel.employee e'
     = overwrite_optional (ExpenseUpdate.employee u) (ExpenseModel.employee e)
  /\ ExpenseModel.updated_at e' = ExpenseModel.updated_at e.
Proof.
  destruct e, u as [[c|] [s|] [d|] [a|] [r|] [ds|] [em|]];
    cbv; repeat split.
Qed.

Lemma replace_invoice_image_spec (upload_dir : string)
    (splitext_ext : string -> string) (fs fs' : FileSystem.t)
    (e e' : ExpenseModel.t) (invoice_image : option UploadFile.t)
    (uuid4 : UUID) :
  replace_invoice_image upload_dir splitext_ext fs e invoice_image uuid4
  = (Some e', fs') ->
  e' = match uploaded_filename invoice_image with
       | Some filename =>
           Row.set_invoice_image (Some (uuid4 ++ splitext_ext filename)%string) e
       | None => e
       end.
Proof.
  unfold replace_invoice_image.
  destruct (uploaded_filename invoice_image) as [filename|].
  - destruct (match ExpenseModel.invoice_image e with
              | Some old => _ | None => _ end) as [fs1|]; [|discriminate].
    destruct (write_file fs1 _) as [fs2|]; [|discriminate].
    now intros [= <- _].
  - now intros [= <- _].
Qed.

Lemma replace_invoice_image_no_upload (upload_dir : string)
    (splitext_ext : string -> string) (fs : FileSystem.t)
    (e : ExpenseModel.t) (invoice_image : option UploadFile.t)
    (uuid4 : UUID) :
  uploaded_filename invoice_image = None ->
  replace_invoice_image upload_dir splitext_ext fs e invoice_image uuid4
  = (Some e, fs).
Proof. unfold replace_invoice_image. now intros ->. Qed.

Lemma set_invoice_image_spec (v : option string) (e : ExpenseModel.t) :
  let e' := Row.set_invoice_image v e in
  ExpenseModel.expenses_id e' = ExpenseModel.expenses_id e
  /\ ExpenseModel.user_id e' = ExpenseModel.user_id e
  /\ ExpenseModel.category_id e' = ExpenseModel.category_id e
  /\ ExpenseModel.subject e' = ExpenseModel.subject e
  /\ ExpenseModel.expense_date e' = ExpenseModel.expense_date e
  /\ ExpenseModel.amount e' = ExpenseModel.amount e
  /\ ExpenseModel.reimbursable e' = ExpenseModel.reimbursable e
  /\ ExpenseModel.description e' = ExpenseModel.description e
  /\ ExpenseModel.invoice_image e' = v
  /\ ExpenseModel.employee e' = ExpenseModel.employee e
  /\ ExpenseModel.updated_at e' = ExpenseModel.updated_at e.
Proof. destruct e; cbv; repeat split. Qed.

Lemma set_updated_at_spec (v : Datetime.t) (e : ExpenseModel.t) :
  let e' := Row.set_updated_at v e in
  ExpenseModel.expenses_id e' = ExpenseModel.expenses_id e
  /\ ExpenseModel.user_id e' = ExpenseModel.user_id e
  /\ ExpenseModel.category_id e' = ExpenseModel.category_id e
  /\ ExpenseModel.subject e' = ExpenseModel.subject e
  /\ ExpenseModel.expense_date e' = ExpenseModel.expense_date e
  /\ ExpenseModel.amount e' = ExpenseModel.amount e
  /\ ExpenseModel.reimbursable e' = ExpenseModel.reimbursable e
  /\ ExpenseModel.description e' = ExpenseModel.description e
  /\ ExpenseModel.invoice_image e' = ExpenseModel.invoice_image e
  /\ ExpenseModel.employee e' = ExpenseModel.employee e
  /\ ExpenseModel.updated_at e' = v.
Proof. destruct e; cbv; repeat split. Qed.

Lemma commit_update_In_other (db : AsyncSession.t)
    (updated e : ExpenseModel.t) :
  ExpenseModel.expenses_id e <> ExpenseModel.expenses_id updated ->
  In e (AsyncSession.expenses (commit_update db updated))
  <-> In e (AsyncSession.expenses db).
Proof.
  intros Hne. unfold commit_update. cbn [AsyncSession.expenses].
  rewrite in_map_iff. split.
  - intros (r & Hr & Hin).
    destruct (String.eqb_spec (ExpenseModel.expenses_id r)
                              (ExpenseModel.expenses_id updated)).
    + subst. contradiction.
    + now subst.
  - intros Hin. exists e. split; [|assumption].
    apply String.eqb_neq in Hne. now rewrite Hne.
Qed.

(** What a successful [update_expense] returns, attribute by attribute. *)
Lemma update_expense_success (upload_dir : string)
    (splitext_ext : string -> string) (db db' : AsyncSession.t)
    (fs fs' : FileSystem.t) (expense_id : UUID)
    (expense_update : ExpenseUpdate.t) (invoice_image : option UploadFile.t)
    (uuid4 : UUID) (now : Datetime.t) (stored updated : ExpenseModel.t) :
  select_by_id db expense_id = Some stored ->
  update_expense upload_dir splitext_ext db fs expense_id expense_update
    invoice_image uuid4 now = (inr updated, db', fs') ->
  db' = commit_update db updated
  /\ ExpenseModel.expenses_id updated = expense_id
  /\ ExpenseModel.user_id updated = ExpenseModel.user_id stored
  /\ ExpenseModel.category_id updated
     = overwrite (ExpenseUpdate.category_id expense_update)
                 (ExpenseModel.category_id stored)
  /\ ExpenseModel.subject updated
     = overwrite (ExpenseUpdate.subject expense_update)
                 (ExpenseModel.subject stored)
  /\ ExpenseModel.expense_date updated
     = overwrite (ExpenseUpdate.expense_date expense_update)
                 (ExpenseModel.expense_date stored)
  /\ ExpenseModel.amount updated
     = overwrite (ExpenseUpdate.amount expense_update)
                 (ExpenseModel.amount stored)
  /\ ExpenseModel.reimbursable updated
     = overwrite (ExpenseUpdate.reimbursable expense_update)
                 (ExpenseModel.reimbursable stored)
  /\ ExpenseModel.description updated
     = overwrite_optional (ExpenseUpdate.description expense_update)
                          (ExpenseModel.description stored)
  /\ ExpenseModel.employee updated
     = overwrite_optional (ExpenseUpdate.employee expense_update)
                          (ExpenseModel.employee stored)
  /\ ExpenseModel.invoice_image updated
     = match uploaded_filename invoice_image with
       | Some filename => Some (uuid4 ++ splitext_ext filename)%string
       | None => ExpenseModel.invoice_image stored
       end
  /\ ExpenseModel.updated_at updated = now.
Proof.
  intros Hsel. unfold update_expense. rewrite Hsel.
  destruct (replace_invoice_image _ _ _ _ _ _) as [[e1|] fs1] eqn:Er;
    [|discriminate].
  intros [= <- <- <-].
  apply replace_invoice_image_spec in Er.
  destruct (select_by_id_Some db expense_id stored Hsel) as (_ & Hid).
  pose proof (assign_fields_spec expense_update stored) as Ha.
  cbv zeta in Ha.
  destruct Ha as (A1 & A2 & A3 & A4 & A5 & A6 & A7 & A8 & A9 & A10 & A11).
  pose proof (set_updated_at_spec now e1) as Hu. cbv zeta in Hu.
  destruct Hu as (U1 & U2 & U3 & U4 & U5 & U6 & U7 & U8 & U9 & U10 & U11).
  rewrite U1, U2, U3, U4, U5, U6, U7, U8, U9, U10, U11.
  destruct (uploaded_filename invoice_image) as [filename|]; subst e1.
  - pose proof (set_invoice_image_spec
                  (Some (uuid4 ++ splitext_ext filename)%string)
                  (assign_fields expense_update stored)) as Hi.
    cbv zeta in Hi.
    destruct Hi as (I1 & I2 & I3 & I4 & I5 & I6 & I7 & I8 & I9 & I10 & I11).
    rewrite I1, I2, I3, I4, I5, I6, I7, I8, I9, I10.
    rewrite A1, A2, A3, A4, A5, A6, A7, A8, A10.
    repeat split; assumption.
  - rewrite A1, A2, A3, A4, A5, A6, A7, A8, A9, A10.
    repeat split; assumption.
Qed.

(** C6.  [update_expense] on an id that is not stored raises [ValueError]
    (NotFound) and leaves the tables and the directory untouched.  On a
    stored id, a successful call has overwritten exactly the attributes
    whose payload value is not [None] and kept the others; the update
    timestamp is the current time; the attachment name is kept unless a
    file is uploaded with the request, and is then the fresh name; the
    rows under other ids are the same; without an upload the call
    succeeds; and a call that raises leaves the tables untouched. *)
Theorem update_expense_partial (upload_dir : string)
    (splitext_ext : string -> string) (db : AsyncSession.t)
    (fs : FileSystem.t) (expense_id : UUID)
    (expense_update : ExpenseUpdate.t) (invoice_image : option UploadFile.t)
    (uuid4 : UUID) (now : Datetime.t) :
  let r := update_expense upload_dir splitext_ext db fs expense_id
             expense_update invoice_image uuid4 now in
  (~ has_id db expense_id ->
   r = (inl (ValueError "Expense not found"), db, fs))
  /\ (forall err db' fs', r = (inl err, db', fs') -> db' = db)
  /\ (forall stored,
        select_by_id db expense_id = Some stored ->
        (uploaded_filename invoice_image = None ->
         exists updated, r = (inr updated, commit_update db updated, fs))
        /\ (forall updated db' fs',
              r = (inr updated, db', fs') ->
              ExpenseModel.category_id updated
              = overwrite (ExpenseUpdate.category_id expense_update)
                          (ExpenseModel.category_id stored)
              /\ ExpenseModel.subject updated
                 = overwrite (ExpenseUpdate.subject expense_update)
                             (ExpenseModel.subject stored)
              /\ ExpenseModel.expense_date updated
                 = overwrite (ExpenseUpdate.expense_date expense_update)
                             (ExpenseModel.expense_date stored)
              /\ ExpenseModel.amount updated
                 = overwrite (ExpenseUpdate.amount expense_update)
                             (ExpenseModel.amount stored)
              /\ ExpenseModel.reimbursable updated
                 = overwrite (ExpenseUpdate.reimbursable expense_update)
                             (ExpenseModel.reimbursable stored)
              /\ ExpenseModel.description updated
                 = overwrite_optional
                     (ExpenseUpdate.description expense_update)
                     (ExpenseModel.description stored)
              /\ ExpenseModel.employee updated
                 = overwrite_optional (ExpenseUpdate.employee expense_update)
                                      (ExpenseModel.employee stored)
              /\ ExpenseModel.expenses_id updated = expense_id
              /\ ExpenseModel.user_id updated = ExpenseModel.user_id stored
              /\ ExpenseModel.invoice_image updated
                 = match uploaded_filename invoice_image with
                   | Some filename =>
                       Some (uuid4 ++ splitext_ext filename)%string
                   | None => ExpenseModel.invoice_image stored
                   end
              /\ ExpenseModel.updated_at updated = now
              /\ db' = commit_update db updated
              /\ (forall e, ExpenseModel.expenses_id e <> expense_id ->
                    In e (AsyncSession.expenses db')
                    <-> In e (AsyncSession.expenses db)))).
Proof.
  cbv zeta. split; [|split].
  - intros Hno. apply select_by_id_None in Hno.
    unfold update_expense. now rewrite Hno.
  - intros err db' fs'. unfold update_expense.
    destruct (select_by_id db expense_id) as [stored|];
      [|now intros [= _ <- _]].
    destruct (replace_invoice_image _ _ _ _ _ _) as [[e1|] fs1];
      [discriminate|now intros [= _ <- _]].
  - intros stored Hsel. split.
    + intros Hnone. unfold update_expense. rewrite Hsel.
      rewrite replace_invoice_image_no_upload by assumption. eauto.
    + intros updated db' fs' Hr.
      destruct (update_expense_success upload_dir splitext_ext db db' fs fs'
                  expense_id expense_update invoice_image uuid4 now stored
                  updated Hsel Hr)
        as (Hdb & Hid & Hu & Hc & Hs & Hd & Ha & Hrb & Hds & Hem & Him & Hup).
      repeat match goal with |- _ /\ _ => split end; try assumption.
      intros e Hne. rewrite Hdb. apply commit_update_In_other. congruence.
Qed.

Lemma update_expense_partial_witness :
  (~ has_id Sample.db "e9"
   /\ update_expense Sample.upload_dir Sample.splitext_ext Sample.db
        Sample.fs "e9" Sample.two_attributes None "u-1" Sample.later
      = (inl (ValueError "Expense not found"), Sample.db, Sample.fs))
  /\ (select_by_id Sample.db "e1" = Some Sample.with_receipt
      /\ exists updated,
           update_expense Sample.upload_dir Sample.splitext_ext Sample.db
             Sample.fs "e1" Sample.two_attributes None "u-1" Sample.later
           = (inr updated, commit_update Sample.db updated, Sample.fs)
           /\ ExpenseModel.subject updated = "Updated Business Lunch"%string
           /\ ExpenseModel.description updated = Some "Lunch with a client"%string
           /\ ExpenseModel.reimbursable updated = true
           /\ ExpenseModel.updated_at updated = Sample.later)
  /\ (update_expense Sample.upload_dir Sample.splitext_ext Sample.db
        Sample.locked "e1" Sample.two_attributes (Some Sample.new_receipt)
        "u-1" Sample.later
      = (inl (RuntimeError "Error updating expense"), Sample.db,
         Sample.locked)
      /\ forall err db' fs',
           update_expense Sample.upload_dir Sample.splitext_ext Sample.db
             Sample.locked "e1" Sample.two_attributes
             (Some Sample.new_receipt) "u-1" Sample.later
           = (inl err, db', fs') ->
           db' = Sample.db).
Proof.
  assert (Hno : ~ has_id Sample.db "e9").
  { intros (e & [<-|[<-|[]]] & H); discriminate. }
  assert (Hsel : select_by_id Sample.db "e1" = Some Sample.with_receipt)
    by reflexivity.
  pose proof (update_expense_partial Sample.upload_dir Sample.splitext_ext
                Sample.db Sample.fs "e9" Sample.two_attributes None "u-1"
                Sample.later) as (H9 & _).
  pose proof (update_expense_partial Sample.upload_dir Sample.splitext_ext
                Sample.db Sample.fs "e1" Sample.two_attributes None "u-1"
                Sample.later) as (_ & _ & H1).
  pose proof (update_expense_partial Sample.upload_dir Sample.splitext_ext
                Sample.db Sample.locked "e1" Sample.two_attributes
                (Some Sample.new_receipt) "u-1" Sample.later)
    as (_ & Hraise & _).
  split; [split; [exact Hno|exact (H9 Hno)]|].
  split; [split; [exact Hsel|]|].
  - destruct (H1 _ Hsel) as (Hex & Hfields).
    destruct (Hex eq_refl) as (updated & Hr).
    destruct (Hfields _ _ _ Hr)
      as (_ & Hs & _ & _ & Hrb & Hds & _ & _ & _ & _ & Hup & _).
    exists updated. repeat split; assumption.
  - split; [reflexivity|exact Hraise].
Defined.


(** ** Words of a description *)

Lemma string_append_assoc (a b c : string) :
  ((a ++ b) ++ c = a ++ (b ++ c))%string.
Proof. induction a as [|x a IH]; simpl; [reflexivity|now rewrite IH]. Qed.

Lemma has_word_spec (s : string) :
  has_word s = true
  <-> exists a c b, s = (a ++ String c b)%string /\ isspace c = false.
Proof.
  induction s as [|x s IH]; simpl.
  - split; [discriminate|].
    intros (a & c & b & H & _). destruct a; discriminate.
  - rewrite orb_true_iff, negb_true_iff, IH. split.
    + intros [H|(a & c & b & -> & H)].
      * exists EmptyString, x, s. auto.
      * exists (String x a), c, b. auto.
    + intros (a & c & b & H & Hc). destruct a as [|y a]; simpl in H.
      * injection H as -> ->. now left.
      * injection H as -> ->. right. eauto.
Qed.

Lemma space_then_word_spec (s : string) :
  space_then_word s = true
  <-> exists a c2 b c3 d,
        s = (a ++ String c2 (b ++ String c3 d))%string
        /\ isspace c2 = true /\ isspace c3 = false.
Proof.
  induction s as [|x s IH]; simpl.
  - split; [discriminate|].
    intros (a & c2 & b & c3 & d & H & _). destruct a; discriminate.
  - destruct (isspace x) eqn:Ex.
    + rewrite has_word_spec. split.
      * intros (b & c3 & d & -> & H).
        exists EmptyString, x, b, c3, d. auto.
      * intros (a & c2 & b & c3 & d & H & H2 & H3).
        destruct a as [|y a]; simpl in H; injection H as -> ->.
        -- eauto.
        -- exists (a ++ String c2 b)%string, c3, d. split; [|assumption].
           now rewrite string_append_assoc.
    + rewrite IH. split.
      * intros (a & c2 & b & c3 & d & -> & H2 & H3).
        exists (String x a), c2, b, c3, d. auto.
      * intros (a & c2 & b & c3 & d & H & H2 & H3).
        destruct a as [|y a]; simpl in H; injection H as -> ->.
        -- congruence.
        -- eauto 10.
Qed.

Lemma two_wordsb_spec (s : string) : two_wordsb s = true <-> two_words s.
Proof.
  unfold two_words. induction s as [|x s IH]; simpl.
  - split; [discriminate|].
    intros (a & c1 & b & c2 & c & c3 & d & H & _). destruct a; discriminate.
  - destruct (isspace x) eqn:Ex.
    + rewrite IH. split.
      * intros (a & c1 & b & c2 & c & c3 & d & -> & H).
        exists (String x a), c1, b, c2, c, c3, d. auto.
      * intros (a & c1 & b & c2 & c & c3 & d & H & H1 & H2).
        destruct a as [|y a]; simpl in H; injection H as -> ->.
        -- congruence.
        -- eauto 12.
    + rewrite space_then_word_spec. split.
      * intros (b & c2 & c & c3 & d & -> & H).
        exists EmptyString, x, b, c2, c, c3, d. auto.
      * intros (a & c1 & b & c2 & c & c3 & d & H & H1 & H2 & H3).
        destruct a as [|y a]; simpl in H; injection H as -> ->.
        -- eauto 10.
        -- exists (a ++ String c1 b)%string, c2, c, c3, d.
           split; [|auto]. now rewrite string_append_assoc.
Qed.

Lemma split_from_word (w s : string) :
  w <> EmptyString -> (1 <= List.length (split_from w s))%nat.
Proof.
  revert w. induction s as [|c s IH]; intros w Hw; simpl.
  - destruct w; [contradiction|simpl; lia].
  - destruct (isspace c).
    + destruct w; [contradiction|simpl; lia].
    + apply IH. destruct w; discriminate.
Qed.

Lemma split_from_has_word (s : string) :
  (1 <= List.length (split_from EmptyString s))%nat <-> has_word s = true.
Proof.
  induction s as [|c s IH]; simpl.
  - split; [lia|discriminate].
  - destruct (isspace c); simpl; [exact IH|].
    split; [reflexivity|]. intros _. now apply split_from_word.
Qed.

Lemma split_from_space_then_word (w s : string) :
  w <> EmptyString ->
  (2 <= List.length (split_from w s))%nat <-> space_then_word s = true.
Proof.
  revert w. induction s as [|c s IH]; intros w Hw; simpl.
  - destruct w; [contradiction|]. simpl. split; [lia|discriminate].
  - destruct (isspace c).
    + destruct w; [contradiction|]. simpl.
      rewrite <- split_from_has_word. lia.
    + apply IH. destruct w; discriminate.
Qed.

Lemma split_two_words (s : string) :
  (List.length (split s) <? 2)%nat = false <-> two_words s.
Proof.
  rewrite <- two_wordsb_spec, Nat.ltb_ge. unfold split.
  induction s as [|c s IH]; simpl.
  - split; [lia|discriminate].
  - destruct (isspace c); [exact IH|].
    now apply split_from_space_then_word.
Qed.

(** ** Validation of a payload *)

Lemma required_inr {A : Type} (loc : string) (f : field A)
    (check : A -> option string) (a : A) :
  required loc f check = inr a <-> f = Value a /\ check a = None.
Proof.
  unfold required. destruct f as [| |x].
  - split; [discriminate|intros [H _]; discriminate].
  - split; [discriminate|intros [H _]; discriminate].
  - destruct (check x) eqn:E.
    + split; [discriminate|]. intros [[= ->] H]. congruence.
    + split; [intros [= ->]; auto|now intros [[= ->] _]].
Qed.

Lemma validate_subject_inr (f : field string) (s : string) :
  ExpenseCreate.validate_subject f = inr s
  <-> f = Value s /\ (2 <= String.length s <= 100)%nat.
Proof.
  unfold ExpenseCreate.validate_subject. rewrite required_inr.
  destruct (Nat.ltb_spec (String.length s) 2);
    [|destruct (Nat.ltb_spec 100 (String.length s))];
    split; intros [H1 H2]; try discriminate; try lia; split; auto; lia.
Qed.

Lemma Qle_bool_false (a b : Q) : Qle_bool a b = false <-> (b < a)%Q.
Proof.
  split.
  - intros H. apply Qnot_le_lt. intros Hle.
    apply Qle_bool_iff in Hle. congruence.
  - intros H. destruct (Qle_bool a b) eqn:E; [|reflexivity].
    apply Qle_bool_iff in E. exfalso. now apply (Qlt_not_le b a).
Qed.

Lemma validate_amount_inr (f : field Q) (a : Q) :
  ExpenseCreate.validate_amount f = inr a <-> f = Value a /\ (0 < a)%Q.
Proof.
  unfold ExpenseCreate.validate_amount. rewrite required_inr.
  rewrite <- Qle_bool_false.
  destruct (Qle_bool a 0); split; intros [H1 H2];
    try discriminate; split; auto.
Qed.

Lemma validate_reimbursable_inr (f : field bool) (r : bool) :
  ExpenseCreate.validate_reimbursable f = inr r
  <-> (f = Absent /\ r = false) \/ f = Value r.
Proof.
  destruct f as [| |b]; simpl.
  - split; [intros [= <-]; auto|intros [[_ ->]|H]; [reflexivity|discriminate]].
  - split; [discriminate|intros [[H _]|H]; discriminate].
  - split; [intros [= ->]; auto|intros [[H _]|[= ->]]; [discriminate|reflexivity]].
Qed.

Lemma validate_description_inr (f : field string) (v : option string) :
  optional_str "description" f 500 description_must_have_two_words = inr v
  <-> match f with
      | Value s => v = Some s /\ (String.length s <= 500)%nat /\ two_words s
      | _ => v = None
      end.
Proof.
  unfold optional_str, description_must_have_two_words.
  destruct f as [| |s].
  - split; [now intros [= <-]|now intros ->].
  - split; [now intros [= <-]|now intros ->].
  - rewrite <- split_two_words.
    destruct (Nat.ltb_spec 500 (String.length s)).
    + split; [discriminate|intros (_ & H1 & _); lia].
    + destruct (List.length (split s) <? 2)%nat.
      * split; [discriminate|intros (_ & _ & H1); discriminate].
      * split; [intros [= <-]; auto|now intros (-> & _)].
Qed.

Lemma re_match_digit_spec (s : string) :
  re_match_digit s = true <-> starts_with_digit s.
Proof.
  unfold starts_with_digit. destruct s as [|c s]; simpl.
  - split; [discriminate|intros (c & r & H & _); discriminate].
  - split; [eauto|intros (c' & r & [= -> ->] & H); exact H].
Qed.

Lemma validate_employee_inr (f : field string) (v : option string) :
  optional_str "employee" f 100 employee_name_validation = inr v
  <-> match f with
      | Value s => v = Some s /\ (2 <= String.length s <= 100)%nat
                   /\ ~ starts_with_digit s
      | _ => v = None
      end.
Proof.
  unfold optional_str, employee_name_validation.
  destruct f as [| |s].
  - split; [now intros [= <-]|now intros ->].
  - split; [now intros [= <-]|now intros ->].
  - rewrite <- re_match_digit_spec.
    destruct (Nat.ltb_spec 100 (String.length s)).
    + split; [discriminate|intros (_ & H1 & _); lia].
    + destruct (Nat.ltb_spec (String.length s) 2).
      * split; [discriminate|intros (_ & H1 & _); lia].
      * destruct (re_match_digit s).
        -- split; [discriminate|intros (_ & _ & H1); now contradiction H1].
        -- split; [intros [= <-]; repeat split; auto; lia|now intros (-> & _)].
Qed.

(** The object is built exactly when every field passes, and then holds
    what the seven validators return. *)
Lemma validate_inr (p : Payload.t) (obj : ExpenseCreate.t) :
  ExpenseCreate.validate p = inr obj
  <-> required "category_id" (Payload.category_id p) (fun _ => None)
      = inr (ExpenseCreate.category_id obj)
      /\ ExpenseCreate.validate_subject (Payload.subject p)
         = inr (ExpenseCreate.subject obj)
      /\ required "expense_date" (Payload.expense_date p) (fun _ => None)
         = inr (ExpenseCreate.expense_date obj)
      /\ ExpenseCreate.validate_amount (Payload.amount p)
         = inr (ExpenseCreate.amount obj)
      /\ ExpenseCreate.validate_reimbursable (Payload.reimbursable p)
         = inr (ExpenseCreate.reimbursable obj)
      /\ optional_str "description" (Payload.description p) 500
           description_must_have_two_words
         = inr (ExpenseCreate.description obj)
      /\ optional_str "employee" (Payload.employee p) 100
           employee_name_validation
         = inr (ExpenseCreate.employee obj).
Proof.
  unfold ExpenseCreate.validate.
  destruct (required "category_id" _ _) as [e1|v1];
    [split; [discriminate|intros (H & _); discriminate]|].
  destruct (ExpenseCreate.validate_subject _) as [e2|v2];
    [split; [discriminate|intros (_ & H & _); discriminate]|].
  destruct (required "expense_date" _ _) as [e3|v3];
    [split; [discriminate|intros (_ & _ & H & _); discriminate]|].
  destruct (ExpenseCreate.validate_amount _) as [e4|v4];
    [split; [discriminate|intros (_ & _ & _ & H & _); discriminate]|].
  destruct (ExpenseCreate.validate_reimbursable _) as [e5|v5];
    [split; [discriminate|intros (_ & _ & _ & _ & H & _); discriminate]|].
  destruct (optional_str "description" _ _ _) as [e6|v6];
    [split; [discriminate|intros (_ & _ & _ & _ & _ & H & _); discriminate]|].
  destruct (optional_str "employee" _ _ _) as [e7|v7];
    [split; [discriminate|intros (_ & _ & _ & _ & _ & _ & H); discriminate]|].
  split.
  - intros [= <-]. cbn. repeat split.
  - destruct obj. cbn. intros (H1 & H2 & H3 & H4 & H5 & H6 & H7).
    congruence.
Qed.

Lemma validate_sound (p : Payload.t) (obj : ExpenseCreate.t) :
  ExpenseCreate.validate p = inr obj -> well_formed p.
Proof.
  rewrite validate_inr.
  rewrite !required_inr, validate_subject_inr, validate_amount_inr,
    validate_reimbursable_inr, validate_description_inr,
    validate_employee_inr.
  intros ((H1 & _) & (H2 & L2) & (H3 & _) & (H4 & L4) & H5 & H6 & H7).
  unfold well_formed.
  split; [eauto|]. split; [eauto|]. split; [eauto|]. split; [eauto|].
  split; [|split].
  - destruct H5 as [[H5 _]|H5]; rewrite H5; discriminate.
  - intros s Hs. rewrite Hs in H6. tauto.
  - intros s Hs. rewrite Hs in H7. tauto.
Qed.

Lemma validate_complete (p : Payload.t) :
  well_formed p -> exists obj, ExpenseCreate.validate p = inr obj.
Proof.
  intros ((c & Hc) & (s & Hs & Ls) & (d & Hd) & (a & Ha & La) & Hr & Hds & He).
  exists (ExpenseCreate.make c s d a
            (match Payload.reimbursable p with Value b => b | _ => false end)
            (match Payload.description p with Value x => Some x | _ => None end)
            (match Payload.employee p with Value x => Some x | _ => None end)).
  rewrite validate_inr.
  rewrite !required_inr, validate_subject_inr, validate_amount_inr,
    validate_reimbursable_inr, validate_description_inr,
    validate_employee_inr.
  cbn [ExpenseCreate.category_id ExpenseCreate.subject
       ExpenseCreate.expense_date ExpenseCreate.amount
       ExpenseCreate.reimbursable ExpenseCreate.description
       ExpenseCreate.employee].
  repeat match goal with |- _ /\ _ => split end; auto; try lia.
  - destruct (Payload.reimbursable p); [now left|contradiction|now right].
  - destruct (Payload.description p) as [| |x]; try reflexivity.
    specialize (Hds x eq_refl). tauto.
  - destruct (Payload.employee p) as [| |x]; try reflexivity.
    specialize (He x eq_refl). tauto.
Qed.

(** C9.  A create payload is accepted exactly when it is well formed: the
    category, the subject, the date and the amount are given, the subject
    has 2 to 100 characters, the amount is greater than 0, the reimbursable
    flag is not null, a description that is given has at least two
    white-space separated words and at most 500 characters, an employee
    name that is given has 2 to 100 characters and no leading digit.  A
    payload that is not well formed is answered with 400 and neither the
    tables nor the directory change: nothing is persisted. *)
Theorem create_payload_validation (p : Payload.t) :
  ((exists obj, ExpenseCreate.validate p = inr obj) <-> well_formed p)
  /\ (~ well_formed p ->
      exists errs,
        ExpenseCreate.validate p = inl errs
        /\ forall upload_dir splitext_ext current_user db fs invoice_image
                  uuid4 new_id now,
             create_expense_endpoint upload_dir splitext_ext (Decoded p)
               current_user db fs invoice_image uuid4 new_id now
             = (HTTPException 400 (str_errors errs), db, fs)).
Proof.
  split.
  - split; [intros (obj & H); now apply validate_sound with obj
           |apply validate_complete].
  - intros Hbad. destruct (ExpenseCreate.validate p) as [errs|obj] eqn:E.
    + exists errs. split; [reflexivity|]. intros.
      unfold create_expense_endpoint. now rewrite E.
    + exfalso. apply Hbad. now apply validate_sound with obj.
Qed.

Lemma create_payload_validation_witness :
  well_formed Sample.business_lunch
  /\ (~ well_formed Sample.one_word
      /\ exists errs,
           ExpenseCreate.validate Sample.one_word = inl errs
           /\ create_expense_endpoint Sample.upload_dir Sample.splitext_ext
                (Decoded Sample.one_word) "user-1" Sample.db Sample.fs
                None "u-1" "e3" Sample.later
              = (HTTPException 400 (str_errors errs), Sample.db, Sample.fs)).
Proof.
  pose proof (create_payload_validation Sample.business_lunch) as (Hok & _).
  pose proof (create_payload_validation Sample.one_word) as (Hiff & Hbad).
  assert (Hnot : ~ well_formed Sample.one_word).
  { intros H. apply Hiff in H. destruct H as (obj & H). discriminate. }
  split; [apply Hok; eexists; reflexivity|].
  split; [exact Hnot|].
  destruct (Hbad Hnot) as (errs & He & Hend).
  exists errs. split; [exact He|apply Hend].
Defined.

(** ** Validation of an update *)

Lemma update_expense_raises (upload_dir : string)
    (splitext_ext : string -> string) (db db' : AsyncSession.t)
    (fs fs' : FileSystem.t) (expense_id : UUID)
    (expense_update : ExpenseUpdate.t) (invoice_image : option UploadFile.t)
    (uuid4 : UUID) (now : Datetime.t) (err : exn) :
  update_expense upload_dir splitext_ext db fs expense_id expense_update
    invoice_image uuid4 now = (inl err, db', fs') ->
  db' = db.
Proof.
  unfold update_expense.
  destruct (select_by_id db expense_id) as [stored|];
    [|now intros [= _ <- _]].
  destruct (replace_invoice_image _ _ _ _ _ _) as [[e1|] fs1];
    [discriminate|now intros [= _ <- _]].
Qed.

Lemma commit_update_Forall (P : ExpenseModel.t -> Prop) (db : AsyncSession.t)
    (updated : ExpenseModel.t) :
  Forall P (AsyncSession.expenses db) -> P updated ->
  Forall P (AsyncSession.expenses (commit_update db updated)).
Proof.
  intros Hall Hu. unfold commit_update. cbn [AsyncSession.expenses].
  rewrite Forall_forall in *. intros e He. apply in_map_iff in He.
  destruct He as (r & <- & Hr).
  destruct (String.eqb _ _); [exact Hu|now apply Hall].
Qed.

(** What the schema of an update lets through. *)
Lemma update_validate_inr (p : Payload.t) (u : ExpenseUpdate.t) :
  ExpenseUpdate.validate p = inr u ->
  exists c s d a r,
    Payload.category_id p = Value c /\ ExpenseUpdate.category_id u = Some c
    /\ Payload.subject p = Value s /\ ExpenseUpdate.subject u = Some s
    /\ (2 <= String.length s <= 100)%nat
    /\ Payload.expense_date p = Value d
    /\ ExpenseUpdate.expense_date u = Some d
    /\ Payload.amount p = Value a /\ ExpenseUpdate.amount u = Some a
    /\ (0 < a)%Q
    /\ ExpenseUpdate.reimbursable u = Some r
    /\ (Payload.reimbursable p = Absent /\ r = false
        \/ Payload.reimbursable p = Value r)
    /\ ExpenseUpdate.description u
       = match Payload.description p with Value x => Some x | _ => None end
    /\ ExpenseUpdate.employee u
       = match Payload.employee p with Value x => Some x | _ => None end.
Proof.
  unfold ExpenseUpdate.validate.
  destruct (ExpenseCreate.validate p) as [errs|obj] eqn:E; [discriminate|].
  intros [= <-]. apply validate_inr in E.
  rewrite !required_inr, validate_subject_inr, validate_amount_inr,
    validate_reimbursable_inr, validate_description_inr,
    validate_employee_inr in E.
  destruct E as ((H1 & _) & (H2 & L2) & (H3 & _) & (H4 & L4) & H5 & H6 & H7).
  exists (ExpenseCreate.category_id obj), (ExpenseCreate.subject obj),
    (ExpenseCreate.expense_date obj), (ExpenseCreate.amount obj),
    (ExpenseCreate.reimbursable obj).
  cbn [ExpenseUpdate.of_validated ExpenseUpdate.category_id
       ExpenseUpdate.subject ExpenseUpdate.expense_date ExpenseUpdate.amount
       ExpenseUpdate.reimbursable ExpenseUpdate.description
       ExpenseUpdate.employee].
  repeat match goal with |- _ /\ _ => split end; auto; try lia.
  - destruct (Payload.description p); tauto.
  - destruct (Payload.employee p); tauto.
Qed.

Lemma update_validate_omitted (p : Payload.t) :
  omitted (Payload.category_id p) \/ omitted (Payload.subject p)
  \/ omitted (Payload.expense_date p) \/ omitted (Payload.amount p) ->
  exists errs, ExpenseUpdate.validate p = inl errs.
Proof.
  intros H. destruct (ExpenseUpdate.validate p) as [errs|u] eqn:E; [eauto|].
  exfalso. apply update_validate_inr in E.
  destruct E as (c & s & d & a & r & Hc & _ & Hs & _ & _ & Hd & _ & Ha & _).
  destruct H as [H|[H|[H|H]]]; eapply H; eassumption.
Qed.

Lemma update_expense_returns {upload_dir : string}
    {splitext_ext : string -> string} {db db' : AsyncSession.t}
    {fs fs' : FileSystem.t} {expense_id : UUID}
    {expense_update : ExpenseUpdate.t} {invoice_image : option UploadFile.t}
    {uuid4 : UUID} {now : Datetime.t} {updated : ExpenseModel.t} :
  update_expense upload_dir splitext_ext db fs expense_id expense_update
    invoice_image uuid4 now = (inr updated, db', fs') ->
  exists stored, select_by_id db expense_id = Some stored.
Proof.
  unfold update_expense.
  destruct (select_by_id db expense_id) as [stored|]; [eauto|discriminate].
Qed.

(** The row an accepted update stores. *)
Lemma accepted_update_row {upload_dir : string}
    {splitext_ext : string -> string} {db db' : AsyncSession.t}
    {fs fs' : FileSystem.t} {expense_id : UUID} {p : Payload.t}
    {u : ExpenseUpdate.t} {invoice_image : option UploadFile.t}
    {uuid4 : UUID} {now : Datetime.t} {stored updated : ExpenseModel.t} :
  ExpenseUpdate.validate p = inr u ->
  select_by_id db expense_id = Some stored ->
  update_expense upload_dir splitext_ext db fs expense_id u
    invoice_image uuid4 now = (inr updated, db', fs') ->
  db' = commit_update db updated
  /\ row_constraints updated
  /\ Payload.category_id p = Value (ExpenseModel.category_id updated)
  /\ Payload.subject p = Value (ExpenseModel.subject updated)
  /\ Payload.expense_date p = Value (ExpenseModel.expense_date updated)
  /\ Payload.amount p = Value (ExpenseModel.amount updated)
  /\ (Payload.reimbursable p = Absent
      /\ ExpenseModel.reimbursable updated = false
      \/ Payload.reimbursable p = Value (ExpenseModel.reimbursable updated))
  /\ ExpenseModel.description updated
     = match Payload.description p with
       | Value x => Some x
       | _ => ExpenseModel.description stored
       end
  /\ ExpenseModel.employee updated
     = match Payload.employee p with
       | Value x => Some x
       | _ => ExpenseModel.employee stored
       end.
Proof.
  intros Hv Hsel Hr.
  destruct (update_validate_inr p u Hv)
    as (c & s & d & a & r & Hc & Uc & Hs & Us & Ls & Hd & Ud & Ha & Ua & La
        & Ur & Hrb & Uds & Uem).
  destruct (update_expense_success upload_dir splitext_ext db db' fs fs'
              expense_id u invoice_image uuid4 now stored updated Hsel Hr)
    as (Hdb & _ & _ & Ec & Es & Ed & Ea & Er & Eds & Eem & _).
  rewrite Uc in Ec. rewrite Us in Es. rewrite Ud in Ed. rewrite Ua in Ea.
  rewrite Ur in Er. rewrite Uds in Eds. rewrite Uem in Eem.
  cbn [overwrite] in Ec, Es, Ed, Ea, Er.
  unfold row_constraints. rewrite Ec, Es, Ed, Ea, Er, Eds, Eem.
  repeat match goal with |- _ /\ _ => split end; auto; try lia.
  - destruct (Payload.description p); reflexivity.
  - destruct (Payload.employee p); reflexivity.
Qed.

(** C10.  The schema of an update is the schema of a create.  A payload
    that leaves out the category, the subject, the date or the amount is
    rejected by it: the endpoint answers (with 404) before the repository
    runs, so that tables and directory stay as they are.  A payload is
    accepted exactly when it is well formed, and the accepted object has
    all four required attributes and the reimbursable flag set.  Whatever
    the request, rows that satisfy the amount and subject constraints keep
    satisfying them.  A successful update stores the four required values
    of the payload; only the description and the employee name are kept
    when they are left out, while a reimbursable flag that is left out is
    stored as its default [False]. *)
Theorem update_payload_required (upload_dir : string)
    (splitext_ext : string -> string) (expense_id : UUID) (p : Payload.t)
    (db : AsyncSession.t) (fs : FileSystem.t)
    (invoice_image : option UploadFile.t) (uuid4 : UUID) (now : Datetime.t) :
  let http := update_expense_endpoint upload_dir splitext_ext expense_id
                (Decoded p) db fs invoice_image uuid4 now in
  (omitted (Payload.category_id p) \/ omitted (Payload.subject p)
   \/ omitted (Payload.expense_date p) \/ omitted (Payload.amount p) ->
   (exists errs, ExpenseUpdate.validate p = inl errs)
   /\ http = (HTTPException 404 (expense_update_not_found expense_id), db, fs))
  /\ ((exists u, ExpenseUpdate.validate p = inr u) <-> well_formed p)
  /\ (forall u, ExpenseUpdate.validate p = inr u ->
        ExpenseUpdate.category_id u <> None
        /\ ExpenseUpdate.subject u <> None
        /\ ExpenseUpdate.expense_date u <> None
        /\ ExpenseUpdate.amount u <> None
        /\ ExpenseUpdate.reimbursable u <> None)
  /\ (Forall row_constraints (AsyncSession.expenses db) ->
      Forall row_constraints (AsyncSession.expenses (snd (fst http))))
  /\ (forall stored updated db' fs',
        select_by_id db expense_id = Some stored ->
        http = (Response 200 updated, db', fs') ->
        row_constraints updated
        /\ Payload.category_id p = Value (ExpenseModel.category_id updated)
        /\ Payload.subject p = Value (ExpenseModel.subject updated)
        /\ Payload.expense_date p = Value (ExpenseModel.expense_date updated)
        /\ Payload.amount p = Value (ExpenseModel.amount updated)
        /\ (omitted (Payload.description p) ->
            ExpenseModel.description updated = ExpenseModel.description stored)
        /\ (omitted (Payload.employee p) ->
            ExpenseModel.employee updated = ExpenseModel.employee stored)
        /\ (Payload.reimbursable p = Absent ->
            ExpenseModel.reimbursable updated = false)).
Proof.
  cbv zeta. unfold update_expense_endpoint.
  split; [|split; [|split; [|split]]].
  - intros Hom. destruct (update_validate_omitted p Hom) as (errs & He).
    rewrite He. split; [eauto|reflexivity].
  - unfold ExpenseUpdate.validate. split.
    + intros (u & Hu).
      destruct (ExpenseCreate.validate p) as [errs|obj] eqn:E; [discriminate|].
      now apply validate_sound with obj.
    + intros Hwf. destruct (validate_complete p Hwf) as (obj & ->). eauto.
  - intros u Hu.
    destruct (update_validate_inr p u Hu)
      as (c & s & d & a & r & _ & -> & _ & -> & _ & _ & -> & _ & -> & _
          & -> & _).
    repeat split; discriminate.
  - intros Hall.
    destruct (ExpenseUpdate.validate p) as [errs|u] eqn:Hv; [exact Hall|].
    destruct (update_expense _ _ _ _ _ _ _ _ _) as [[[err|updated] db'] fs']
      eqn:Hr.
    + apply update_expense_raises in Hr. subst db'.
      destruct err; exact Hall.
    + destruct (update_expense_returns Hr)
        as (stored & Hsel).
      destruct (accepted_update_row Hv Hsel Hr)
        as (-> & Hrow & _).
      assert (Hdb : Forall row_constraints
                (AsyncSession.expenses (commit_update db updated)))
        by now apply commit_update_Forall.
      destruct (ExpenseSchema.from_orm updated); exact Hdb.
  - intros stored updated db' fs' Hsel.
    destruct (ExpenseUpdate.validate p) as [errs|u] eqn:Hv; [discriminate|].
    destruct (update_expense _ _ _ _ _ _ _ _ _) as [[[err|row] db1] fs1]
      eqn:Hr; [destruct err; discriminate|].
    destruct (accepted_update_row Hv Hsel Hr)
      as (_ & Hrow & Hc & Hs & Hd & Ha & Hrb & Hds & Hem).
    unfold ExpenseSchema.from_orm.
    destruct (ExpenseCreate.validate _); [discriminate|].
    intros [= <- _ _].
    repeat match goal with |- _ /\ _ => split end; auto.
    + intros Hom. rewrite Hds.
      destruct (Payload.description p) as [| |x]; try reflexivity.
      now contradiction (Hom x).
    + intros Hom. rewrite Hem.
      destruct (Payload.employee p) as [| |x]; try reflexivity.
      now contradiction (Hom x).
    + intros Habs. destruct Hrb as [[_ H]|H]; [exact H|congruence].
Qed.

Lemma update_payload_required_witness :
  (omitted (Payload.category_id Sample.only_optional)
   /\ update_expense_endpoint Sample.upload_dir Sample.splitext_ext "e1"
        (Decoded Sample.only_optional) Sample.db Sample.fs None "u-1"
        Sample.later
      = (HTTPException 404 (expense_update_not_found "e1"),
         Sample.db, Sample.fs))
  /\ (select_by_id Sample.db "e1" = Some Sample.with_receipt
      /\ ExpenseModel.reimbursable Sample.with_receipt = true
      /\ exists updated db' fs',
           update_expense_endpoint Sample.upload_dir Sample.splitext_ext
             "e1" (Decoded Sample.required_only) Sample.db Sample.fs None
             "u-1" Sample.later
           = (Response 200 updated, db', fs')
           /\ row_constraints updated
           /\ ExpenseModel.description updated
              = ExpenseModel.description Sample.with_receipt
           /\ ExpenseModel.reimbursable updated = false)
  /\ (exists u,
        ExpenseUpdate.validate Sample.required_only = inr u
        /\ ExpenseUpdate.category_id u <> None
        /\ ExpenseUpdate.subject u <> None
        /\ ExpenseUpdate.expense_date u <> None
        /\ ExpenseUpdate.amount u <> None
        /\ ExpenseUpdate.reimbursable u <> None)
  /\ (Forall row_constraints (AsyncSession.expenses Sample.db)
      /\ Forall row_constraints
           (AsyncSession.expenses
              (snd (fst (update_expense_endpoint Sample.upload_dir
                           Sample.splitext_ext "e1"
                           (Decoded Sample.required_only) Sample.db
                           Sample.fs None "u-1" Sample.later))))).
Proof.
  assert (Hom : omitted (Payload.category_id Sample.only_optional))
    by (intros a H; discriminate).
  assert (Hsel : select_by_id Sample.db "e1" = Some Sample.with_receipt)
    by reflexivity.
  pose proof (update_payload_required Sample.upload_dir Sample.splitext_ext
                "e1" Sample.only_optional Sample.db Sample.fs None "u-1"
                Sample.later) as (Hrej & _).
  pose proof (update_payload_required Sample.upload_dir Sample.splitext_ext
                "e1" Sample.required_only Sample.db Sample.fs None "u-1"
                Sample.later) as (_ & _ & Hattrs & Hkeep & Hstored).
  assert (Hrows : Forall row_constraints (AsyncSession.expenses Sample.db)).
  { repeat constructor; simpl; lia. }
  split; [split; [exact Hom|apply Hrej; now left]|].
  split; [split; [exact Hsel|split; [reflexivity|]]|split].
  - do 3 eexists. split; [reflexivity|].
    edestruct Hstored as (Hrow & _ & _ & _ & _ & Hds & _ & Hrb);
      [exact Hsel|reflexivity|].
    split; [exact Hrow|]. split.
    + apply Hds. intros a H. discriminate.
    + apply Hrb. reflexivity.
  - eexists. split; [reflexivity|]. apply Hattrs. reflexivity.
  - split; [exact Hrows|exact (Hkeep Hrows)].
Defined.

(** ** The category rollup *)

Lemma filter_andb {A : Type} (f g : A -> bool) (l : list A) :
  filter g (filter f l) = filter (fun x => f x && g x) l.
Proof.
  induction l as [|x l IH]; simpl; [reflexivity|].
  destruct (f x); simpl; [destruct (g x)|]; now rewrite IH.
Qed.

Lemma filter_none {A : Type} (f : A -> bool) (l : list A) :
  (forall x, In x l -> f x = false) -> filter f l = [].
Proof.
  induction l as [|x l IH]; intros H; simpl; [reflexivity|].
  rewrite (H x (or_introl eq_refl)). apply IH.
  intros y Hy. apply H. now right.
Qed.

(** A unique key selects one row. *)
Lemma filter_unique_key {A : Type} (key : A -> string) (l : list A) (c : A) :
  NoDup (map key l) -> In c l ->
  filter (fun x => String.eqb (key x) (key c)) l = [c].
Proof.
  induction l as [|x l IH]; intros Hnd Hin; [destruct Hin|].
  simpl in Hnd. inversion Hnd as [|? ? Hnot Hnd']; subst.
  simpl. destruct Hin as [->|Hin].
  - rewrite String.eqb_refl. f_equal. apply filter_none.
    intros y Hy. apply String.eqb_neq. intros E.
    apply Hnot. rewrite <- E. now apply in_map.
  - destruct (String.eqb_spec (key x) (key c)) as [E|E].
    + exfalso. apply Hnot. rewrite E. now apply in_map.
    + now apply IH.
Qed.

Lemma unique_key_inj {A : Type} (key : A -> string) (l : list A) (c c' : A) :
  NoDup (map key l) -> In c l -> In c' l -> key c' = key c -> c' = c.
Proof.
  intros Hnd Hc Hc' E.
  assert (H : In c' (filter (fun x => String.eqb (key x) (key c)) l)).
  { apply filter_In. split; [assumption|now apply String.eqb_eq]. }
  rewrite (filter_unique_key key l c Hnd Hc) in H.
  destruct H as [H|[]]. now symmetry.
Qed.

Section CategoryRollup.
Variable db : AsyncSession.t.
Variable year : Z.

Lemma rollup_unfold :
  get_expenses_by_category db year
  = sort_reverse_Q CategoryTotal.amount
      (map (fun name => CategoryTotal.make name (group_total db year name))
           (distinct String.eqb (map fst (joined_rows db year)))).
Proof.
  unfold get_expenses_by_category, select_category_totals.
  now rewrite map_map.
Qed.

Lemma rollup_categories :
  Permutation (map CategoryTotal.category (get_expenses_by_category db year))
              (distinct String.eqb (map fst (joined_rows db year))).
Proof.
  rewrite rollup_unfold. unfold sort_reverse_Q.
  eapply perm_trans; [apply Permutation_map, stable_sort_Permutation|].
  rewrite map_map. cbn [CategoryTotal.category]. now rewrite map_id.
Qed.

Lemma joined_rows_In (name : string) (a : Q) :
  In (name, a) (joined_rows db year)
  <-> exists e c,
        In e (AsyncSession.expenses db) /\ extract_year e = year
        /\ In c (AsyncSession.category db)
        /\ ExpenseModel.category_id e = Category.category_id c
        /\ name = Category.name c /\ a = ExpenseModel.amount e.
Proof.
  unfold joined_rows, join_category. rewrite in_flat_map. split.
  - intros (e & He & Hc). apply filter_In in He. destruct He as (He & Hy).
    apply in_map_iff in Hc. destruct Hc as (c & [= <- <-] & Hc).
    apply filter_In in Hc. destruct Hc as (Hc & Hid).
    apply String.eqb_eq in Hid. apply Z.eqb_eq in Hy.
    exists e, c. auto 10.
  - intros (e & c & He & Hy & Hc & Hid & -> & ->).
    exists e. split.
    + apply filter_In. split; [assumption|now apply Z.eqb_eq].
    + apply in_map_iff. exists c. split; [reflexivity|].
      apply filter_In. split; [assumption|now apply String.eqb_eq].
Qed.

Hypothesis unique_name : unique_category_name db.

Lemma join_category_group (e : ExpenseModel.t) (c : Category.t) :
  In c (AsyncSession.category db) ->
  filter (fun r => String.eqb (fst r) (Category.name c))
         (join_category db e)
  = if String.eqb (ExpenseModel.category_id e) (Category.category_id c)
    then [(Category.name c, ExpenseModel.amount e)] else [].
Proof.
  intros Hc. unfold join_category.
  rewrite filter_map_swap. cbn [fst].
  rewrite filter_andb.
  rewrite (filter_ext _ (fun x =>
             String.eqb (Category.name x) (Category.name c)
             && String.eqb (ExpenseModel.category_id e)
                           (Category.category_id x)))
    by (intros x; apply andb_comm).
  rewrite <- filter_andb.
  rewrite (filter_unique_key Category.name _ c unique_name Hc).
  simpl. now destruct (String.eqb _ _).
Qed.

Lemma group_total_of (l : list ExpenseModel.t) (c : Category.t) :
  In c (AsyncSession.category db) ->
  (Qsum (map snd (filter (fun r => String.eqb (fst r) (Category.name c))
                         (flat_map (join_category db) l)))
   == Qsum (map ExpenseModel.amount
              (filter (fun e => String.eqb (ExpenseModel.category_id e)
                                           (Category.category_id c)) l)))%Q.
Proof.
  intros Hc. induction l as [|e l IH]; simpl; [reflexivity|].
  rewrite filter_app, map_app, Qsum_app, IH, (join_category_group e c Hc).
  destruct (String.eqb _ _); simpl.
  - now rewrite Qplus_0_r.
  - now rewrite Qplus_0_l.
Qed.

Lemma group_total_spending (c : Category.t) :
  In c (AsyncSession.category db) ->
  (group_total db year (Category.name c)
   == category_spending db year (Category.category_id c))%Q.
Proof.
  intros Hc. unfold group_total, joined_rows, category_spending.
  rewrite (group_total_of _ c Hc). now rewrite filter_andb.
Qed.
End CategoryRollup.

Lemma sort_reverse_Q_Sorted {A : Type} (key : A -> Q) (l : list A) :
  StronglySorted (fun a b => (key b <= key a)%Q) (sort_reverse_Q key l).
Proof.
  unfold sort_reverse_Q.
  eapply StronglySorted_weaken; [|apply stable_sort_Sorted].
  - intros a b H. cbv beta in H. apply negb_false_iff in H.
    now apply Qle_bool_iff.
  - intros x y H. apply negb_true_iff, Qle_bool_false in H.
    apply negb_false_iff, Qle_bool_iff. now apply Qlt_le_weak.
  - intros x y z H1 H2. apply negb_false_iff, Qle_bool_iff.
    apply negb_false_iff, Qle_bool_iff in H1.
    apply negb_false_iff, Qle_bool_iff in H2.
    now apply Qle_trans with (key y).
Qed.

Lemma filter_all {A : Type} (f : A -> bool) (l : list A) :
  (forall x, In x l -> f x = true) -> filter f l = l.
Proof.
  induction l as [|x l IH]; intros H; simpl; [reflexivity|].
  rewrite (H x (or_introl eq_refl)). f_equal. apply IH.
  intros y Hy. apply H. now right.
Qed.

Lemma Permutation_In_iff {A : Type} (l l' : list A) (x : A) :
  Permutation l l' -> In x l <-> In x l'.
Proof.
  intros P. split; apply Permutation_in; [|apply Permutation_sym]; exact P.
Qed.

Lemma NoDup_constant {A : Type} (v : A) (l : list A) :
  NoDup l -> (forall x, In x l -> x = v) -> l = [] \/ l = [v].
Proof.
  intros Hnd Hall. destruct l as [|x [|y l]].
  - now left.
  - right. f_equal. apply Hall. now left.
  - exfalso. inversion Hnd as [|? ? Hnot _]; subst. apply Hnot.
    rewrite (Hall x), (Hall y); simpl; auto.
Qed.

(** C5.  Under the unique index on the category name, the category rollup
    of a year is sorted by amount, largest first; it has one row per
    category of the table with at least one expense dated in that year and
    no other row; the amount of a row is the sum of the amounts of the
    expenses of that category in that year.  In particular, when the only
    category holds all the expenses, these are dated in the year and their
    amounts are 10, 20, 30, 40, 50, the rollup is the single row of that
    category with amount 150. *)
Theorem category_rollup (db : AsyncSession.t) (year : Z) :
  unique_category_name db ->
  let rows := get_expenses_by_category db year in
  StronglySorted
    (fun a b => (CategoryTotal.amount b <= CategoryTotal.amount a)%Q) rows
  /\ NoDup (map CategoryTotal.category rows)
  /\ (forall c, In c (AsyncSession.category db) ->
        In (Category.name c) (map CategoryTotal.category rows)
        <-> exists e, In e (AsyncSession.expenses db)
                      /\ extract_year e = year
                      /\ ExpenseModel.category_id e = Category.category_id c)
  /\ (forall row, In row rows ->
        exists c e,
          In c (AsyncSession.category db)
          /\ Category.name c = CategoryTotal.category row
          /\ In e (AsyncSession.expenses db)
          /\ extract_year e = year
          /\ ExpenseModel.category_id e = Category.category_id c
          /\ (CategoryTotal.amount row
              == category_spending db year (Category.category_id c))%Q)
  /\ (forall c,
        AsyncSession.category db = [c] ->
        (forall e, In e (AsyncSession.expenses db) ->
                   extract_year e = year
                   /\ ExpenseModel.category_id e = Category.category_id c) ->
        map ExpenseModel.amount (AsyncSession.expenses db)
        = [10; 20; 30; 40; 50]%Q ->
        exists a, rows = [CategoryTotal.make (Category.name c) a]
                  /\ (a == 150)%Q).
Proof.
  intros Huniq. cbv zeta.
  assert (Hsorted : StronglySorted
            (fun a b => (CategoryTotal.amount b <= CategoryTotal.amount a)%Q)
            (get_expenses_by_category db year))
    by apply sort_reverse_Q_Sorted.
  assert (Hnd : NoDup (map CategoryTotal.category
                         (get_expenses_by_category db year))).
  { eapply Permutation_NoDup;
      [apply Permutation_sym, rollup_categories|].
    apply distinct_NoDup, String.eqb_eq. }
  assert (Hnames : forall c, In c (AsyncSession.category db) ->
            In (Category.name c)
               (map CategoryTotal.category (get_expenses_by_category db year))
            <-> exists e, In e (AsyncSession.expenses db)
                          /\ extract_year e = year
                          /\ ExpenseModel.category_id e
                             = Category.category_id c).
  { intros c Hc.
    rewrite (Permutation_In_iff _ _ _ (rollup_categories db year)).
    rewrite (distinct_In String.eqb String.eqb_eq), in_map_iff. split.
    - intros ([n a] & Hn & Hin). cbn [fst] in Hn. subst n.
      apply joined_rows_In in Hin.
      destruct Hin as (e & c' & He & Hy & Hc' & Hid & Hname & _).
      assert (c' = c)
        by (apply (unique_key_inj Category.name _ c c' Huniq); auto).
      subst c'. eauto.
    - intros (e & He & Hy & Hid).
      exists (Category.name c, ExpenseModel.amount e).
      split; [reflexivity|]. apply joined_rows_In. exists e, c. auto 10. }
  assert (Hrows : forall row, In row (get_expenses_by_category db year) ->
            exists c e,
              In c (AsyncSession.category db)
              /\ Category.name c = CategoryTotal.category row
              /\ In e (AsyncSession.expenses db)
              /\ extract_year e = year
              /\ ExpenseModel.category_id e = Category.category_id c
              /\ (CategoryTotal.amount row
                  == category_spending db year (Category.category_id c))%Q).
  { intros row Hrow. rewrite rollup_unfold in Hrow.
    unfold sort_reverse_Q in Hrow. apply stable_sort_In in Hrow.
    apply in_map_iff in Hrow. destruct Hrow as (n & <- & Hn).
    rewrite (distinct_In String.eqb String.eqb_eq) in Hn.
    apply in_map_iff in Hn. destruct Hn as ([n' a] & Hn' & Hin).
    cbn [fst] in Hn'. subst n'. apply joined_rows_In in Hin.
    destruct Hin as (e & c & He & Hy & Hc & Hid & -> & _).
    exists c, e. cbn [CategoryTotal.category CategoryTotal.amount].
    repeat split; auto. now apply group_total_spending. }
  split; [exact Hsorted|]. split; [exact Hnd|]. split; [exact Hnames|].
  split; [exact Hrows|].
  intros c Hcat Hall Hamounts.
  assert (Hc : In c (AsyncSession.category db)) by (rewrite Hcat; now left).
  destruct (NoDup_constant (Category.name c) _ Hnd) as [Hnil|Hone].
  { intros n Hn. apply in_map_iff in Hn. destruct Hn as (row & <- & Hrow).
    destruct (Hrows row Hrow) as (c' & _ & Hc' & <- & _).
    rewrite Hcat in Hc'. destruct Hc' as [->|[]]. reflexivity. }
  - exfalso.
    destruct (AsyncSession.expenses db) as [|e l] eqn:E; [discriminate|].
    assert (Hin : In (Category.name c)
                     (map CategoryTotal.category
                          (get_expenses_by_category db year))).
    { apply (Hnames c Hc). exists e.
      destruct (Hall e (or_introl eq_refl)). auto with datatypes. }
    rewrite Hnil in Hin. destruct Hin.
  - destruct (get_expenses_by_category db year) as [|row [|row' rows]] eqn:E;
      try discriminate.
    destruct (Hrows row (or_introl eq_refl))
      as (c' & _ & Hc' & Hname & _ & _ & _ & Hsum).
    rewrite Hcat in Hc'. destruct Hc' as [<-|[]].
    exists (CategoryTotal.amount row). split.
    + destruct row as [n a]. cbn in Hname |- *. now subst n.
    + rewrite Hsum. unfold category_spending.
      rewrite filter_all, Hamounts; [reflexivity|].
      intros e He. destruct (Hall e He) as (-> & ->).
      now rewrite Z.eqb_refl, String.eqb_refl.
Qed.

(** ** The month rollup: the query *)

Lemma Date_eqb_eq (a b : Date.t) : Date.eqb a b = true <-> a = b.
Proof.
  destruct a as [y m d], b as [y' m' d']. unfold Date.eqb.
  cbn [Date.year Date.month Date.day].
  rewrite !andb_true_iff, !Z.eqb_eq. split.
  - intros [[-> ->] ->]. reflexivity.
  - intros [= -> -> ->]. auto.
Qed.

Lemma Permutation_filter_compat {A : Type} (f : A -> bool) (l l' : list A) :
  Permutation l l' -> Permutation (filter f l) (filter f l').
Proof.
  induction 1 as [|x l l' _ IH|x y l|l l' l'' _ IH1 _ IH2]; simpl.
  - apply perm_nil.
  - destruct (f x); [now apply perm_skip|assumption].
  - destruct (f x), (f y);
      try apply perm_swap; apply Permutation_refl.
  - now apply perm_trans with (filter f l').
Qed.

Lemma Qsum_map_ext {A : Type} (f g : A -> Q) (l : list A) :
  (forall x, In x l -> (f x == g x)%Q) ->
  (Qsum (map f l) == Qsum (map g l))%Q.
Proof.
  induction l as [|x l IH]; intros H; simpl; [reflexivity|].
  rewrite (H x (or_introl eq_refl)), IH; [reflexivity|].
  intros y Hy. apply H. now right.
Qed.

Lemma Qsum_map_plus {A : Type} (f g : A -> Q) (l : list A) :
  (Qsum (map (fun x => f x + g x) l) == Qsum (map f l) + Qsum (map g l))%Q.
Proof.
  induction l as [|x l IH]; simpl.
  - now rewrite Qplus_0_l.
  - rewrite IH. ring.
Qed.

Lemma Qsum_map_zero {A : Type} (l : list A) :
  (Qsum (map (fun _ => 0) l) == 0)%Q.
Proof.
  induction l as [|x l IH]; simpl; [reflexivity|].
  rewrite IH. ring.
Qed.

(** Summing, over a duplicate-free list of keys, [a] at the key [x] and 0
    elsewhere. *)
Lemma Qsum_indicator (x : Date.t) (a : Q) (ks : list Date.t) :
  NoDup ks ->
  (Qsum (map (fun d => if Date.eqb x d then a else 0) ks)
   == if existsb (Date.eqb x) ks then a else 0)%Q.
Proof.
  induction 1 as [|k ks Hnot Hnd IH]; simpl; [reflexivity|].
  rewrite IH. destruct (Date.eqb x k) eqn:E; simpl.
  - apply Date_eqb_eq in E. subst k.
    destruct (existsb (Date.eqb x) ks) eqn:Ex; [|ring].
    exfalso. apply Hnot. apply existsb_exists in Ex.
    destruct Ex as (y & Hy & Exy). apply Date_eqb_eq in Exy. now subst.
  - ring.
Qed.

(** Summing the groups of the selected keys is summing the rows of the
    selected keys. *)
Lemma group_by_date_sum (P : Date.t -> bool) (ks : list Date.t)
    (l : list ExpenseModel.t) :
  NoDup ks ->
  (forall e, In e l -> In (ExpenseModel.expense_date e) ks) ->
  (Qsum (map (fun d =>
           Qsum (map ExpenseModel.amount
                   (filter (fun e => Date.eqb (ExpenseModel.expense_date e) d)
                           l)))
           (filter P ks))
   == Qsum (map ExpenseModel.amount
              (filter (fun e => P (ExpenseModel.expense_date e)) l)))%Q.
Proof.
  intros Hnd. induction l as [|e l IH]; intros Hcover.
  - simpl. apply Qsum_map_zero.
  - assert (Hks : NoDup (filter P ks)) by now apply NoDup_filter.
    rewrite (Qsum_map_ext _
               (fun d => (if Date.eqb (ExpenseModel.expense_date e) d
                          then ExpenseModel.amount e else 0)
                         + Qsum (map ExpenseModel.amount
                                   (filter (fun e' =>
                                      Date.eqb (ExpenseModel.expense_date e') d)
                                      l)))%Q).
    + rewrite Qsum_map_plus, IH, (Qsum_indicator _ _ _ Hks)
        by (intros e' He'; apply Hcover; now right).
      cbn [filter].
      destruct (P (ExpenseModel.expense_date e)) eqn:EP.
      * assert (Hex : existsb (Date.eqb (ExpenseModel.expense_date e))
                             (filter P ks) = true).
        { apply existsb_exists. exists (ExpenseModel.expense_date e).
          split; [|now apply Date_eqb_eq].
          apply filter_In. split; [apply Hcover; now left|exact EP]. }
        rewrite Hex. reflexivity.
      * assert (Hex : existsb (Date.eqb (ExpenseModel.expense_date e))
                             (filter P ks) = false).
        { destruct (existsb _ _) eqn:Ex; [|reflexivity].
          apply existsb_exists in Ex. destruct Ex as (y & Hy & Exy).
          apply Date_eqb_eq in Exy. subst y.
          apply filter_In in Hy. destruct Hy as (_ & Hy). congruence. }
        rewrite Hex. now rewrite Qplus_0_l.
    + intros d _. cbn [filter].
      destruct (Date.eqb (ExpenseModel.expense_date e) d); simpl.
      * reflexivity.
      * now rewrite Qplus_0_l.
Qed.

Lemma select_date_totals_Permutation (db : AsyncSession.t) (year : Z) :
  let rows :=
    filter (fun e => extract_year e =? year) (AsyncSession.expenses db) in
  Permutation (select_date_totals db year)
    (map (fun d =>
        (d, Qsum (map ExpenseModel.amount
                    (filter (fun e => Date.eqb (ExpenseModel.expense_date e) d)
                            rows))))
       (distinct Date.eqb (map ExpenseModel.expense_date rows))).
Proof. apply stable_sort_Permutation. Qed.

(** The dates of the query are the dates of the expenses of the year. *)
Lemma select_date_totals_dates (db : AsyncSession.t) (year : Z) (d : Date.t) :
  In d (map fst (select_date_totals db year))
  <-> exists e, In e (AsyncSession.expenses db)
                /\ extract_year e = year
                /\ ExpenseModel.expense_date e = d.
Proof.
  rewrite (Permutation_In_iff _ _ _
             (Permutation_map fst (select_date_totals_Permutation db year))).
  rewrite map_map. cbn [fst]. rewrite map_id.
  rewrite (distinct_In Date.eqb Date_eqb_eq), in_map_iff. split.
  - intros (e & <- & He). apply filter_In in He. destruct He as (He & Hy).
    apply Z.eqb_eq in Hy. eauto.
  - intros (e & He & Hy & <-). exists e. split; [reflexivity|].
    apply filter_In. split; [assumption|now apply Z.eqb_eq].
Qed.

(** The totals of the dates of a month add up to the spending of the
    month. *)
Lemma select_date_totals_month (db : AsyncSession.t) (year m : Z) :
  (Qsum (map snd (filter (fun r => Date.month (fst r) =? m)
                         (select_date_totals db year)))
   == spending db year [m])%Q.
Proof.
  rewrite (Qsum_Permutation _ _
             (Permutation_map snd
                (Permutation_filter_compat _ _ _
                   (select_date_totals_Permutation db year)))).
  rewrite filter_map_swap, map_map. cbn [fst snd].
  rewrite group_by_date_sum.
  - rewrite filter_andb. unfold spending.
    erewrite filter_ext; [reflexivity|].
    intros e. unfold in_, extract_month. cbn [existsb].
    now rewrite orb_false_r.
  - apply distinct_NoDup, Date_eqb_eq.
  - intros e He. apply (distinct_In Date.eqb Date_eqb_eq). now apply in_map.
Qed.

(** ** The month rollup: the dictionary *)

Lemma dict_get_set {V : Type} (k k' : string) (v : V) (d : dict V) :
  dict_get k' (dict_set k v d)
  = if String.eqb k' k then Some v else dict_get k' d.
Proof.
  induction d as [|[k0 v0] d IH]; simpl.
  - reflexivity.
  - destruct (String.eqb_spec k k0) as [->|Hk]; simpl.
    + destruct (String.eqb k' k0); reflexivity.
    + rewrite IH.
      destruct (String.eqb_spec k' k0) as [->|Hk']; [|reflexivity].
      apply String.eqb_neq in Hk. rewrite String.eqb_sym in Hk.
      now rewrite Hk.
Qed.

Lemma dict_set_keys {V : Type} (k : string) (v : V) (d : dict V) :
  map fst (dict_set k v d)
  = if dict_contains k d then map fst d else map fst d ++ [k].
Proof.
  unfold dict_contains. induction d as [|[k0 v0] d IH]; simpl.
  - reflexivity.
  - destruct (String.eqb k k0); simpl; [reflexivity|].
    rewrite IH. now destruct (dict_get k d).
Qed.

Lemma dict_get_In {V : Type} (k : string) (v : V) (d : dict V) :
  dict_get k d = Some v -> In (k, v) d.
Proof.
  induction d as [|[k0 v0] d IH]; simpl; [discriminate|].
  destruct (String.eqb_spec k k0) as [->|Hk].
  - intros [= ->]. now left.
  - intros H. right. now apply IH.
Qed.

Lemma dict_get_None {V : Type} (k : string) (d : dict V) :
  dict_get k d = None <-> ~ In k (map fst d).
Proof.
  induction d as [|[k0 v0] d IH]; simpl; [tauto|].
  destruct (String.eqb_spec k k0) as [->|Hk].
  - split; [discriminate|intros H; exfalso; apply H; now left].
  - rewrite IH. split; [intros H [E|E]; [congruence|contradiction]|tauto].
Qed.

Lemma dict_In_get {V : Type} (k : string) (v : V) (d : dict V) :
  NoDup (map fst d) -> In (k, v) d -> dict_get k d = Some v.
Proof.
  induction d as [|[k0 v0] d IH]; simpl; [tauto|].
  intros Hnd Hin. inversion Hnd as [|? ? Hnot Hnd']; subst.
  destruct Hin as [[= -> ->]|Hin].
  - now rewrite String.eqb_refl.
  - destruct (String.eqb_spec k k0) as [->|Hk]; [|now apply IH].
    exfalso. apply Hnot. apply in_map_iff. now exists (k0, v).
Qed.

Lemma strftime_b_inj (m m' : Z) :
  1 <= m <= 12 -> 1 <= m' <= 12 -> strftime_b m = strftime_b m' -> m = m'.
Proof.
  intros Hm Hm'.
  assert (C : m = 1 \/ m = 2 \/ m = 3 \/ m = 4 \/ m = 5 \/ m = 6 \/ m = 7
              \/ m = 8 \/ m = 9 \/ m = 10 \/ m = 11 \/ m = 12) by lia.
  assert (C' : m' = 1 \/ m' = 2 \/ m' = 3 \/ m' = 4 \/ m' = 5 \/ m' = 6
               \/ m' = 7 \/ m' = 8 \/ m' = 9 \/ m' = 10 \/ m' = 11
               \/ m' = 12) by lia.
  repeat (destruct C as [->|C]); try subst m;
    repeat (destruct C' as [->|C']); try subst m';
    (reflexivity || discriminate).
Qed.

Lemma monthly_totals_step_get (mt : dict MonthData.t) (r : Date.t * Q)
    (k : string) :
  dict_get k (monthly_totals_step mt r)
  = if String.eqb k (strftime_b (record_month r))
    then Some (MonthData.make
                 (MonthData.amount (entry_before mt r) + snd r)%Q
                 (MonthData.month_num (entry_before mt r)))
    else dict_get k mt.
Proof.
  unfold monthly_totals_step, entry_before, dict_contains, record_month.
  destruct (dict_get (strftime_b (Date.month (fst r))) mt) as [data|] eqn:E.
  - rewrite E. apply dict_get_set.
  - rewrite dict_get_set, String.eqb_refl, !dict_get_set.
    now destruct (String.eqb k _).
Qed.

Lemma monthly_totals_step_keys (mt : dict MonthData.t) (r : Date.t * Q) :
  map fst (monthly_totals_step mt r)
  = if dict_contains (strftime_b (record_month r)) mt
    then map fst mt
    else map fst mt ++ [strftime_b (record_month r)].
Proof.
  unfold monthly_totals_step, record_month.
  destruct (dict_contains _ mt) eqn:Ec.
  - unfold dict_contains in Ec.
    destruct (dict_get _ mt) as [data|] eqn:E; [|discriminate].
    rewrite dict_set_keys. unfold dict_contains. now rewrite E.
  - rewrite dict_get_set, String.eqb_refl, !dict_set_keys, Ec.
    unfold dict_contains at 1.
    now rewrite dict_get_set, String.eqb_refl.
Qed.

Lemma month_sum_snoc (m : Z) (seen : list (Date.t * Q)) (r : Date.t * Q) :
  (month_sum m (seen ++ [r])
   == month_sum m seen + (if record_month r =? m then snd r else 0))%Q.
Proof.
  unfold month_sum. rewrite filter_app, map_app, Qsum_app. cbn [filter].
  destruct (record_month r =? m); simpl; ring.
Qed.

Lemma month_sum_unseen (m : Z) (seen : list (Date.t * Q)) :
  ~ In m (map record_month seen) -> (month_sum m seen == 0)%Q.
Proof.
  intros H. unfold month_sum. rewrite filter_none; [reflexivity|].
  intros r Hr. apply Z.eqb_neq. intros E. apply H. rewrite <- E.
  now apply in_map.
Qed.

(** One turn of the loop keeps the dictionary in step with the records. *)
Lemma monthly_totals_step_of (mt : dict MonthData.t)
    (seen : list (Date.t * Q)) (r : Date.t * Q) :
  (forall x, In x (seen ++ [r]) -> 1 <= record_month x <= 12) ->
  monthly_totals_of mt seen ->
  monthly_totals_of (monthly_totals_step mt r) (seen ++ [r]).
Proof.
  intros Hvalid (Hnd & Hkeys & Hget).
  assert (Hr : 1 <= record_month r <= 12)
    by (apply Hvalid, in_or_app; right; now left).
  assert (Hseen : forall m, In m (map record_month seen) -> 1 <= m <= 12).
  { intros m Hm. apply in_map_iff in Hm. destruct Hm as (x & <- & Hx).
    apply Hvalid, in_or_app. now left. }
  (* the entry the record is added to *)
  assert (Hold : MonthData.month_num (entry_before mt r) = record_month r
                 /\ (MonthData.amount (entry_before mt r)
                     == month_sum (record_month r) seen)%Q
                 /\ (dict_contains (strftime_b (record_month r)) mt = true
                     <-> In (record_month r) (map record_month seen))).
  { unfold entry_before, dict_contains.
    destruct (dict_get (strftime_b (record_month r)) mt) as [data|] eqn:E.
    - assert (Hin : In (record_month r) (map record_month seen)).
      { destruct (Hkeys (strftime_b (record_month r))) as (m0 & Hk & Hm0).
        - apply in_map_iff. exists (strftime_b (record_month r), data).
          split; [reflexivity|now apply dict_get_In].
        - apply strftime_b_inj in Hk; auto. now subst m0. }
      destruct (Hget _ Hin) as (data' & Hd & Hnum & Hsum).
      rewrite E in Hd. injection Hd as <-. tauto.
    - assert (Hnot : ~ In (record_month r) (map record_month seen)).
      { intros Hin. destruct (Hget _ Hin) as (data' & Hd & _). congruence. }
      cbn [MonthData.month_num MonthData.amount].
      split; [reflexivity|]. split.
      + symmetry. now apply month_sum_unseen.
      + split; [discriminate|contradiction]. }
  destruct Hold as (Hnum & Hsum & Hcontains).
  split; [|split].
  - rewrite monthly_totals_step_keys.
    destruct (dict_contains _ mt) eqn:Ec; [exact Hnd|].
    apply (Permutation_NoDup (Permutation_cons_append _ _)).
    constructor; [|exact Hnd].
    unfold dict_contains in Ec.
    destruct (dict_get _ mt) eqn:E; [discriminate|].
    now apply dict_get_None.
  - intros k Hk. rewrite monthly_totals_step_keys in Hk.
    assert (Hold : forall k', In k' (map fst mt) ->
              exists m, k' = strftime_b m
                        /\ In m (map record_month (seen ++ [r]))).
    { intros k' Hk'. destruct (Hkeys k' Hk') as (m & -> & Hm).
      exists m. split; [reflexivity|].
      rewrite map_app. apply in_or_app. now left. }
    destruct (dict_contains _ mt); [now apply Hold|].
    apply in_app_iff in Hk. destruct Hk as [Hk|[<-|[]]]; [now apply Hold|].
    exists (record_month r). split; [reflexivity|].
    rewrite map_app. apply in_or_app. right. now left.
  - intros m Hm. rewrite monthly_totals_step_get.
    destruct (Z.eqb_spec (record_month r) m) as [<-|Hne].
    + rewrite String.eqb_refl. eexists. split; [reflexivity|].
      cbn [MonthData.month_num MonthData.amount].
      split; [exact Hnum|].
      now rewrite month_sum_snoc, Z.eqb_refl, Hsum.
    + assert (Hm' : In m (map record_month seen)).
      { rewrite map_app, in_app_iff in Hm.
        destruct Hm as [Hm|[Hm|[]]]; [exact Hm|congruence]. }
      destruct (String.eqb_spec (strftime_b m) (strftime_b (record_month r)))
        as [E|_].
      * apply strftime_b_inj in E; auto. congruence.
      * destruct (Hget m Hm') as (data & Hd & Hn & Hs).
        exists data. split; [exact Hd|]. split; [exact Hn|].
        rewrite month_sum_snoc, Hs.
        apply Z.eqb_neq in Hne. rewrite Hne. ring.
Qed.

Lemma monthly_totals_loop (raw : list (Date.t * Q)) :
  forall (mt : dict MonthData.t) (seen : list (Date.t * Q)),
    (forall x, In x (seen ++ raw) -> 1 <= record_month x <= 12) ->
    monthly_totals_of mt seen ->
    monthly_totals_of (fold_left monthly_totals_step raw mt) (seen ++ raw).
Proof.
  induction raw as [|r raw IH]; intros mt seen Hvalid Hinv; simpl.
  - now rewrite app_nil_r.
  - replace (seen ++ r :: raw) with ((seen ++ [r]) ++ raw)
      by (now rewrite <- app_assoc).
    apply IH.
    + intros x Hx. apply Hvalid. now rewrite <- app_assoc in Hx.
    + apply monthly_totals_step_of; [|exact Hinv].
      intros x Hx. apply Hvalid. apply in_app_iff in Hx.
      apply in_app_iff. destruct Hx as [Hx|[<-|[]]]; [now left|right; now left].
Qed.

(** ** The month rollup: sorting and the first five *)

Lemma StronglySorted_map {A B : Type} (f : A -> B) (R : B -> B -> Prop)
    (l : list A) :
  StronglySorted (fun a b => R (f a) (f b)) l -> StronglySorted R (map f l).
Proof.
  induction 1 as [|x l Hs IH Hx]; simpl; constructor.
  - assumption.
  - rewrite Forall_forall in *. intros y Hy.
    apply in_map_iff in Hy. destruct Hy as (z & <- & Hz). now apply Hx.
Qed.

Lemma StronglySorted_filter {A : Type} (R : A -> A -> Prop) (f : A -> bool)
    (l : list A) :
  StronglySorted R l -> StronglySorted R (filter f l).
Proof.
  induction 1 as [|x l Hs IH Hx]; simpl; [constructor|].
  destruct (f x); [|assumption].
  constructor; [assumption|].
  rewrite Forall_forall in *. intros y Hy.
  apply filter_In in Hy. now apply Hx.
Qed.

(** A strictly descending list is determined by its elements. *)
Lemma StronglySorted_gt_unique (l l' : list Z) :
  StronglySorted Z.gt l -> StronglySorted Z.gt l' ->
  (forall x, In x l <-> In x l') -> l = l'.
Proof.
  intros Hl. revert l'.
  induction Hl as [|x l Hs IH Hx]; intros l' Hl' Hiff.
  - destruct l' as [|y l']; [reflexivity|].
    exfalso. apply (Hiff y). now left.
  - destruct Hl' as [|y l' Hs' Hy].
    + exfalso. apply (Hiff x). now left.
    + rewrite Forall_forall in Hx, Hy.
      assert (x = y).
      { destruct (proj1 (Hiff x) (or_introl eq_refl)) as [E|Hin];
          [now symmetry|].
        destruct (proj2 (Hiff y) (or_introl eq_refl)) as [E|Hin'];
          [assumption|].
        specialize (Hx y Hin'). specialize (Hy x Hin). lia. }
      subst y. f_equal. apply IH; [assumption|].
      intros z. split; intros Hz.
      * destruct (proj1 (Hiff z) (or_intror Hz)) as [E|Hin]; [|assumption].
        specialize (Hx z Hz). lia.
      * destruct (proj2 (Hiff z) (or_intror Hz)) as [E|Hin]; [|assumption].
        specialize (Hy z Hz). lia.
Qed.

Lemma Forall2_map_self {A B : Type} (R : A -> B -> Prop) (f : A -> B)
    (l : list A) :
  (forall x, In x l -> R x (f x)) -> Forall2 R l (map f l).
Proof.
  induction l as [|x l IH]; intros H; simpl; constructor.
  - apply H. now left.
  - apply IH. intros y Hy. apply H. now right.
Qed.

Lemma Forall2_firstn {A B : Type} (R : A -> B -> Prop) (n : nat)
    (l : list A) (l' : list B) :
  Forall2 R l l' -> Forall2 R (firstn n l) (firstn n l').
Proof.
  intros H. revert n. induction H as [|x y l l' Hxy _ IH]; intros n.
  - rewrite !firstn_nil. constructor.
  - destruct n as [|n]; simpl; constructor; [assumption|apply IH].
Qed.

Lemma Forall2_map_both {A B C D : Type} (R : C -> D -> Prop) (f : A -> C)
    (g : B -> D) (l : list A) (l' : list B) :
  Forall2 (fun x y => R (f x) (g y)) l l' -> Forall2 R (map f l) (map g l').
Proof. induction 1; simpl; constructor; assumption. Qed.

Lemma months_descending_Sorted : StronglySorted Z.gt months_descending.
Proof. unfold months_descending. repeat constructor; lia. Qed.

Lemma months_with_data_Sorted (db : AsyncSession.t) (year : Z) :
  StronglySorted Z.gt (months_with_data db year).
Proof. apply StronglySorted_filter, months_descending_Sorted. Qed.

Lemma has_data_spec (db : AsyncSession.t) (year m : Z) :
  has_data db year m = true
  <-> exists e, In e (AsyncSession.expenses db)
                /\ extract_year e = year /\ extract_month e = m.
Proof.
  unfold has_data. rewrite existsb_exists. split.
  - intros (e & He & H). apply andb_true_iff in H.
    rewrite !Z.eqb_eq in H. exists e. tauto.
  - intros (e & He & Hy & Hm). exists e. split; [assumption|].
    apply andb_true_iff. now rewrite !Z.eqb_eq.
Qed.

Lemma months_with_data_In (db : AsyncSession.t) (year m : Z) :
  valid_dates db ->
  In m (months_with_data db year) <-> has_data db year m = true.
Proof.
  intros Hvalid. unfold months_with_data. rewrite filter_In.
  split; [tauto|]. intros H. split; [|assumption].
  apply has_data_spec in H. destruct H as (e & He & _ & <-).
  specialize (Hvalid e He). unfold Date.valid in Hvalid.
  unfold extract_month, months_descending.
  assert (C : Date.month (ExpenseModel.expense_date e) = 12
              \/ Date.month (ExpenseModel.expense_date e) = 11
              \/ Date.month (ExpenseModel.expense_date e) = 10
              \/ Date.month (ExpenseModel.expense_date e) = 9
              \/ Date.month (ExpenseModel.expense_date e) = 8
              \/ Date.month (ExpenseModel.expense_date e) = 7
              \/ Date.month (ExpenseModel.expense_date e) = 6
              \/ Date.month (ExpenseModel.expense_date e) = 5
              \/ Date.month (ExpenseModel.expense_date e) = 4
              \/ Date.month (ExpenseModel.expense_date e) = 3
              \/ Date.month (ExpenseModel.expense_date e) = 2
              \/ Date.month (ExpenseModel.expense_date e) = 1) by lia.
  simpl. intuition auto.
Qed.

(** The months of the records of the query are the months with data. *)
Lemma select_date_totals_months (db : AsyncSession.t) (year m : Z) :
  In m (map record_month (select_date_totals db year))
  <-> has_data db year m = true.
Proof.
  rewrite has_data_spec. unfold record_month.
  rewrite <- (map_map fst Date.month), in_map_iff. split.
  - intros (d & <- & Hd). apply select_date_totals_dates in Hd.
    destruct Hd as (e & He & Hy & <-). eauto.
  - intros (e & He & Hy & <-). exists (ExpenseModel.expense_date e).
    split; [reflexivity|]. apply select_date_totals_dates. eauto.
Qed.

Section MonthRollup.
Variable db : AsyncSession.t.
Variable year : Z.
Hypothesis dates_valid : valid_dates db.

Lemma monthly_totals_final :
  monthly_totals_of
    (fold_left monthly_totals_step (select_date_totals db year) [])
    (select_date_totals db year).
Proof.
  apply (monthly_totals_loop (select_date_totals db year) [] []).
  - intros x Hx. cbn [app] in Hx.
    assert (Hd : In (fst x) (map fst (select_date_totals db year)))
      by now apply in_map.
    apply select_date_totals_dates in Hd.
    destruct Hd as (e & He & _ & Hdate).
    unfold record_month. rewrite <- Hdate. now apply dates_valid.
  - split; [constructor|]. split; [intros k []|intros m []].
Qed.

(** Every entry of the dictionary: its key, its month and its amount. *)
Lemma monthly_totals_entry (x : string * MonthData.t) :
  In x (fold_left monthly_totals_step (select_date_totals db year) []) ->
  fst x = strftime_b (MonthData.month_num (snd x))
  /\ has_data db year (MonthData.month_num (snd x)) = true
  /\ (MonthData.amount (snd x)
      == spending db year [MonthData.month_num (snd x)])%Q.
Proof.
  destruct monthly_totals_final as (Hnd & Hkeys & Hget).
  destruct x as [k data]. intros Hin. cbn [fst snd].
  destruct (Hkeys k) as (m & -> & Hm).
  { apply in_map_iff. now exists (k, data). }
  destruct (Hget m Hm) as (data' & Hd & Hnum & Hsum).
  rewrite (dict_In_get _ _ _ Hnd Hin) in Hd. injection Hd as <-.
  rewrite Hnum. split; [reflexivity|]. split.
  - now apply select_date_totals_months.
  - rewrite Hsum. apply select_date_totals_month.
Qed.

Lemma monthly_totals_months :
  map (fun x => MonthData.month_num (snd x))
      (sorted_reverse (fun x => MonthData.month_num (snd x))
         (fold_left monthly_totals_step (select_date_totals db year) []))
  = months_with_data db year.
Proof.
  set (mt := fold_left monthly_totals_step (select_date_totals db year) []).
  set (num := fun x : string * MonthData.t => MonthData.month_num (snd x)).
  destruct monthly_totals_final as (Hnd & Hkeys & Hget). fold mt in Hnd, Hget.
  assert (Hperm : Permutation (map num (sorted_reverse num mt)) (map num mt))
    by (apply Permutation_map, stable_sort_Permutation).
  assert (Hnum : NoDup (map num mt)).
  { apply (NoDup_map_inv strftime_b). rewrite map_map.
    rewrite (map_ext_in _ fst); [exact Hnd|].
    intros x Hx. symmetry. now apply monthly_totals_entry. }
  apply StronglySorted_gt_unique.
  - apply StronglySorted_NoDup_gt.
    + apply StronglySorted_map. apply (sorted_reverse_Sorted num).
    + now apply (Permutation_NoDup (Permutation_sym Hperm)).
  - apply months_with_data_Sorted.
  - intros m. rewrite (Permutation_In_iff _ _ _ Hperm).
    rewrite (months_with_data_In db year m dates_valid). split.
    + intros Hm. apply in_map_iff in Hm. destruct Hm as (x & <- & Hx).
      now apply monthly_totals_entry.
    + intros Hm. apply select_date_totals_months in Hm.
      destruct (Hget m Hm) as (data & Hd & <- & _).
      apply in_map_iff. exists (strftime_b (MonthData.month_num data), data).
      split; [reflexivity|now apply dict_get_In].
Qed.

Lemma last_5_months_equiv :
  Forall2 MonthTotal.equiv (get_last_5_months_summary db year)
          (last_5_months db year).
Proof.
  unfold get_last_5_months_summary, last_5_months.
  apply Forall2_map_both, Forall2_firstn.
  rewrite <- monthly_totals_months.
  apply Forall2_map_self. intros x Hx.
  unfold sorted_reverse in Hx. apply stable_sort_In in Hx.
  destruct (monthly_totals_entry x Hx) as (Hk & _ & Ha).
  split; [exact Hk|exact Ha].
Qed.
End MonthRollup.

(** C3.  The month rollup of a year is, entry by entry, the rollup of the
    specification: the months of the year that have an expense, latest
    first, cut after the fifth, each with its three-letter abbreviation and
    the sum of the amounts of its expenses.  So it has five entries as soon
    as six (or five) months have data, as many entries as months with data
    when these are fewer than five, and none when the year has no
    expense. *)
Theorem last_5_months_rollup (db : AsyncSession.t) (year : Z) :
  valid_dates db ->
  let summary := get_last_5_months_summary db year in
  Forall2 MonthTotal.equiv summary (last_5_months db year)
  /\ StronglySorted Z.gt (months_with_data db year)
  /\ (forall m, In m (months_with_data db year)
                <-> exists e, In e (AsyncSession.expenses db)
                              /\ extract_year e = year
                              /\ extract_month e = m)
  /\ List.length summary
     = Nat.min 5 (List.length (months_with_data db year))
  /\ ((5 <= List.length (months_with_data db year))%nat ->
      List.length summary = 5%nat)
  /\ ((List.length (months_with_data db year) < 5)%nat ->
      List.length summary = List.length (months_with_data db year))
  /\ ((forall e, In e (AsyncSession.expenses db) -> extract_year e <> year) ->
      summary = []).
Proof.
  intros Hvalid. cbv zeta.
  pose proof (last_5_months_equiv db year Hvalid) as Heq.
  assert (Hlen : List.length (get_last_5_months_summary db year)
                 = Nat.min 5 (List.length (months_with_data db year))).
  { rewrite (Forall2_length Heq). unfold last_5_months.
    now rewrite length_map, length_firstn. }
  split; [exact Heq|]. split; [apply months_with_data_Sorted|].
  split; [|split; [exact Hlen|split; [|split]]].
  - intros m. rewrite (months_with_data_In db year m Hvalid).
    apply has_data_spec.
  - intros H. rewrite Hlen. lia.
  - intros H. rewrite Hlen. lia.
  - intros Hnone.
    assert (Hnil : months_with_data db year = []).
    { destruct (months_with_data db year) as [|m l] eqn:E; [reflexivity|].
      assert (Hm : In m (months_with_data db year)) by (rewrite E; now left).
      apply (months_with_data_In db year m Hvalid), has_data_spec in Hm.
      destruct Hm as (e & He & Hy & _). now contradiction (Hnone e He). }
    rewrite Hnil in Hlen. simpl in Hlen.
    now destruct (get_last_5_months_summary db year).
Qed.

Lemma Forall2_equiv_trans (a b c : list MonthTotal.t) :
  Forall2 MonthTotal.equiv a b -> Forall2 MonthTotal.equiv b c ->
  Forall2 MonthTotal.equiv a c.
Proof.
  intros Hab. revert c. induction Hab as [|x y a b Hxy _ IH]; intros c Hbc.
  - inversion Hbc. constructor.
  - inversion Hbc as [|? z ? c' Hyz Hbc']; subst. constructor.
    + destruct Hxy as [E1 A1], Hyz as [E2 A2].
      split; [now rewrite E1|now rewrite A1].
    + now apply IH.
Qed.

Lemma last_5_months_rollup_witness :
  valid_dates Fixture.last_5_months_db
  /\ Forall2 MonthTotal.equiv
       (get_last_5_months_summary Fixture.last_5_months_db 2024)
       [ MonthTotal.make "Dec" 50; MonthTotal.make "Nov" 250;
         MonthTotal.make "Oct" 300; MonthTotal.make "Sep" 150;
         MonthTotal.make "Aug" 200 ]
  /\ ((5 <= List.length (months_with_data Fixture.last_5_months_db 2024))%nat
      /\ List.length (get_last_5_months_summary Fixture.last_5_months_db 2024)
         = 5%nat)
  /\ ((forall e, In e (AsyncSession.expenses Fixture.last_5_months_db) ->
                 extract_year e <> 1999)
      /\ get_last_5_months_summary Fixture.last_5_months_db 1999 = [])
  /\ (valid_dates Fixture.mixed_db
      /\ (List.length (months_with_data Fixture.mixed_db 2024) < 5)%nat
      /\ List.length (get_last_5_months_summary Fixture.mixed_db 2024)
         = List.length (months_with_data Fixture.mixed_db 2024)).
Proof.
  assert (Hvalid : valid_dates Fixture.last_5_months_db).
  { intros e He. unfold Date.valid.
    repeat (destruct He as [<-|He]; [simpl; lia|]). destruct He. }
  assert (Hnone : forall e,
            In e (AsyncSession.expenses Fixture.last_5_months_db) ->
            extract_year e <> 1999).
  { intros e He.
    repeat (destruct He as [<-|He]; [discriminate|]). destruct He. }
  pose proof (last_5_months_rollup Fixture.last_5_months_db 2024 Hvalid)
    as (Heq & _ & _ & _ & Hfive & _).
  pose proof (last_5_months_rollup Fixture.last_5_months_db 1999 Hvalid)
    as (_ & _ & _ & _ & _ & _ & Hempty).
  assert (Hmixed : valid_dates Fixture.mixed_db).
  { intros e He. unfold Date.valid.
    repeat (destruct He as [<-|He]; [simpl; lia|]). destruct He. }
  pose proof (last_5_months_rollup Fixture.mixed_db 2024 Hmixed)
    as (_ & _ & _ & _ & _ & Hfewer & _).
  split; [exact Hvalid|]. split; [|split; [|split]].
  - assert (Hspec : Forall2 MonthTotal.equiv
              (last_5_months Fixture.last_5_months_db 2024)
              [ MonthTotal.make "Dec" 50; MonthTotal.make "Nov" 250;
                MonthTotal.make "Oct" 300; MonthTotal.make "Sep" 150;
                MonthTotal.make "Aug" 200 ])
      by (repeat constructor).
    exact (Forall2_equiv_trans _ _ _ Heq Hspec).
  - assert (H5 : (5 <= List.length
                         (months_with_data Fixture.last_5_months_db 2024))%nat)
      by (vm_compute; lia).
    split; [exact H5|exact (Hfive H5)].
  - split; [exact Hnone|exact (Hempty Hnone)].
  - assert (H2 : (List.length (months_with_data Fixture.mixed_db 2024) < 5)%nat)
      by (vm_compute; lia).
    split; [exact Hmixed|]. split; [exact H2|exact (Hfewer H2)].
Defined.

Lemma category_rollup_witness :
  unique_category_name Fixture.by_category_db
  /\ (exists a,
        get_expenses_by_category Fixture.by_category_db 2023
        = [CategoryTotal.make (Category.name Fixture.test_category) a]
        /\ (a == 150)%Q)
  /\ (unique_category_name Fixture.mixed_db
      /\ In Sample.lodging (AsyncSession.category Fixture.mixed_db)
      /\ In (Category.name Sample.lodging)
            (map CategoryTotal.category
                 (get_expenses_by_category Fixture.mixed_db 2024))
      /\ exists row c e,
           In row (get_expenses_by_category Fixture.mixed_db 2024)
           /\ In c (AsyncSession.category Fixture.mixed_db)
           /\ Category.name c = CategoryTotal.category row
           /\ In e (AsyncSession.expenses Fixture.mixed_db)
           /\ ExpenseModel.category_id e = Category.category_id c
           /\ (CategoryTotal.amount row
               == category_spending Fixture.mixed_db 2024
                    (Category.category_id c))%Q).
Proof.
  assert (Huniq : unique_category_name Fixture.by_category_db).
  { unfold unique_category_name. simpl. repeat constructor. intros []. }
  assert (Hmixed : unique_category_name Fixture.mixed_db).
  { unfold unique_category_name. simpl. repeat constructor.
    - intros [H|[]]. discriminate.
    - intros []. }
  assert (Hlodging : In Sample.lodging
                        (AsyncSession.category Fixture.mixed_db))
    by (right; now left).
  pose proof (category_rollup Fixture.by_category_db 2023 Huniq)
    as (_ & _ & _ & _ & Hone).
  pose proof (category_rollup Fixture.mixed_db 2024 Hmixed)
    as (_ & _ & Hnames & Hrows & _).
  split; [exact Huniq|]. split.
  - apply Hone.
    + reflexivity.
    + intros e He.
      repeat (destruct He as [<-|He]; [split; reflexivity|]). destruct He.
    + reflexivity.
  - split; [exact Hmixed|]. split; [exact Hlodging|].
    assert (Hin : In (Category.name Sample.lodging)
                     (map CategoryTotal.category
                          (get_expenses_by_category Fixture.mixed_db 2024))).
    { apply (Hnames _ Hlodging).
      exists (Fixture.expense "e2" "cat-2" "Hotel" (Date.make 2024 3 2) 120).
      split; [right; now left|split; reflexivity]. }
    split; [exact Hin|].
    apply in_map_iff in Hin. destruct Hin as (row & _ & Hrow).
    destruct (Hrows row Hrow) as (c & e & Hc & Hn & He & _ & Hid & Hsum).
    exists row, c, e. repeat split; assumption.
Defined.

(** ** The code on the mixed fixture *)

Example available_years_mixed :
  get_available_years Fixture.mixed_db = [2024; 2023].
Proof. reflexivity. Qed.

Example category_rollup_mixed :
  map CategoryTotal.category (get_expenses_by_category Fixture.mixed_db 2024)
  = ["Lodging"; "Test Category_ab12cd"]%string
  /\ Forall2 Qeq
       (map CategoryTotal.amount
            (get_expenses_by_category Fixture.mixed_db 2024))
       [321 # 2; 85 # 2]%Q.
Proof. split; [reflexivity|]. repeat constructor. Qed.

Example last_5_months_mixed :
  Forall2 MonthTotal.equiv
    (get_last_5_months_summary Fixture.mixed_db 2024)
    [MonthTotal.make "Mar" (381 # 2); MonthTotal.make "Jan" (25 # 2)].
Proof. repeat constructor. Qed.

Example split_words :
  split " Lunch  with a client "
  = ["Lunch"; "with"; "a"; "client"]%string.
Proof. reflexivity. Qed.

Example round2_ties :
  (round2 (1 # 8) == 3 # 25)%Q /\ (round2 (3 # 8) == 19 # 50)%Q
  /\ (round2 (2001 # 2000) == 1)%Q.
Proof. repeat split. Qed.

(* ================================================================== *)
(** * Part III: further properties of the routes and the repository    *)
(* ================================================================== *)

(** ** The two rollup routes *)

(** X1.  The by-category route never answers 404 or 400.  Where the
    general-summary route answers 404 (no expense at all) or 400 (a year
    without data), the by-category route raises the same [HTTPException],
    catches it in its own [except Exception] and answers 500.  With a year
    that has data, or without a year when some expense exists, it answers
    200 with the rollup of that year. *)
Theorem by_category_endpoint_statuses (year : option Z)
    (db : AsyncSession.t) (now : Datetime.t) :
  let by_category := get_expenses_by_category_endpoint year db in
  let summary := get_general_summary_endpoint year db now in
  (status_code_of by_category = 200 \/ status_code_of by_category = 500)
  /\ (status_code_of by_category = 500
      <-> status_code_of summary = 404 \/ status_code_of summary = 400)
  /\ (AsyncSession.expenses db = [] -> status_code_of by_category = 500)
  /\ (forall y, year = Some y -> ~ In y (get_available_years db) ->
        status_code_of by_category = 500)
  /\ (forall y, year = Some y -> In y (get_available_years db) ->
        by_category = Response 200 (get_expenses_by_category db y))
  /\ (year = None -> AsyncSession.expenses db <> [] ->
      exists y, In y (get_available_years db)
                /\ (forall y', In y' (get_available_years db) -> y' <= y)
                /\ by_category
                   = Response 200 (get_expenses_by_category db y)).
Proof.
  cbv zeta.
  unfold get_expenses_by_category_endpoint, expenses_by_category_try,
    get_general_summary_endpoint.
  pose proof (available_years_nil db) as Hnil.
  pose proof (available_years_Sorted db) as Hsorted.
  destruct (get_available_years db) as [|y0 ys] eqn:E.
  - cbn. repeat split; auto; try (intros; discriminate).
    + intros y _ []. 
    + intros _ Hne. exfalso. apply Hne. now apply Hnil.
  - assert (Hne : AsyncSession.expenses db <> []).
    { intros H. apply Hnil in H. discriminate. }
    destruct year as [y|].
    + destruct (in_ y (y0 :: ys)) eqn:Hin; cbn.
      * apply in_spec in Hin.
        repeat split; auto; try (intros; discriminate);
          try (intros [H|H]; discriminate).
        -- intros H. contradiction.
        -- intros y' [= <-] Hnot. contradiction.
        -- now intros y' [= <-] _.
      * apply in_false in Hin.
        repeat split; auto; try (intros; discriminate).
        intros y' [= <-] Hy. contradiction.
    + cbn. repeat split; auto; try (intros; discriminate);
        try (intros [H|H]; discriminate).
      * intros H. contradiction.
      * intros _ _. exists y0. split; [now left|]. split; [|reflexivity].
        intros y' [<-|Hy]; [lia|].
        inversion Hsorted as [|? ? _ Hall]; subst.
        rewrite Forall_forall in Hall. specialize (Hall y' Hy). lia.
Qed.

Lemma by_category_endpoint_statuses_witness :
  (AsyncSession.expenses Sample.empty_db = []
   /\ status_code_of (get_expenses_by_category_endpoint None Sample.empty_db)
      = 500)
  /\ (~ In 1999 (get_available_years Fixture.mixed_db)
      /\ status_code_of
           (get_expenses_by_category_endpoint (Some 1999) Fixture.mixed_db)
         = 500
      /\ status_code_of
           (get_general_summary_endpoint (Some 1999) Fixture.mixed_db
              Sample.now)
         = 400)
  /\ (In 2023 (get_available_years Fixture.mixed_db)
      /\ get_expenses_by_category_endpoint (Some 2023) Fixture.mixed_db
         = Response 200 (get_expenses_by_category Fixture.mixed_db 2023))
  /\ (AsyncSession.expenses Fixture.mixed_db <> []
      /\ exists y,
           In y (get_available_years Fixture.mixed_db)
           /\ get_expenses_by_category_endpoint None Fixture.mixed_db
              = Response 200 (get_expenses_by_category Fixture.mixed_db y)).
Proof.
  pose proof (by_category_endpoint_statuses None Sample.empty_db Sample.now)
    as (_ & _ & Hempty & _).
  pose proof (by_category_endpoint_statuses (Some 1999) Fixture.mixed_db
                Sample.now) as (_ & _ & _ & Hbad & _).
  pose proof (by_category_endpoint_statuses (Some 2023) Fixture.mixed_db
                Sample.now) as (_ & _ & _ & _ & Hgood & _).
  pose proof (by_category_endpoint_statuses None Fixture.mixed_db Sample.now)
    as (_ & _ & _ & _ & _ & Hnone).
  assert (Hnot : ~ In 1999 (get_available_years Fixture.mixed_db))
    by (vm_compute; intros [H|[H|[]]]; discriminate).
  assert (Hin : In 2023 (get_available_years Fixture.mixed_db))
    by (vm_compute; right; now left).
  assert (Hne : AsyncSession.expenses Fixture.mixed_db <> [])
    by discriminate.
  split; [split; [reflexivity|exact (Hempty eq_refl)]|].
  split; [split; [exact Hnot|split; [exact (Hbad 1999 eq_refl Hnot)
                                   |reflexivity]]|].
  split; [split; [exact Hin|exact (Hgood 2023 eq_refl Hin)]|].
  split; [exact Hne|].
  destruct (Hnone eq_refl Hne) as (y & Hy & _ & Hr). eauto.
Defined.

Lemma months_with_data_nil (db : AsyncSession.t) (year : Z) :
  valid_dates db ->
  months_with_data db year = []
  <-> forall e, In e (AsyncSession.expenses db) -> extract_year e <> year.
Proof.
  intros Hvalid. split.
  - intros Hnil e He Hy.
    assert (Hm : In (extract_month e) (months_with_data db year)).
    { apply (months_with_data_In db year _ Hvalid), has_data_spec. eauto. }
    rewrite Hnil in Hm. destruct Hm.
  - intros Hnone.
    destruct (months_with_data db year) as [|m l] eqn:E; [reflexivity|].
    assert (Hm : In m (months_with_data db year)) by (rewrite E; now left).
    apply (months_with_data_In db year m Hvalid), has_data_spec in Hm.
    destruct Hm as (e & He & Hy & _). now contradiction (Hnone e He).
Qed.

Lemma last_5_months_length (db : AsyncSession.t) (year : Z) :
  valid_dates db ->
  List.length (get_last_5_months_summary db year)
  = Nat.min 5 (List.length (months_with_data db year)).
Proof.
  intros Hvalid.
  rewrite (Forall2_length (last_5_months_equiv db year Hvalid)).
  unfold last_5_months. now rewrite length_map, length_firstn.
Qed.

(** X2.  The last-5-months route answers 404 exactly when no expense is
    dated in the requested year; otherwise it answers 200 with the rollup,
    which then has at least one entry. *)
Theorem last_5_months_endpoint_not_found (db : AsyncSession.t) (year : Z) :
  valid_dates db ->
  (status_code_of (get_last_5_months_summary_endpoint year db) = 404
   <-> forall e, In e (AsyncSession.expenses db) -> extract_year e <> year)
  /\ ((exists e, In e (AsyncSession.expenses db) /\ extract_year e = year) ->
      get_last_5_months_summary_endpoint year db
      = Response 200 (get_last_5_months_summary db year)
      /\ get_last_5_months_summary db year <> []).
Proof.
  intros Hvalid.
  pose proof (last_5_months_length db year Hvalid) as Hlen.
  pose proof (months_with_data_nil db year Hvalid) as Hnil.
  unfold get_last_5_months_summary_endpoint.
  destruct (get_last_5_months_summary db year) as [|row rows] eqn:E.
  - assert (Hmwd : months_with_data db year = []).
    { destruct (months_with_data db year); [reflexivity|discriminate]. }
    split.
    + split; [intros _; now apply Hnil|reflexivity].
    + intros (e & He & Hy). exfalso.
      apply (proj1 Hnil Hmwd e He Hy).
  - split.
    + split; [discriminate|]. intros Hnone.
      apply Hnil in Hnone. rewrite Hnone in Hlen. discriminate.
    + intros _. split; [reflexivity|discriminate].
Qed.

Lemma last_5_months_endpoint_not_found_witness :
  valid_dates Fixture.mixed_db
  /\ ((forall e, In e (AsyncSession.expenses Fixture.mixed_db) ->
                 extract_year e <> 2022)
      /\ status_code_of (get_last_5_months_summary_endpoint 2022
                           Fixture.mixed_db) = 404)
  /\ ((exists e, In e (AsyncSession.expenses Fixture.mixed_db)
                 /\ extract_year e = 2023)
      /\ get_last_5_months_summary_endpoint 2023 Fixture.mixed_db
         = Response 200 (get_last_5_months_summary Fixture.mixed_db 2023)).
Proof.
  assert (Hvalid : valid_dates Fixture.mixed_db).
  { intros e He. unfold Date.valid.
    repeat (destruct He as [<-|He]; [simpl; lia|]). destruct He. }
  assert (Hnone : forall e, In e (AsyncSession.expenses Fixture.mixed_db) ->
                            extract_year e <> 2022).
  { intros e He.
    repeat (destruct He as [<-|He]; [discriminate|]). destruct He. }
  assert (Hsome : exists e, In e (AsyncSession.expenses Fixture.mixed_db)
                            /\ extract_year e = 2023).
  { eexists. split; [do 4 right; now left|reflexivity]. }
  pose proof (last_5_months_endpoint_not_found Fixture.mixed_db 2022 Hvalid)
    as (H404 & _).
  pose proof (last_5_months_endpoint_not_found Fixture.mixed_db 2023 Hvalid)
    as (_ & H200).
  split; [exact Hvalid|].
  split; [split; [exact Hnone|apply H404, Hnone]|].
  split; [exact Hsome|apply H200, Hsome].
Defined.

(** ** Rows the schema accepts *)

Lemma readable_well_formed (e : ExpenseModel.t) :
  readable e <-> well_formed (ExpenseSchema.payload_of_row e).
Proof.
  unfold readable, ExpenseSchema.from_orm. split.
  - destruct (ExpenseCreate.validate _) as [errs|obj] eqn:E; [discriminate|].
    intros _. now apply validate_sound with obj.
  - intros H. destruct (validate_complete _ H) as (obj & ->). reflexivity.
Qed.

Lemma readable_spec (e : ExpenseModel.t) :
  readable e
  <-> (2 <= String.length (ExpenseModel.subject e) <= 100)%nat
      /\ (0 < ExpenseModel.amount e)%Q
      /\ (forall s, ExpenseModel.description e = Some s ->
            two_words s /\ (String.length s <= 500)%nat)
      /\ (forall s, ExpenseModel.employee e = Some s ->
            (2 <= String.length s <= 100)%nat /\ ~ starts_with_digit s).
Proof.
  rewrite readable_well_formed. unfold well_formed, ExpenseSchema.payload_of_row.
  cbn [Payload.category_id Payload.subject Payload.expense_date
       Payload.amount Payload.reimbursable Payload.description
       Payload.employee].
  split.
  - intros (_ & (s & [= <-] & Ls) & _ & (a & [= <-] & La) & _ & Hd & He).
    split; [exact Ls|]. split; [exact La|]. split.
    + intros x Hx. apply Hd. now rewrite Hx.
    + intros x Hx. apply He. now rewrite Hx.
  - intros (Ls & La & Hd & He).
    split; [eauto|]. split; [eauto|]. split; [eauto|]. split; [eauto|].
    split; [discriminate|]. split.
    + intros x Hx. apply Hd.
      destruct (ExpenseModel.description e); [now injection Hx as ->
                                             |discriminate].
    + intros x Hx. apply He.
      destruct (ExpenseModel.employee e); [now injection Hx as ->
                                          |discriminate].
Qed.

(** What the validated object holds, field by field. *)
Lemma validate_fields (p : Payload.t) (obj : ExpenseCreate.t) :
  ExpenseCreate.validate p = inr obj ->
  Payload.category_id p = Value (ExpenseCreate.category_id obj)
  /\ Payload.subject p = Value (ExpenseCreate.subject obj)
  /\ (2 <= String.length (ExpenseCreate.subject obj) <= 100)%nat
  /\ Payload.expense_date p = Value (ExpenseCreate.expense_date obj)
  /\ Payload.amount p = Value (ExpenseCreate.amount obj)
  /\ (0 < ExpenseCreate.amount obj)%Q
  /\ (Payload.reimbursable p = Absent /\ ExpenseCreate.reimbursable obj = false
      \/ Payload.reimbursable p = Value (ExpenseCreate.reimbursable obj))
  /\ ExpenseCreate.description obj
     = match Payload.description p with Value x => Some x | _ => None end
  /\ ExpenseCreate.employee obj
     = match Payload.employee p with Value x => Some x | _ => None end
  /\ (forall s, ExpenseCreate.description obj = Some s ->
        two_words s /\ (String.length s <= 500)%nat)
  /\ (forall s, ExpenseCreate.employee obj = Some s ->
        (2 <= String.length s <= 100)%nat /\ ~ starts_with_digit s).
Proof.
  intros E. apply validate_inr in E.
  rewrite !required_inr, validate_subject_inr, validate_amount_inr,
    validate_reimbursable_inr, validate_description_inr,
    validate_employee_inr in E.
  destruct E as ((H1 & _) & (H2 & L2) & (H3 & _) & (H4 & L4) & H5 & H6 & H7).
  repeat match goal with |- _ /\ _ => split end; auto; try lia.
  - destruct (Payload.description p); tauto.
  - destruct (Payload.employee p); tauto.
  - intros s Hs. destruct (Payload.description p) as [| |x];
      try congruence.
    destruct H6 as (Hx & Hl & Hw). rewrite Hx in Hs. injection Hs as <-. auto.
  - intros s Hs. destruct (Payload.employee p) as [| |x]; try congruence.
    destruct H7 as (Hx & Hl & Hw). rewrite Hx in Hs. injection Hs as <-.
    split; [lia|assumption].
Qed.

(** ** Create *)

Lemma created_row_readable (p : Payload.t) (obj : ExpenseCreate.t)
    (new_id user_id : UUID) (image : option string) (now : Datetime.t) :
  ExpenseCreate.validate p = inr obj ->
  readable (new_row new_id user_id obj image now).
Proof.
  intros E. apply validate_fields in E.
  destruct E as (_ & _ & Ls & _ & _ & La & _ & _ & _ & Hd & He).
  apply readable_spec. cbn. auto.
Qed.

Lemma write_file_Some (fs fs' : FileSystem.t) (path : string) :
  write_file fs path = Some fs' ->
  FileSystem.write_fails fs path = false
  /\ os_path_exists fs' path = true
  /\ FileSystem.paths fs'
     = path :: filter (fun p => negb (String.eqb path p)) (FileSystem.paths fs)
  /\ FileSystem.remove_fails fs' = FileSystem.remove_fails fs
  /\ FileSystem.write_fails fs' = FileSystem.write_fails fs.
Proof.
  unfold write_file. destruct (FileSystem.write_fails fs path); [discriminate|].
  intros [= <-]. unfold os_path_exists. cbn. rewrite String.eqb_refl. auto.
Qed.

Lemma write_file_None (fs : FileSystem.t) (path : string) :
  write_file fs path = None <-> FileSystem.write_fails fs path = true.
Proof.
  unfold write_file. destruct (FileSystem.write_fails fs path);
    split; congruence.
Qed.

(** The endpoint on a payload the schema accepts. *)
Lemma create_endpoint_eq (upload_dir : string)
    (splitext_ext : string -> string) (p : Payload.t) (obj : ExpenseCreate.t)
    (current_user : UUID) (db : AsyncSession.t) (fs : FileSystem.t)
    (invoice_image : option UploadFile.t) (uuid4 new_id : UUID)
    (now : Datetime.t) :
  ExpenseCreate.validate p = inr obj ->
  create_expense_endpoint upload_dir splitext_ext (Decoded p) current_user
    db fs invoice_image uuid4 new_id now
  = match uploaded_filename invoice_image with
    | None =>
        (Response 201 (new_row new_id current_user obj None now),
         commit_add db (new_row new_id current_user obj None now), fs)
    | Some f =>
        match write_file fs (image_path upload_dir splitext_ext uuid4 f) with
        | Some fs' =>
            let row := new_row new_id current_user obj
                         (Some (uuid4 ++ splitext_ext f)%string) now in
            (Response 201 row, commit_add db row, fs')
        | None =>
            (HTTPException 500
               (expense_unexpected_error_create (ExpenseCreate.subject obj)),
             db, fs)
        end
    end.
Proof.
  intros E. unfold create_expense_endpoint, create_expense, image_path.
  rewrite E.
  destruct (uploaded_filename invoice_image) as [f|].
  - destruct (write_file fs _) as [fs'|]; [|reflexivity].
    fold (new_row new_id current_user obj
            (Some (uuid4 ++ splitext_ext f)%string) now).
    cbv zeta. now rewrite (created_row_readable p obj _ _ _ _ E).
  - fold (new_row new_id current_user obj None now).
    now rewrite (created_row_readable p obj _ _ _ _ E).
Qed.

(** X3.  [create_expense_endpoint] answers 201, 400 or 500, given that the
    database accepts the insert (a new key, a category that exists) and
    that the form field either does not decode or decodes to an object
    with values of the expected JSON types.  It answers 400 exactly when
    the form field is not JSON or the payload is not well formed, and 500
    exactly when the payload is well formed, a file is uploaded and writing
    it fails.  Whenever the answer is not 201 the tables and the upload
    directory are as they were. *)
Theorem create_endpoint_status (upload_dir : string)
    (splitext_ext : string -> string) (expense : form) (current_user : UUID)
    (db : AsyncSession.t) (fs : FileSystem.t)
    (invoice_image : option UploadFile.t) (uuid4 new_id : UUID)
    (now : Datetime.t) :
  insertable db new_id expense ->
  let r := create_expense_endpoint upload_dir splitext_ext expense
             current_user db fs invoice_image uuid4 new_id now in
  let status := status_code_of (fst (fst r)) in
  (status = 201 \/ status = 400 \/ status = 500)
  /\ (status = 400
      <-> expense = JSONDecodeError
          \/ exists p, expense = Decoded p /\ ~ well_formed p)
  /\ (status = 500
      <-> (exists p, expense = Decoded p /\ well_formed p)
          /\ exists f,
               uploaded_filename invoice_image = Some f
               /\ FileSystem.write_fails fs
                    (image_path upload_dir splitext_ext uuid4 f) = true)
  /\ (status <> 201 -> snd (fst r) = db /\ snd r = fs).
Proof.
  intros _. cbv zeta. destruct expense as [|p].
  - cbn. split; [auto|]. split; [split; [auto|reflexivity]|].
    split; [|auto].
    split; [discriminate|intros ((p & H & _) & _); discriminate].
  - destruct (ExpenseCreate.validate p) as [errs|obj] eqn:E.
    + assert (Hbad : ~ well_formed p).
      { intros H. destruct (validate_complete p H) as (obj & Ho).
        congruence. }
      unfold create_expense_endpoint. rewrite E. cbn.
      split; [auto|]. split; [split; [eauto|reflexivity]|].
      split; [|auto].
      split; [discriminate|].
      intros ((q & [= <-] & Hq) & _). contradiction.
    + assert (Hok : well_formed p) by now apply validate_sound with obj.
      rewrite (create_endpoint_eq _ _ _ _ _ _ _ _ _ _ _ E).
      destruct (uploaded_filename invoice_image) as [f|].
      * destruct (write_file fs _) as [fs'|] eqn:W.
        -- apply write_file_Some in W. destruct W as (W & _).
           cbn. split; [auto|]. split; [|split].
           ++ split; [discriminate|].
              intros [H|(q & [= <-] & Hq)]; [discriminate|contradiction].
           ++ split; [discriminate|].
              intros (_ & g & [= <-] & Hg). congruence.
           ++ intros H. now contradiction H.
        -- apply write_file_None in W. cbn.
           split; [auto|]. split; [|split].
           ++ split; [discriminate|].
              intros [H|(q & [= <-] & Hq)]; [discriminate|contradiction].
           ++ split; [intros _; split; eauto|reflexivity].
           ++ auto.
      * cbn. split; [auto|]. split; [|split].
        -- split; [discriminate|].
           intros [H|(q & [= <-] & Hq)]; [discriminate|contradiction].
        -- split; [discriminate|intros (_ & g & Hg & _); discriminate].
        -- intros H. now contradiction H.
Qed.

Lemma sample_insertable :
  insertable Sample.db "e3" (Decoded Sample.business_lunch).
Proof.
  split.
  - intros (e & Hin & Hid). cbn in Hin.
    destruct Hin as [<-|[<-|[]]]; discriminate.
  - intros p c [= <-] [= <-]. cbn. now left.
Defined.

Lemma create_endpoint_status_witness :
  insertable Sample.db "e3" (Decoded Sample.business_lunch)
  /\ (status_code_of
        (fst (fst (create_expense_endpoint Sample.upload_dir
                     Sample.splitext_ext (Decoded Sample.business_lunch)
                     "user-1" Sample.db Sample.locked
                     (Some Sample.new_receipt) "u-1" "e3" Sample.later)))
      <> 201 ->
      snd (fst (create_expense_endpoint Sample.upload_dir
                  Sample.splitext_ext (Decoded Sample.business_lunch)
                  "user-1" Sample.db Sample.locked
                  (Some Sample.new_receipt) "u-1" "e3" Sample.later))
      = Sample.db).
Proof.
  split; [exact sample_insertable|].
  pose proof (create_endpoint_status Sample.upload_dir Sample.splitext_ext
                (Decoded Sample.business_lunch) "user-1" Sample.db
                Sample.locked (Some Sample.new_receipt) "u-1" "e3"
                Sample.later sample_insertable) as (_ & _ & _ & H).
  intros Hs. exact (proj1 (H Hs)).
Defined.

Lemma commit_add_primary_key (db : AsyncSession.t) (row : ExpenseModel.t) :
  ~ has_id db (ExpenseModel.expenses_id row) ->
  primary_key db -> primary_key (commit_add db row).
Proof.
  unfold primary_key, commit_add. cbn [AsyncSession.expenses].
  intros Hnew Hpk. rewrite map_app. apply NoDup_app; [assumption| |].
  - cbn. constructor; [intros []|constructor].
  - intros a Ha [<-|[]]. apply Hnew. apply in_map_iff in Ha.
    destruct Ha as (e & He & Hin). now exists e.
Qed.

Lemma find_snoc {A : Type} (f : A -> bool) (l : list A) (x : A) :
  find f (l ++ [x])
  = match find f l with
    | Some y => Some y
    | None => if f x then Some x else None
    end.
Proof.
  induction l as [|y l IH]; cbn; [reflexivity|].
  now destruct (f y).
Qed.

Lemma select_by_id_commit_add (db : AsyncSession.t) (row : ExpenseModel.t)
    (expense_id : UUID) :
  select_by_id (commit_add db row) expense_id
  = match select_by_id db expense_id with
    | Some e => Some e
    | None =>
        if String.eqb (ExpenseModel.expenses_id row) expense_id
        then Some row else None
    end.
Proof.
  exact (find_snoc
           (fun e => String.eqb (ExpenseModel.expenses_id e) expense_id)
           (AsyncSession.expenses db) row).
Qed.

(** What a 201 of the endpoint means for the request that got it. *)
Lemma created_response_eq (upload_dir : string)
    (splitext_ext : string -> string) (expense : form) (current_user : UUID)
    (db db' : AsyncSession.t) (fs fs' : FileSystem.t)
    (invoice_image : option UploadFile.t) (uuid4 new_id : UUID)
    (now : Datetime.t) (row : ExpenseModel.t) :
  create_expense_endpoint upload_dir splitext_ext expense current_user
    db fs invoice_image uuid4 new_id now = (Response 201 row, db', fs') ->
  exists p obj image,
    expense = Decoded p
    /\ ExpenseCreate.validate p = inr obj
    /\ row = new_row new_id current_user obj image now
    /\ db' = commit_add db row
    /\ match uploaded_filename invoice_image with
       | None => image = None /\ fs' = fs
       | Some f =>
           image = Some (uuid4 ++ splitext_ext f)%string
           /\ write_file fs (image_path upload_dir splitext_ext uuid4 f)
              = Some fs'
       end.
Proof.
  destruct expense as [|p]; [discriminate|].
  destruct (ExpenseCreate.validate p) as [errs|obj] eqn:E.
  - unfold create_expense_endpoint. rewrite E. discriminate.
  - rewrite (create_endpoint_eq _ _ _ _ _ _ _ _ _ _ _ E).
    destruct (uploaded_filename invoice_image) as [f|].
    + destruct (write_file fs _) as [fs1|] eqn:W; [|discriminate].
      cbv zeta. intros [= <- <- <-].
      exists p, obj, (Some (uuid4 ++ splitext_ext f)%string).
      repeat split; auto.
    + intros [= <- <- <-]. exists p, obj, None. repeat split; auto.
Qed.

(** X4.  The row behind a 201.  When [create_expense_endpoint] answers 201
    for a payload and a key that is new, the table has exactly one more
    row, at its end, the categories are the same and keys stay unique.  The
    row is the body of the answer; it passes the response schema; it has
    the generated key, the user of the session and the current time; it
    holds the category, subject, date and amount of the payload, the
    reimbursable flag or [False] when the flag is left out, and the
    description and employee name or NULL when they are left out or null.
    Without an upload the row has no image and the directory is as it was;
    with an upload the row names the file [uuid4 + extension] and that file
    is in the directory. *)
Theorem create_endpoint_created (upload_dir : string)
    (splitext_ext : string -> string) (p : Payload.t) (current_user : UUID)
    (db db' : AsyncSession.t) (fs fs' : FileSystem.t)
    (invoice_image : option UploadFile.t) (uuid4 new_id : UUID)
    (now : Datetime.t) (row : ExpenseModel.t) :
  ~ has_id db new_id ->
  create_expense_endpoint upload_dir splitext_ext (Decoded p) current_user
    db fs invoice_image uuid4 new_id now = (Response 201 row, db', fs') ->
  AsyncSession.expenses db' = AsyncSession.expenses db ++ [row]
  /\ AsyncSession.category db' = AsyncSession.category db
  /\ (primary_key db -> primary_key db')
  /\ readable row
  /\ ExpenseModel.expenses_id row = new_id
  /\ ExpenseModel.user_id row = current_user
  /\ ExpenseModel.updated_at row = now
  /\ Payload.category_id p = Value (ExpenseModel.category_id row)
  /\ Payload.subject p = Value (ExpenseModel.subject row)
  /\ Payload.expense_date p = Value (ExpenseModel.expense_date row)
  /\ Payload.amount p = Value (ExpenseModel.amount row)
  /\ ExpenseModel.reimbursable row
     = match Payload.reimbursable p with Value b => b | _ => false end
  /\ ExpenseModel.description row
     = match Payload.description p with Value x => Some x | _ => None end
  /\ ExpenseModel.employee row
     = match Payload.employee p with Value x => Some x | _ => None end
  /\ match uploaded_filename invoice_image with
     | None => ExpenseModel.invoice_image row = None /\ fs' = fs
     | Some f =>
         ExpenseModel.invoice_image row
         = Some (uuid4 ++ splitext_ext f)%string
         /\ write_file fs (image_path upload_dir splitext_ext uuid4 f)
            = Some fs'
         /\ os_path_exists fs' (image_path upload_dir splitext_ext uuid4 f)
            = true
     end.
Proof.
  intros Hnew H. apply created_response_eq in H.
  destruct H as (q & obj & image & [= <-] & E & -> & -> & Himg).
  pose proof (created_row_readable p obj new_id current_user image now E)
    as Hread.
  apply validate_fields in E.
  destruct E as (H1 & H2 & _ & H3 & H4 & _ & H5 & H6 & H7 & _ & _).
  cbn [commit_add AsyncSession.expenses AsyncSession.category new_row
       ExpenseModel.expenses_id ExpenseModel.user_id ExpenseModel.updated_at
       ExpenseModel.category_id ExpenseModel.subject
       ExpenseModel.expense_date ExpenseModel.amount
       ExpenseModel.reimbursable ExpenseModel.description
       ExpenseModel.employee ExpenseModel.invoice_image].
  repeat match goal with |- _ /\ _ => split end; auto.
  - intros Hpk.
    apply (commit_add_primary_key db (new_row new_id current_user obj image now));
      assumption.
  - destruct H5 as [(-> & ->)| ->]; reflexivity.
  - destruct (uploaded_filename invoice_image) as [f|].
    + destruct Himg as (-> & W). split; [reflexivity|]. split; [exact W|].
      now apply write_file_Some in W.
    + destruct Himg as (-> & ->). auto.
Qed.

Lemma create_endpoint_created_witness :
  ~ has_id Sample.db "e3"
  /\ exists row db' fs',
       create_expense_endpoint Sample.upload_dir Sample.splitext_ext
         (Decoded Sample.required_only) "user-1" Sample.db Sample.fs
         (Some Sample.new_receipt) "u-1" "e3" Sample.later
       = (Response 201 row, db', fs')
       /\ AsyncSession.expenses db' = AsyncSession.expenses Sample.db ++ [row]
       /\ ExpenseModel.reimbursable row = false
       /\ ExpenseModel.description row = None
       /\ ExpenseModel.invoice_image row = Some "u-1.jpg"%string.
Proof.
  assert (Hnew : ~ has_id Sample.db "e3") by exact (proj1 sample_insertable).
  split; [exact Hnew|].
  eexists _, _, _. split; [reflexivity|].
  pose proof (create_endpoint_created Sample.upload_dir Sample.splitext_ext
                Sample.required_only "user-1" Sample.db _ Sample.fs _
                (Some Sample.new_receipt) "u-1" "e3" Sample.later _
                Hnew eq_refl)
    as (H1 & _ & _ & _ & _ & _ & _ & _ & _ & _ & _ & H2 & H3 & _ & H4).
  split; [exact H1|]. split; [exact H2|]. split; [exact H3|].
  exact (proj1 H4).
Defined.

(** X5.  Create, then read.  After a 201 for a new key, reading that key
    returns the created row, through the repository and through
    [get_expense_endpoint] (200, the same body); reading any other key
    gives what it gave before the create. *)
Theorem create_then_read (upload_dir : string)
    (splitext_ext : string -> string) (expense : form) (current_user : UUID)
    (db db' : AsyncSession.t) (fs fs' : FileSystem.t)
    (invoice_image : option UploadFile.t) (uuid4 new_id : UUID)
    (now : Datetime.t) (row : ExpenseModel.t) :
  ~ has_id db new_id ->
  create_expense_endpoint upload_dir splitext_ext expense current_user
    db fs invoice_image uuid4 new_id now = (Response 201 row, db', fs') ->
  get_expense_by_id db' new_id = inr row
  /\ get_expense_endpoint new_id db' = Response 200 row
  /\ (forall expense_id, expense_id <> new_id ->
        get_expense_by_id db' expense_id = get_expense_by_id db expense_id
        /\ get_expense_endpoint expense_id db'
           = get_expense_endpoint expense_id db).
Proof.
  intros Hnew H. apply created_response_eq in H.
  destruct H as (p & obj & image & -> & E & -> & -> & _).
  pose proof (created_row_readable p obj new_id current_user image now E)
    as Hread.
  assert (Hget : get_expense_by_id
                   (commit_add db (new_row new_id current_user obj image now))
                   new_id
                 = inr (new_row new_id current_user obj image now)).
  { unfold get_expense_by_id. rewrite select_by_id_commit_add.
    apply select_by_id_None in Hnew. rewrite Hnew. cbn.
    now rewrite String.eqb_refl. }
  split; [exact Hget|]. split.
  - unfold get_expense_endpoint. rewrite Hget. now rewrite Hread.
  - intros expense_id Hne.
    assert (Hsame : get_expense_by_id
                      (commit_add db
                         (new_row new_id current_user obj image now))
                      expense_id
                    = get_expense_by_id db expense_id).
    { unfold get_expense_by_id. rewrite select_by_id_commit_add.
      destruct (select_by_id db expense_id); [reflexivity|].
      cbn. apply not_eq_sym, String.eqb_neq in Hne. now rewrite Hne. }
    split; [exact Hsame|]. unfold get_expense_endpoint. now rewrite Hsame.
Qed.

Lemma create_then_read_witness :
  ~ has_id Sample.db "e3"
  /\ exists row db' fs',
       create_expense_endpoint Sample.upload_dir Sample.splitext_ext
         (Decoded Sample.business_lunch) "user-1" Sample.db Sample.fs
         None "u-1" "e3" Sample.later
       = (Response 201 row, db', fs')
       /\ get_expense_endpoint "e3" db' = Response 200 row.
Proof.
  assert (Hnew : ~ has_id Sample.db "e3") by exact (proj1 sample_insertable).
  split; [exact Hnew|].
  eexists _, _, _. split; [reflexivity|].
  exact (proj1 (proj2 (create_then_read Sample.upload_dir Sample.splitext_ext
                         (Decoded Sample.business_lunch) "user-1" Sample.db _
                         Sample.fs _ None "u-1" "e3" Sample.later _
                         Hnew eq_refl))).
Defined.

Lemma commit_delete_commit_add (db : AsyncSession.t) (row : ExpenseModel.t) :
  ~ has_id db (ExpenseModel.expenses_id row) ->
  commit_delete (commit_add db row) row = db.
Proof.
  intros Hnew. destruct db as [expenses category].
  unfold commit_delete, commit_add. cbn. f_equal.
  rewrite filter_app. cbn. rewrite String.eqb_refl. cbn.
  rewrite app_nil_r. apply filter_all.
  intros e He. apply negb_true_iff, String.eqb_neq. intros Hid.
  apply Hnew. now exists e.
Qed.

(** Writing a file that was not there and removing it again. *)
Lemma os_remove_write_file (fs fs' : FileSystem.t) (path : string) :
  os_path_exists fs path = false ->
  FileSystem.remove_fails fs path = false ->
  write_file fs path = Some fs' ->
  os_remove fs' path = Some fs.
Proof.
  intros Hex Hrm W. unfold os_remove.
  apply write_file_Some in W. destruct W as (_ & Hex' & Hp & Hr & Hw).
  rewrite Hr, Hrm, Hex', Hp, Hw. cbn. rewrite String.eqb_refl. cbn.
  destruct fs as [paths rf wf]. cbn in *. do 2 f_equal.
  rewrite filter_andb.
  apply filter_all. intros p Hin. rewrite andb_diag.
  apply negb_true_iff, String.eqb_neq. intros <-.
  unfold os_path_exists in Hex. cbn in Hex.
  pose proof (existsb_exists (String.eqb path) paths) as Hx.
  rewrite Hex in Hx. destruct Hx as (_ & Hx).
  assert (false = true); [|discriminate].
  apply Hx. exists path. split; [assumption|apply String.eqb_refl].
Qed.

(** X6.  Create, then delete.  After a 201 for a new key, deleting that key
    answers 200 and gives back the tables and the upload directory exactly
    as they were before the create, provided the image name is new in the
    directory and the file can be removed. *)
Theorem create_then_delete (upload_dir : string)
    (splitext_ext : string -> string) (expense : form) (current_user : UUID)
    (db db' : AsyncSession.t) (fs fs' : FileSystem.t)
    (invoice_image : option UploadFile.t) (uuid4 new_id : UUID)
    (now : Datetime.t) (row : ExpenseModel.t) :
  ~ has_id db new_id ->
  uuid4 <> EmptyString ->
  (forall f, uploaded_filename invoice_image = Some f ->
     os_path_exists fs (image_path upload_dir splitext_ext uuid4 f) = false
     /\ FileSystem.remove_fails fs
          (image_path upload_dir splitext_ext uuid4 f) = false) ->
  create_expense_endpoint upload_dir splitext_ext expense current_user
    db fs invoice_image uuid4 new_id now = (Response 201 row, db', fs') ->
  delete_expense_endpoint upload_dir new_id db' fs'
  = (Response 200 (Deleted.make "Expense deleted successfully" true), db, fs).
Proof.
  intros Hnew Hu Hfile H. apply created_response_eq in H.
  destruct H as (p & obj & image & -> & E & -> & -> & Himg).
  remember (new_row new_id current_user obj image now) as r eqn:Hr.
  assert (Hid : ExpenseModel.expenses_id r = new_id) by now subst r.
  assert (Hi : ExpenseModel.invoice_image r = image) by now subst r.
  assert (Hdb : commit_delete (commit_add db r) r = db).
  { apply commit_delete_commit_add. now rewrite Hid. }
  clear Hr.
  unfold delete_expense_endpoint, delete_expense.
  rewrite select_by_id_commit_add.
  pose proof Hnew as Hnone. apply select_by_id_None in Hnone.
  rewrite Hnone, Hid, String.eqb_refl, Hi.
  destruct (uploaded_filename invoice_image) as [f|].
  - destruct Himg as (-> & W).
    destruct (Hfile f eq_refl) as (Hex & Hrm).
    pose proof (write_file_Some _ _ _ W) as (_ & Hex' & _).
    unfold image_path in Hex, Hrm, Hex', W.
    assert (Ht : truthy (Some (uuid4 ++ splitext_ext f)%string) = true).
    { destruct uuid4; [contradiction|reflexivity]. }
    rewrite Ht, Hex', (os_remove_write_file _ _ _ Hex Hrm W).
    now rewrite Hdb.
  - destruct Himg as (-> & ->). now rewrite Hdb.
Qed.

Lemma create_then_delete_witness :
  exists row db' fs',
    create_expense_endpoint Sample.upload_dir Sample.splitext_ext
      (Decoded Sample.business_lunch) "user-1" Sample.db Sample.fs
      (Some Sample.new_receipt) "u-1" "e3" Sample.later
    = (Response 201 row, db', fs')
    /\ os_path_exists fs' "uploads/u-1.jpg" = true
    /\ delete_expense_endpoint Sample.upload_dir "e3" db' fs'
       = (Response 200 (Deleted.make "Expense deleted successfully" true),
          Sample.db, Sample.fs).
Proof.
  eexists _, _, _. split; [reflexivity|]. split; [reflexivity|].
  eapply (create_then_delete Sample.upload_dir Sample.splitext_ext
            (Decoded Sample.business_lunch) "user-1" Sample.db _ Sample.fs _
            (Some Sample.new_receipt) "u-1" "e3" Sample.later).
  - exact (proj1 sample_insertable).
  - discriminate.
  - intros f [= <-]. split; reflexivity.
  - reflexivity.
Defined.

(** ** Update and delete: keys, rows and files *)

Lemma commit_update_ids (db : AsyncSession.t) (updated : ExpenseModel.t) :
  map ExpenseModel.expenses_id (AsyncSession.expenses (commit_update db updated))
  = map ExpenseModel.expenses_id (AsyncSession.expenses db).
Proof.
  unfold commit_update. cbn [AsyncSession.expenses]. rewrite map_map.
  apply map_ext. intros r.
  destruct (String.eqb_spec (ExpenseModel.expenses_id r)
                            (ExpenseModel.expenses_id updated));
    congruence.
Qed.

(** Where the tables of [update_expense_endpoint] come from. *)
Lemma update_endpoint_db (upload_dir : string)
    (splitext_ext : string -> string) (expense_id : UUID)
    (expense_update : form) (db : AsyncSession.t) (fs : FileSystem.t)
    (invoice_image : option UploadFile.t) (uuid4 : UUID) (now : Datetime.t) :
  let r := update_expense_endpoint upload_dir splitext_ext expense_id
             expense_update db fs invoice_image uuid4 now in
  snd (fst r) = db
  \/ exists p u stored updated,
       expense_update = Decoded p
       /\ ExpenseUpdate.validate p = inr u
       /\ select_by_id db expense_id = Some stored
       /\ update_expense upload_dir splitext_ext db fs expense_id u
            invoice_image uuid4 now
          = (inr updated, commit_update db updated, snd r)
       /\ snd (fst r) = commit_update db updated.
Proof.
  cbv zeta. unfold update_expense_endpoint.
  destruct expense_update as [|p]; [now left|].
  destruct (ExpenseUpdate.validate p) as [errs|u] eqn:Hv; [now left|].
  destruct (update_expense _ _ _ _ _ _ _ _ _) as [[[err|updated] db'] fs']
    eqn:Hr.
  - apply update_expense_raises in Hr. subst db'. left.
    now destruct err.
  - destruct (update_expense_returns Hr) as (stored & Hsel).
    pose proof (update_expense_success _ _ _ _ _ _ _ _ _ _ _ _ _ Hsel Hr)
      as (-> & _).
    right. exists p, u, stored, updated.
    destruct (ExpenseSchema.from_orm updated); cbn [fst snd]; auto.
Qed.

(** X7.  An update never touches keys or rows it is not addressed to.
    Whatever the request and however [update_expense_endpoint] answers, the
    table has the same keys at the same positions, each row under another
    key is the row it was, and the categories are the same; with unique
    keys every row also keeps its user, and keys stay unique. *)
Theorem update_endpoint_frame (upload_dir : string)
    (splitext_ext : string -> string) (expense_id : UUID)
    (expense_update : form) (db : AsyncSession.t) (fs : FileSystem.t)
    (invoice_image : option UploadFile.t) (uuid4 : UUID) (now : Datetime.t) :
  let db' := snd (fst (update_expense_endpoint upload_dir splitext_ext
                         expense_id expense_update db fs invoice_image
                         uuid4 now)) in
  map ExpenseModel.expenses_id (AsyncSession.expenses db')
  = map ExpenseModel.expenses_id (AsyncSession.expenses db)
  /\ AsyncSession.category db' = AsyncSession.category db
  /\ Forall2 (fun old new =>
                ExpenseModel.expenses_id old <> expense_id -> new = old)
             (AsyncSession.expenses db) (AsyncSession.expenses db')
  /\ (primary_key db ->
      primary_key db'
      /\ map ExpenseModel.user_id (AsyncSession.expenses db')
         = map ExpenseModel.user_id (AsyncSession.expenses db)).
Proof.
  cbv zeta.
  destruct (update_endpoint_db upload_dir splitext_ext expense_id
              expense_update db fs invoice_image uuid4 now)
    as [->|(p & u & stored & updated & _ & _ & Hsel & Hr & ->)].
  - split; [reflexivity|]. split; [reflexivity|]. split; [|auto].
    rewrite <- (map_id (AsyncSession.expenses db)) at 2.
    apply Forall2_map_self. reflexivity.
  - pose proof (update_expense_success _ _ _ _ _ _ _ _ _ _ _ _ _ Hsel Hr)
      as (_ & Hid & Huser & _).
    destruct (select_by_id_Some db expense_id stored Hsel) as (Hin & Hsid).
    split; [apply commit_update_ids|]. split; [reflexivity|]. split.
    + unfold commit_update. cbn [AsyncSession.expenses].
      apply Forall2_map_self. intros r _ Hne.
      destruct (String.eqb_spec (ExpenseModel.expenses_id r)
                                (ExpenseModel.expenses_id updated));
        congruence.
    + intros Hpk. split.
      * unfold primary_key. now rewrite commit_update_ids.
      * unfold commit_update. cbn [AsyncSession.expenses]. rewrite map_map.
        apply map_ext_in. intros r Hr_in.
        destruct (String.eqb_spec (ExpenseModel.expenses_id r)
                                  (ExpenseModel.expenses_id updated))
          as [E|E]; [|reflexivity].
        rewrite Huser. f_equal. symmetry.
        apply (unique_key_inj ExpenseModel.expenses_id
                 (AsyncSession.expenses db) stored r Hpk Hin Hr_in).
        congruence.
Qed.

Lemma existsb_filter {A : Type} (f g : A -> bool) (l : list A) :
  existsb f (filter g l) = existsb (fun x => g x && f x) l.
Proof.
  induction l as [|x l IH]; cbn; [reflexivity|].
  destruct (g x); cbn; now rewrite IH.
Qed.

Lemma existsb_ext_in {A : Type} (f g : A -> bool) (l : list A) :
  (forall x, In x l -> f x = g x) -> existsb f l = existsb g l.
Proof.
  induction l as [|x l IH]; intros H; cbn; [reflexivity|].
  rewrite (H x (or_introl eq_refl)), IH; [reflexivity|].
  intros y Hy. apply H. now right.
Qed.

(** [os.remove] takes the path away and no other. *)
Lemma os_remove_Some (fs fs' : FileSystem.t) (path : string) :
  os_remove fs path = Some fs' ->
  os_path_exists fs' path = false
  /\ (forall q, q <> path -> os_path_exists fs' q = os_path_exists fs q)
  /\ FileSystem.remove_fails fs' = FileSystem.remove_fails fs
  /\ FileSystem.write_fails fs' = FileSystem.write_fails fs.
Proof.
  unfold os_remove.
  destruct (FileSystem.remove_fails fs path || negb (os_path_exists fs path));
    [discriminate|].
  intros [= <-]. unfold os_path_exists. cbn. rewrite !existsb_filter.
  split; [|split; [|split; reflexivity]].
  - apply not_true_is_false. intros H. apply existsb_exists in H.
    destruct H as (x & _ & Hx). apply andb_prop in Hx. destruct Hx as (H1 & H2).
    rewrite H2 in H1. discriminate.
  - intros q Hq. rewrite existsb_filter. apply existsb_ext_in. intros x _.
    destruct (String.eqb_spec q x) as [<-|Hne]; [|apply andb_false_r].
    apply not_eq_sym, String.eqb_neq in Hq. now rewrite Hq.
Qed.

Lemma write_file_exists (fs fs' : FileSystem.t) (path q : string) :
  write_file fs path = Some fs' -> q <> path ->
  os_path_exists fs' q = os_path_exists fs q.
Proof.
  intros W Hq. apply write_file_Some in W. destruct W as (_ & _ & Hp & _).
  unfold os_path_exists. rewrite Hp. cbn.
  pose proof Hq as Hq'. apply String.eqb_neq in Hq'. rewrite Hq'. cbn.
  rewrite existsb_filter. apply existsb_ext_in. intros x _.
  destruct (String.eqb_spec q x) as [<-|Hne]; [|apply andb_false_r].
  apply not_eq_sym, String.eqb_neq in Hq. now rewrite Hq.
Qed.

Lemma filter_unique_key_length {A : Type} (key : A -> string) (l : list A)
    (c : A) :
  NoDup (map key l) -> In c l ->
  (List.length (filter (fun x => negb (String.eqb (key x) (key c))) l) + 1
   = List.length l)%nat.
Proof.
  induction l as [|x l IH]; intros Hnd Hin; [destruct Hin|].
  cbn in Hnd. inversion Hnd as [|? ? Hnot Hnd']; subst.
  cbn. destruct Hin as [->|Hin].
  - rewrite String.eqb_refl. cbn. rewrite filter_all; [lia|].
    intros y Hy. apply negb_true_iff, String.eqb_neq. intros E.
    apply Hnot. rewrite <- E. now apply in_map.
  - destruct (String.eqb_spec (key x) (key c)) as [E|E]; cbn.
    + exfalso. apply Hnot. rewrite E. now apply in_map.
    + rewrite <- (IH Hnd' Hin). lia.
Qed.

Lemma NoDup_map_filter {A B : Type} (f : A -> B) (g : A -> bool)
    (l : list A) :
  NoDup (map f l) -> NoDup (map f (filter g l)).
Proof.
  induction l as [|x l IH]; intros Hnd; cbn; [constructor|].
  cbn in Hnd. inversion Hnd as [|? ? Hnot Hnd']; subst.
  destruct (g x); cbn; [|now apply IH].
  constructor; [|now apply IH].
  intros H. apply Hnot. apply in_map_iff in H.
  destruct H as (y & Hy & Hin). apply filter_In in Hin.
  apply in_map_iff. exists y. tauto.
Qed.

(** The directory a successful [delete_expense] leaves. *)
Lemma delete_expense_fs (upload_dir : string) (db db' : AsyncSession.t)
    (fs fs' : FileSystem.t) (expense_id : UUID) (stored : ExpenseModel.t)
    (result : bool) :
  select_by_id db expense_id = Some stored ->
  delete_expense upload_dir db fs expense_id = (inr result, db', fs') ->
  db' = commit_delete db stored
  /\ (truthy (ExpenseModel.invoice_image stored) = false -> fs' = fs)
  /\ (forall image,
        ExpenseModel.invoice_image stored = Some image ->
        image <> EmptyString ->
        os_path_exists fs' (os_path_join upload_dir image) = false
        /\ forall q, q <> os_path_join upload_dir image ->
                     os_path_exists fs' q = os_path_exists fs q).
Proof.
  intros Hsel. unfold delete_expense. rewrite Hsel.
  destruct (ExpenseModel.invoice_image stored) as [image|].
  - destruct image as [|c image]; cbn [truthy].
    + intros [= _ <- <-]. split; [reflexivity|]. split; [reflexivity|].
      intros image [= <-] H. now contradiction H.
    + destruct (os_path_exists fs _) eqn:Ex.
      * destruct (os_remove fs _) as [fs1|] eqn:Er; [|discriminate].
        intros [= _ <- <-]. split; [reflexivity|].
        split; [discriminate|]. intros x [= <-] _.
        apply os_remove_Some in Er. tauto.
      * intros [= _ <- <-]. split; [reflexivity|].
        split; [discriminate|]. intros x [= <-] _. auto.
  - intros [= _ <- <-]. split; [reflexivity|]. split; [reflexivity|].
    discriminate.
Qed.

(** X8.  What a delete removes.  [delete_expense_endpoint] never changes
    the categories, and unless it answers 200 it changes neither the
    expenses nor the upload directory.  When it answers 200 for a stored
    expense: with unique keys the table has exactly one row less and keys
    stay unique; if the expense names an image, the file of that name is
    not in the directory afterwards and every other path is there exactly
    if it was before; if it names none, the directory is untouched. *)
Theorem delete_endpoint_removes (upload_dir : string) (expense_id : UUID)
    (db : AsyncSession.t) (fs : FileSystem.t) :
  let r := delete_expense_endpoint upload_dir expense_id db fs in
  let db' := snd (fst r) in
  let fs' := snd r in
  AsyncSession.category db' = AsyncSession.category db
  /\ (status_code_of (fst (fst r)) <> 200 -> db' = db /\ fs' = fs)
  /\ (status_code_of (fst (fst r)) = 200 ->
      exists stored,
        select_by_id db expense_id = Some stored
        /\ (primary_key db ->
            primary_key db'
            /\ (List.length (AsyncSession.expenses db') + 1
                = List.length (AsyncSession.expenses db))%nat)
        /\ (truthy (ExpenseModel.invoice_image stored) = false -> fs' = fs)
        /\ (forall image,
              ExpenseModel.invoice_image stored = Some image ->
              image <> EmptyString ->
              os_path_exists fs' (os_path_join upload_dir image) = false
              /\ forall q, q <> os_path_join upload_dir image ->
                           os_path_exists fs' q = os_path_exists fs q)).
Proof.
  cbv zeta. unfold delete_expense_endpoint.
  destruct (delete_expense_cases upload_dir db fs expense_id)
    as [(Hno & E)|[(x & Hx & Hf & E)|(x & fs1 & Hx & Hf & E)]];
    rewrite E; cbn [fst snd status_code_of].
  - split; [reflexivity|]. split; [auto|discriminate].
  - split; [reflexivity|]. split; [auto|discriminate].
  - split; [reflexivity|]. split; [intros H; now contradiction H|].
    intros _. exists x. split; [exact Hx|].
    destruct (delete_expense_fs _ _ _ _ _ _ _ _ Hx E) as (_ & H1 & H2).
    split; [|split; assumption].
    destruct (select_by_id_Some db expense_id x Hx) as (Hin & _).
    intros Hpk. unfold commit_delete. cbn [AsyncSession.expenses]. split.
    + now apply NoDup_map_filter.
    + now apply (filter_unique_key_length ExpenseModel.expenses_id).
Qed.

Lemma attachment_removal_fails_image (upload_dir : string) (fs : FileSystem.t)
    (e e' : ExpenseModel.t) :
  ExpenseModel.invoice_image e' = ExpenseModel.invoice_image e ->
  attachment_removal_fails upload_dir fs e'
  <-> attachment_removal_fails upload_dir fs e.
Proof. unfold attachment_removal_fails. now intros ->. Qed.

(** The two steps of [replace_invoice_image] when a file is uploaded. *)
Lemma replace_invoice_image_upload (upload_dir : string)
    (splitext_ext : string -> string) (fs : FileSystem.t)
    (e : ExpenseModel.t) (invoice_image : option UploadFile.t)
    (uuid4 : UUID) (f : string) :
  uploaded_filename invoice_image = Some f ->
  let new_path := image_path upload_dir splitext_ext uuid4 f in
  let r := replace_invoice_image upload_dir splitext_ext fs e invoice_image
             uuid4 in
  (attachment_removal_fails upload_dir fs e /\ r = (None, fs))
  \/ (~ attachment_removal_fails upload_dir fs e
      /\ exists fs1,
           (forall old, attachment_path upload_dir e = Some old ->
                        os_path_exists fs1 old = false)
           /\ (forall q, attachment_path upload_dir e <> Some q ->
                         os_path_exists fs1 q = os_path_exists fs q)
           /\ FileSystem.write_fails fs1 = FileSystem.write_fails fs
           /\ ((FileSystem.write_fails fs new_path = true /\ r = (None, fs1))
               \/ (FileSystem.write_fails fs new_path = false
                   /\ exists fs2,
                        write_file fs1 new_path = Some fs2
                        /\ r = (Some (Row.set_invoice_image
                                        (Some (uuid4 ++ splitext_ext f)%string)
                                        e), fs2)))).
Proof.
  intros Hf. cbv zeta. unfold replace_invoice_image, image_path. rewrite Hf.
  set (new_path := os_path_join upload_dir (uuid4 ++ splitext_ext f)).
  assert (Hwrite : forall fs1,
            FileSystem.write_fails fs1 = FileSystem.write_fails fs ->
            (FileSystem.write_fails fs new_path = true
             /\ match write_file fs1 new_path with
                | Some fs2 =>
                    (Some (Row.set_invoice_image
                             (Some (uuid4 ++ splitext_ext f)%string) e), fs2)
                | None => (None, fs1)
                end = (None, fs1))
            \/ (FileSystem.write_fails fs new_path = false
                /\ exists fs2,
                     write_file fs1 new_path = Some fs2
                     /\ match write_file fs1 new_path with
                        | Some fs2 =>
                            (Some (Row.set_invoice_image
                                     (Some (uuid4 ++ splitext_ext f)%string)
                                     e), fs2)
                        | None => (None, fs1)
                        end
                        = (Some (Row.set_invoice_image
                                   (Some (uuid4 ++ splitext_ext f)%string) e),
                           fs2))).
  { intros fs1 Hw. unfold write_file. rewrite Hw.
    destruct (FileSystem.write_fails fs new_path); [left|right]; eauto. }
  destruct (attachment_removal_dec upload_dir fs e) as [Hfail|Hok].
  - left. split; [exact Hfail|].
    destruct Hfail as (image & Hi & Hne & Hex & Hrm). rewrite Hi.
    destruct image as [|c image]; [contradiction|]. cbn [truthy].
    rewrite Hex. unfold os_remove. rewrite Hrm. reflexivity.
  - right. split; [exact Hok|].
    unfold attachment_path.
    destruct (ExpenseModel.invoice_image e) as [image|] eqn:Ei.
    + destruct image as [|c image]; cbn [truthy].
      * exists fs. split; [discriminate|]. split; [reflexivity|].
        split; [reflexivity|]. now apply Hwrite.
      * destruct (os_path_exists fs _) eqn:Ex.
        -- destruct (os_remove fs _) as [fs1|] eqn:Er.
           ++ apply os_remove_Some in Er.
              destruct Er as (R1 & R2 & _ & R3).
              exists fs1. split; [now intros old [= <-]|]. split.
              ** intros q Hq. apply R2. congruence.
              ** split; [exact R3|]. now apply Hwrite.
           ++ exfalso. apply Hok. exists (String c image).
              unfold os_remove in Er. rewrite Ex in Er.
              destruct (FileSystem.remove_fails fs _) eqn:Erm;
                [|discriminate].
              rewrite Ei. repeat split; auto. discriminate.
        -- exists fs. split; [now intros old [= <-]|].
           split; [reflexivity|]. split; [reflexivity|]. now apply Hwrite.
    + exists fs. split; [discriminate|]. split; [reflexivity|].
      split; [reflexivity|]. now apply Hwrite.
Qed.

Lemma assign_fields_image (u : ExpenseUpdate.t) (e : ExpenseModel.t) :
  ExpenseModel.invoice_image (assign_fields u e)
  = ExpenseModel.invoice_image e.
Proof.
  pose proof (assign_fields_spec u e) as H. cbv zeta in H. tauto.
Qed.

Lemma attachment_path_assign_fields (upload_dir : string)
    (u : ExpenseUpdate.t) (e : ExpenseModel.t) :
  attachment_path upload_dir (assign_fields u e)
  = attachment_path upload_dir e.
Proof. unfold attachment_path. now rewrite assign_fields_image. Qed.

(** X9.  An update with an upload replaces the file.  When [update_expense]
    succeeds on a stored expense with an uploaded file, the new file
    [uuid4 + extension] is in the upload directory and the row names it;
    the file the row named before is gone (unless it has the very same
    path); every other path is there exactly if it was before.  This needs
    that removing the old file did not fail and that the new file could be
    written. *)
Theorem update_upload_replaces_file (upload_dir : string)
    (splitext_ext : string -> string) (db db' : AsyncSession.t)
    (fs fs' : FileSystem.t) (expense_id : UUID)
    (expense_update : ExpenseUpdate.t) (invoice_image : option UploadFile.t)
    (uuid4 : UUID) (now : Datetime.t) (stored updated : ExpenseModel.t)
    (f : string) :
  select_by_id db expense_id = Some stored ->
  uploaded_filename invoice_image = Some f ->
  update_expense upload_dir splitext_ext db fs expense_id expense_update
    invoice_image uuid4 now = (inr updated, db', fs') ->
  let new_path := image_path upload_dir splitext_ext uuid4 f in
  ExpenseModel.invoice_image updated = Some (uuid4 ++ splitext_ext f)%string
  /\ os_path_exists fs' new_path = true
  /\ (forall old, attachment_path upload_dir stored = Some old ->
                  old <> new_path -> os_path_exists fs' old = false)
  /\ (forall q, q <> new_path ->
                attachment_path upload_dir stored <> Some q ->
                os_path_exists fs' q = os_path_exists fs q)
  /\ ~ attachment_removal_fails upload_dir fs stored
  /\ FileSystem.write_fails fs new_path = false.
Proof.
  intros Hsel Hf Hr. cbv zeta.
  pose proof (update_expense_success _ _ _ _ _ _ _ _ _ _ _ _ _ Hsel Hr)
    as (_ & _ & _ & _ & _ & _ & _ & _ & _ & _ & Himg & _).
  rewrite Hf in Himg. split; [exact Himg|].
  unfold update_expense in Hr. rewrite Hsel in Hr.
  pose proof (replace_invoice_image_upload upload_dir splitext_ext fs
                (assign_fields expense_update stored) invoice_image uuid4 f
                Hf) as Hrep.
  cbv zeta in Hrep.
  rewrite attachment_path_assign_fields in Hrep.
  rewrite (attachment_removal_fails_image upload_dir fs stored
             (assign_fields expense_update stored)
             (assign_fields_image expense_update stored)) in Hrep.
  destruct Hrep as [(_ & E)|(Hok & fs1 & H1 & H2 & H3 & Hw)].
  - rewrite E in Hr. discriminate.
  - destruct Hw as [(_ & E)|(Hw & fs2 & W & E)]; rewrite E in Hr;
      [discriminate|].
    injection Hr as _ _ <-.
    pose proof (write_file_Some _ _ _ W) as (_ & Hex & _).
    split; [exact Hex|]. split; [|split; [|split; assumption]].
    + intros old Hold Hne.
      rewrite (write_file_exists _ _ _ _ W Hne). now apply H1.
    + intros q Hq Hnot.
      rewrite (write_file_exists _ _ _ _ W Hq). now apply H2.
Qed.

Lemma update_upload_replaces_file_witness :
  exists updated db' fs',
    update_expense Sample.upload_dir Sample.splitext_ext Sample.db Sample.fs
      "e1" Sample.two_attributes (Some Sample.new_receipt) "u-1" Sample.later
    = (inr updated, db', fs')
    /\ ExpenseModel.invoice_image updated = Some "u-1.jpg"%string
    /\ os_path_exists fs' "uploads/u-1.jpg" = true
    /\ os_path_exists fs' "uploads/receipt-1.png" = false.
Proof.
  eexists _, _, _. split; [reflexivity|].
  pose proof (update_upload_replaces_file Sample.upload_dir
                Sample.splitext_ext Sample.db _ Sample.fs _ "e1"
                Sample.two_attributes (Some Sample.new_receipt) "u-1"
                Sample.later Sample.with_receipt _ "scan.jpg"
                eq_refl eq_refl eq_refl) as (H1 & H2 & H3 & _).
  split; [exact H1|]. split; [exact H2|].
  apply H3; [reflexivity|discriminate].
Defined.

(** X10.  An update whose upload cannot be written loses the old file.
    Let a well-formed update with an uploaded file address a stored expense
    whose image file is in the directory and can be removed, and let the
    write of the new file fail.  Then [update_expense_endpoint] answers
    500 and leaves the tables as they were, so that the row still names
    the old image; but the old file has been removed from the directory.
    When it is the removal that fails, tables and directory are both
    untouched. *)
Theorem update_upload_failure (upload_dir : string)
    (splitext_ext : string -> string) (expense_id : UUID) (p : Payload.t)
    (db : AsyncSession.t) (fs : FileSystem.t)
    (invoice_image : option UploadFile.t) (uuid4 : UUID) (now : Datetime.t)
    (stored : ExpenseModel.t) (f : string) :
  well_formed p ->
  select_by_id db expense_id = Some stored ->
  uploaded_filename invoice_image = Some f ->
  let r := update_expense_endpoint upload_dir splitext_ext expense_id
             (Decoded p) db fs invoice_image uuid4 now in
  (attachment_removal_fails upload_dir fs stored ->
   r = (HTTPException 500 (expense_unexpected_error_update expense_id),
        db, fs))
  /\ (~ attachment_removal_fails upload_dir fs stored ->
      FileSystem.write_fails fs
        (image_path upload_dir splitext_ext uuid4 f) = true ->
      fst r = (HTTPException 500 (expense_unexpected_error_update expense_id),
               db)
      /\ get_expense_by_id (snd (fst r)) expense_id = inr stored
      /\ forall old, attachment_path upload_dir stored = Some old ->
                     os_path_exists (snd r) old = false).
Proof.
  intros Hwf Hsel Hf. cbv zeta.
  destruct (validate_complete p Hwf) as (obj & Hobj).
  unfold update_expense_endpoint, ExpenseUpdate.validate. rewrite Hobj.
  unfold update_expense. rewrite Hsel.
  pose proof (replace_invoice_image_upload upload_dir splitext_ext fs
                (assign_fields (ExpenseUpdate.of_validated obj) stored)
                invoice_image uuid4 f Hf) as Hrep.
  cbv zeta in Hrep.
  rewrite attachment_path_assign_fields in Hrep.
  rewrite (attachment_removal_fails_image upload_dir fs stored
             (assign_fields (ExpenseUpdate.of_validated obj) stored)
             (assign_fields_image (ExpenseUpdate.of_validated obj) stored))
    in Hrep.
  destruct Hrep as [(Hfail & E)|(Hok & fs1 & H1 & H2 & H3 & Hw)].
  - rewrite E. split; [reflexivity|]. intros H. contradiction.
  - split; [intros H; contradiction|]. intros _ Hwr.
    destruct Hw as [(_ & E)|(Hw & _)]; [|congruence].
    rewrite E. cbn [fst snd]. split; [reflexivity|].
    split; [|exact H1].
    unfold get_expense_by_id. now rewrite Hsel.
Qed.

Lemma update_upload_failure_witness :
  well_formed Sample.required_only
  /\ os_path_exists Scenario.full "uploads/receipt-1.png" = true
  /\ fst (update_expense_endpoint Sample.upload_dir Sample.splitext_ext "e1"
            (Decoded Sample.required_only) Sample.db Scenario.full
            (Some Sample.new_receipt) "u-1" Sample.later)
     = (HTTPException 500 (expense_unexpected_error_update "e1"), Sample.db)
  /\ os_path_exists
       (snd (update_expense_endpoint Sample.upload_dir Sample.splitext_ext
               "e1" (Decoded Sample.required_only) Sample.db Scenario.full
               (Some Sample.new_receipt) "u-1" Sample.later))
       "uploads/receipt-1.png" = false.
Proof.
  assert (Hwf : well_formed Sample.required_only).
  { apply validate_sound with
      (ExpenseCreate.make "cat-1" "Updated Business Lunch"
         (Date.make 2024 9 20) 75%Q false None None).
    reflexivity. }
  assert (Hok : ~ attachment_removal_fails Sample.upload_dir Scenario.full
                    Sample.with_receipt).
  { intros (image & _ & _ & _ & H). discriminate. }
  pose proof (update_upload_failure Sample.upload_dir Sample.splitext_ext
                "e1" Sample.required_only Sample.db Scenario.full
                (Some Sample.new_receipt) "u-1" Sample.later
                Sample.with_receipt "scan.jpg" Hwf eq_refl eq_refl)
    as (_ & H).
  destruct (H Hok eq_refl) as (H1 & _ & H2).
  split; [exact Hwf|]. split; [reflexivity|]. split; [exact H1|].
  apply H2. reflexivity.
Defined.

(** ** Rows that can be read back *)

Lemma from_orm_inr (e body : ExpenseModel.t) :
  ExpenseSchema.from_orm e = inr body -> body = e /\ readable e.
Proof.
  unfold readable, ExpenseSchema.from_orm.
  destruct (ExpenseCreate.validate _); [discriminate|].
  intros [= <-]. auto.
Qed.

Lemma from_orm_inl (e : ExpenseModel.t) (errs : list ErrorDetails) :
  ExpenseSchema.from_orm e = inl errs -> ~ readable e.
Proof. unfold readable. congruence. Qed.

Lemma update_validate_create (p : Payload.t) (u : ExpenseUpdate.t) :
  ExpenseUpdate.validate p = inr u ->
  exists obj, ExpenseCreate.validate p = inr obj
              /\ u = ExpenseUpdate.of_validated obj.
Proof.
  unfold ExpenseUpdate.validate.
  destruct (ExpenseCreate.validate p) as [errs|obj]; [discriminate|].
  intros [= <-]. eauto.
Qed.

(** The row an accepted update stores passes the schema when the row it
    replaces did. *)
Lemma accepted_update_readable {upload_dir : string}
    {splitext_ext : string -> string} {db db' : AsyncSession.t}
    {fs fs' : FileSystem.t} {expense_id : UUID} {p : Payload.t}
    {u : ExpenseUpdate.t} {invoice_image : option UploadFile.t}
    {uuid4 : UUID} {now : Datetime.t} {stored updated : ExpenseModel.t} :
  ExpenseUpdate.validate p = inr u ->
  select_by_id db expense_id = Some stored ->
  update_expense upload_dir splitext_ext db fs expense_id u
    invoice_image uuid4 now = (inr updated, db', fs') ->
  readable stored -> readable updated.
Proof.
  intros Hv Hsel Hr Hstored.
  destruct (accepted_update_row Hv Hsel Hr)
    as (_ & (Ha & Hs) & _ & _ & _ & _ & _ & Hds & Hem).
  destruct (update_validate_create p u Hv) as (obj & Hobj & _).
  apply validate_sound in Hobj.
  destruct Hobj as (_ & _ & _ & _ & _ & Wd & We).
  apply readable_spec in Hstored. destruct Hstored as (_ & _ & Sd & Se).
  apply readable_spec. split; [exact Hs|]. split; [exact Ha|]. split.
  - intros s. rewrite Hds.
    destruct (Payload.description p) as [| |x]; [apply Sd|apply Sd|].
    intros [= <-]. now apply Wd.
  - intros s. rewrite Hem.
    destruct (Payload.employee p) as [| |x]; [apply Se|apply Se|].
    intros [= <-]. now apply We.
Qed.

(** X11.  Every row can be read back: an invariant of the three writing
    endpoints.  If every stored expense passes the response schema, then
    so does every expense stored after [create_expense_endpoint],
    [update_expense_endpoint] or [delete_expense_endpoint], whatever the
    request and whatever the answer. *)
Theorem readable_rows_invariant (upload_dir : string)
    (splitext_ext : string -> string) (db : AsyncSession.t)
    (fs : FileSystem.t) :
  Forall readable (AsyncSession.expenses db) ->
  (forall expense current_user invoice_image uuid4 new_id now,
     Forall readable
       (AsyncSession.expenses
          (snd (fst (create_expense_endpoint upload_dir splitext_ext expense
                       current_user db fs invoice_image uuid4 new_id now)))))
  /\ (forall expense_id expense_update invoice_image uuid4 now,
        Forall readable
          (AsyncSession.expenses
             (snd (fst (update_expense_endpoint upload_dir splitext_ext
                          expense_id expense_update db fs invoice_image
                          uuid4 now)))))
  /\ (forall expense_id,
        Forall readable
          (AsyncSession.expenses
             (snd (fst (delete_expense_endpoint upload_dir expense_id
                          db fs))))).
Proof.
  intros Hall. split; [|split].
  - intros expense current_user invoice_image uuid4 new_id now.
    destruct expense as [|p]; [exact Hall|].
    destruct (ExpenseCreate.validate p) as [errs|obj] eqn:E.
    + unfold create_expense_endpoint. rewrite E. exact Hall.
    + rewrite (create_endpoint_eq _ _ _ _ _ _ _ _ _ _ _ E).
      assert (Hadd : forall image,
                Forall readable
                  (AsyncSession.expenses
                     (commit_add db
                        (new_row new_id current_user obj image now)))).
      { intros image. unfold commit_add. cbn [AsyncSession.expenses].
        apply Forall_app. split; [exact Hall|].
        constructor; [|constructor].
        now apply created_row_readable with p. }
      destruct (uploaded_filename invoice_image) as [f|]; [|apply Hadd].
      destruct (write_file fs _); [apply Hadd|exact Hall].
  - intros expense_id expense_update invoice_image uuid4 now.
    destruct (update_endpoint_db upload_dir splitext_ext expense_id
                expense_update db fs invoice_image uuid4 now)
      as [->|(p & u & stored & updated & _ & Hv & Hsel & Hr & ->)];
      [exact Hall|].
    apply commit_update_Forall; [exact Hall|].
    apply (accepted_update_readable Hv Hsel Hr).
    destruct (select_by_id_Some db expense_id stored Hsel) as (Hin & _).
    rewrite Forall_forall in Hall. now apply Hall.
  - intros expense_id. unfold delete_expense_endpoint.
    destruct (delete_expense_cases upload_dir db fs expense_id)
      as [(_ & E)|[(x & _ & _ & E)|(x & fs1 & _ & _ & E)]];
      rewrite E; cbn [fst snd]; [exact Hall|exact Hall|].
    rewrite Forall_forall in *. intros e He.
    apply commit_delete_In in He. now apply Hall.
Qed.

Lemma sample_db_readable : Forall readable (AsyncSession.expenses Sample.db).
Proof. repeat constructor. Defined.

Lemma readable_rows_invariant_witness :
  Forall readable (AsyncSession.expenses Sample.db)
  /\ Forall readable
       (AsyncSession.expenses
          (snd (fst (update_expense_endpoint Sample.upload_dir
                       Sample.splitext_ext "e1" (Decoded Sample.required_only)
                       Sample.db Sample.fs None "u-1" Sample.later)))).
Proof.
  split; [exact sample_db_readable|].
  pose proof (readable_rows_invariant Sample.upload_dir Sample.splitext_ext
                Sample.db Sample.fs sample_db_readable) as (_ & H & _).
  apply H.
Defined.

Lemma get_all_expenses_readable (db : AsyncSession.t) :
  Forall readable (AsyncSession.expenses db) ->
  get_all_expenses db = inr (AsyncSession.expenses db).
Proof.
  unfold get_all_expenses.
  induction 1 as [|e l He _ IH]; cbn; [reflexivity|].
  now rewrite He, IH.
Qed.

Lemma get_all_expenses_unreadable (db : AsyncSession.t) :
  ~ Forall readable (AsyncSession.expenses db) ->
  get_all_expenses db = inl (RuntimeError "Error retrieving all expenses").
Proof.
  unfold get_all_expenses.
  induction (AsyncSession.expenses db) as [|e l IH]; intros H; cbn.
  - exfalso. apply H. constructor.
  - destruct (ExpenseSchema.from_orm e) as [errs|body] eqn:E; [reflexivity|].
    apply from_orm_inr in E. destruct E as (_ & He).
    rewrite IH; [reflexivity|]. intros Hl. apply H. now constructor.
Qed.

(** X12.  The export of all expenses.  When every stored expense passes the
    response schema, [fetch_all_expenses] answers 404 on an empty table and
    otherwise 200 with all the rows in table order.  When some stored
    expense does not pass it, the answer is 500, whatever the other rows
    are: one such row makes the whole export fail. *)
Theorem fetch_all_expenses_statuses (db : AsyncSession.t) :
  (Forall readable (AsyncSession.expenses db) ->
   fetch_all_expenses db
   = match AsyncSession.expenses db with
     | [] => HTTPException 404 expenses_not_found
     | rows => Response 200 rows
     end)
  /\ (~ Forall readable (AsyncSession.expenses db) ->
      fetch_all_expenses db = HTTPException 500 expense_unexpected_error_list)
  /\ (status_code_of (fetch_all_expenses db) = 404
      <-> AsyncSession.expenses db = []).
Proof.
  unfold fetch_all_expenses. split; [|split].
  - intros H. rewrite (get_all_expenses_readable db H).
    now destruct (AsyncSession.expenses db).
  - intros H. now rewrite (get_all_expenses_unreadable db H).
  - destruct (get_all_expenses db) as [err|rows] eqn:E.
    + split; [discriminate|]. intros Hnil.
      unfold get_all_expenses in E. rewrite Hnil in E. discriminate.
    + assert (Hrows : rows = AsyncSession.expenses db).
      { unfold get_all_expenses in E. revert rows E.
        induction (AsyncSession.expenses db) as [|e l IH]; cbn.
        - now intros rows [= <-].
        - destruct (ExpenseSchema.from_orm e) as [errs|body] eqn:Eb;
            [discriminate|].
          destruct (fold_right _ _ l) as [err|rest]; [discriminate|].
          intros rows [= <-]. apply from_orm_inr in Eb.
          destruct Eb as (-> & _). f_equal. now apply IH. }
      rewrite <- Hrows. destruct rows; cbn; split; congruence.
Qed.

Lemma fetch_all_expenses_statuses_witness :
  (Forall readable (AsyncSession.expenses Sample.db)
   /\ fetch_all_expenses Sample.db
      = Response 200 [Sample.with_receipt; Sample.without_receipt])
  /\ (~ Forall readable (AsyncSession.expenses Legacy.db)
      /\ fetch_all_expenses Legacy.db
         = HTTPException 500 expense_unexpected_error_list).
Proof.
  assert (Hbad : ~ Forall readable (AsyncSession.expenses Legacy.db)).
  { intros H. inversion H as [|? ? _ H1]; subst.
    inversion H1 as [|? ? H2 _]; subst. discriminate. }
  split; split.
  - exact sample_db_readable.
  - exact (proj1 (fetch_all_expenses_statuses Sample.db) sample_db_readable).
  - exact Hbad.
  - exact (proj1 (proj2 (fetch_all_expenses_statuses Legacy.db)) Hbad).
Defined.

(** X13.  Reading one expense.  [get_expense_endpoint] answers 200 or 404
    and nothing else.  It answers 200, with the stored row as body, exactly
    when a row has the key and that row passes the response schema.  A key
    that is not stored gives 404; so does, with the same detail, a stored
    row that does not pass the schema. *)
Theorem get_expense_endpoint_statuses (expense_id : UUID)
    (db : AsyncSession.t) :
  let r := get_expense_endpoint expense_id db in
  (status_code_of r = 200 \/ status_code_of r = 404)
  /\ (forall body,
        r = Response 200 body
        <-> select_by_id db expense_id = Some body /\ readable body)
  /\ (~ has_id db expense_id ->
      r = HTTPException 404 (expense_not_found expense_id))
  /\ (forall stored,
        select_by_id db expense_id = Some stored -> ~ readable stored ->
        r = HTTPException 404 (expense_not_found expense_id)).
Proof.
  cbv zeta. unfold get_expense_endpoint, get_expense_by_id.
  destruct (select_by_id db expense_id) as [stored|] eqn:Hsel.
  - destruct (ExpenseSchema.from_orm stored) as [errs|body] eqn:E.
    + apply from_orm_inl in E. cbn.
      split; [auto|]. split; [|split; [reflexivity|reflexivity]].
      intros body. split; [discriminate|].
      intros ([= <-] & H). contradiction.
    + apply from_orm_inr in E. destruct E as (-> & Hread). cbn.
      split; [auto|]. split; [|split].
      * intros body. split; [now intros [= <-]|].
        now intros ([= <-] & _).
      * intros Hno. apply select_by_id_None in Hno. congruence.
      * intros s [= <-] Hs. contradiction.
  - cbn. split; [auto|]. split; [|split; [reflexivity|discriminate]].
    intros body. split; [discriminate|intros (H & _); discriminate].
Qed.

Lemma get_expense_endpoint_statuses_witness :
  get_expense_endpoint "e1" Legacy.db = Response 200 Sample.with_receipt
  /\ (select_by_id Legacy.db "e0" = Some Legacy.imported
      /\ ~ readable Legacy.imported
      /\ get_expense_endpoint "e0" Legacy.db
         = HTTPException 404 (expense_not_found "e0")).
Proof.
  pose proof (get_expense_endpoint_statuses "e1" Legacy.db) as (_ & H1 & _).
  pose proof (get_expense_endpoint_statuses "e0" Legacy.db)
    as (_ & _ & _ & H0).
  assert (Hbad : ~ readable Legacy.imported) by discriminate.
  split; [apply H1; split; reflexivity|].
  split; [reflexivity|]. split; [exact Hbad|].
  apply (H0 Legacy.imported eq_refl Hbad).
Defined.

Lemma select_by_id_commit_update (db : AsyncSession.t)
    (updated : ExpenseModel.t) (expense_id : UUID) :
  select_by_id (commit_update db updated) expense_id
  = match select_by_id db expense_id with
    | Some e =>
        Some (if String.eqb (ExpenseModel.expenses_id e)
                            (ExpenseModel.expenses_id updated)
              then updated else e)
    | None => None
    end.
Proof.
  unfold select_by_id, commit_update. cbn [AsyncSession.expenses].
  induction (AsyncSession.expenses db) as [|r l IH]; cbn; [reflexivity|].
  destruct (String.eqb_spec (ExpenseModel.expenses_id r)
                            (ExpenseModel.expenses_id updated)) as [E|E].
  - destruct (String.eqb (ExpenseModel.expenses_id r) expense_id) eqn:Er.
    + rewrite <- E at 1. rewrite Er. apply String.eqb_eq in E.
      now rewrite E.
    + rewrite <- E at 1. rewrite Er. exact IH.
  - destruct (String.eqb (ExpenseModel.expenses_id r) expense_id) eqn:Er;
      [|exact IH].
    apply String.eqb_neq in E. now rewrite E.
Qed.

(** X14.  Update, then read.  After [update_expense_endpoint] has answered
    200, reading the key returns the body of that answer, through the
    repository and through [get_expense_endpoint]; reading any other key
    gives what it gave before the update. *)
Theorem update_then_read (upload_dir : string)
    (splitext_ext : string -> string) (expense_id : UUID)
    (expense_update : form) (db db' : AsyncSession.t) (fs fs' : FileSystem.t)
    (invoice_image : option UploadFile.t) (uuid4 : UUID) (now : Datetime.t)
    (body : ExpenseModel.t) :
  update_expense_endpoint upload_dir splitext_ext expense_id expense_update
    db fs invoice_image uuid4 now = (Response 200 body, db', fs') ->
  get_expense_by_id db' expense_id = inr body
  /\ get_expense_endpoint expense_id db' = Response 200 body
  /\ ExpenseModel.updated_at body = now
  /\ (forall other, other <> expense_id ->
        get_expense_by_id db' other = get_expense_by_id db other
        /\ get_expense_endpoint other db' = get_expense_endpoint other db).
Proof.
  unfold update_expense_endpoint.
  destruct expense_update as [|p]; [discriminate|].
  destruct (ExpenseUpdate.validate p) as [errs|u] eqn:Hv; [discriminate|].
  destruct (update_expense _ _ _ _ _ _ _ _ _) as [[[err|updated] db1] fs1]
    eqn:Hr; [destruct err; discriminate|].
  destruct (ExpenseSchema.from_orm updated) as [errs|b] eqn:Eb;
    [discriminate|].
  intros [= -> -> ->].
  destruct (update_expense_returns Hr) as (stored & Hsel).
  pose proof (update_expense_success _ _ _ _ _ _ _ _ _ _ _ _ _ Hsel Hr)
    as (-> & Hid & _ & _ & _ & _ & _ & _ & _ & _ & _ & Hnow).
  pose proof (from_orm_inr _ _ Eb) as (-> & _).
  destruct (select_by_id_Some db expense_id stored Hsel) as (_ & Hsid).
  assert (Hget : get_expense_by_id (commit_update db updated) expense_id
                 = inr updated).
  { unfold get_expense_by_id. rewrite select_by_id_commit_update, Hsel.
    rewrite Hsid, Hid, String.eqb_refl. reflexivity. }
  split; [exact Hget|]. split; [|split; [exact Hnow|]].
  - unfold get_expense_endpoint. now rewrite Hget, Eb.
  - intros other Hne.
    assert (Hsame : get_expense_by_id (commit_update db updated) other
                    = get_expense_by_id db other).
    { unfold get_expense_by_id. rewrite select_by_id_commit_update.
      destruct (select_by_id db other) as [e|] eqn:He; [|reflexivity].
      apply select_by_id_Some in He. destruct He as (_ & He).
      rewrite He, Hid. apply String.eqb_neq in Hne. now rewrite Hne. }
    split; [exact Hsame|]. unfold get_expense_endpoint. now rewrite Hsame.
Qed.

Lemma update_then_read_witness :
  exists body db' fs',
    update_expense_endpoint Sample.upload_dir Sample.splitext_ext "e1"
      (Decoded Sample.required_only) Sample.db Sample.fs None "u-1"
      Sample.later
    = (Response 200 body, db', fs')
    /\ get_expense_endpoint "e1" db' = Response 200 body
    /\ get_expense_endpoint "e2" db' = get_expense_endpoint "e2" Sample.db.
Proof.
  eexists _, _, _. split; [reflexivity|].
  pose proof (update_then_read Sample.upload_dir Sample.splitext_ext "e1"
                (Decoded Sample.required_only) Sample.db _ Sample.fs _
                None "u-1" Sample.later _ eq_refl) as (_ & H1 & _ & H2).
  split; [exact H1|]. apply (H2 "e2"%string). discriminate.
Defined.

(** ** The list of expenses: order and search *)

Lemma Date_ltb_spec (a b : Date.t) :
  Date.ltb a b = true
  <-> Date.year a < Date.year b
      \/ (Date.year a = Date.year b
          /\ (Date.month a < Date.month b
              \/ (Date.month a = Date.month b /\ Date.day a < Date.day b))).
Proof.
  unfold Date.ltb.
  rewrite !orb_true_iff, !andb_true_iff, !orb_true_iff, !andb_true_iff,
    !Z.ltb_lt, !Z.eqb_eq.
  reflexivity.
Qed.

Lemma Date_ltb_false (a b : Date.t) :
  Date.ltb a b = false
  <-> ~ (Date.year a < Date.year b
         \/ (Date.year a = Date.year b
             /\ (Date.month a < Date.month b
                 \/ (Date.month a = Date.month b
                     /\ Date.day a < Date.day b)))).
Proof.
  rewrite <- Date_ltb_spec. symmetry. apply not_true_iff_false.
Qed.

Lemma Date_ltb_asym (a b : Date.t) :
  Date.ltb a b = true -> Date.ltb b a = false.
Proof. rewrite Date_ltb_spec, Date_ltb_false. lia. Qed.

Lemma Date_ltb_negtrans (a b c : Date.t) :
  Date.ltb a b = false -> Date.ltb b c = false -> Date.ltb a c = false.
Proof. rewrite !Date_ltb_false. lia. Qed.

Lemma order_by_date_Sorted {A : Type} (key : A -> Date.t) (l : list A) :
  StronglySorted (fun a b => date_le (key a) (key b)) (order_by_date key l).
Proof.
  unfold order_by_date, date_le.
  apply (stable_sort_Sorted (fun x y => Date.ltb (key y) (key x))).
  - intros x y. apply Date_ltb_asym.
  - intros x y z H1 H2. now apply Date_ltb_negtrans with (key y).
Qed.

Lemma order_by_date_desc_Sorted {A : Type} (key : A -> Date.t) (l : list A) :
  StronglySorted (fun a b => date_le (key b) (key a))
                 (order_by_date_desc key l).
Proof.
  unfold order_by_date_desc, date_le.
  apply (stable_sort_Sorted (fun x y => Date.ltb (key x) (key y))).
  - intros x y. apply Date_ltb_asym.
  - intros x y z H1 H2. now apply Date_ltb_negtrans with (key y).
Qed.

(** The rows [select_expenses] keeps, before it orders them. *)
Lemma select_expenses_Permutation (db : AsyncSession.t)
    (search : option string) (sort_order : string) :
  Permutation
    (select_expenses db search sort_order)
    (match search with
     | Some s =>
         if truthy search then
           filter (fun e =>
               is_true
                 (sql_or
                    (ilike (sql_lower (Some (ExpenseModel.subject e)))
                           ("%" ++ lower s ++ "%"))
                    (ilike (sql_lower (ExpenseModel.employee e))
                           ("%" ++ lower s ++ "%"))))
             (AsyncSession.expenses db)
         else AsyncSession.expenses db
     | None => AsyncSession.expenses db
     end).
Proof.
  unfold select_expenses.
  destruct (String.eqb sort_order "asc");
    (eapply perm_trans; [apply stable_sort_Permutation|]);
    destruct search as [s|]; cbn [truthy];
    try destruct s; apply Permutation_refl.
Qed.

(** X15.  The order of the list.  [select_expenses] returns its rows by
    expense date: ascending when [sort_order] is "asc", and descending for
    every other value, "desc" included.  Without a search text ([None] or
    the empty string) the rows are all the stored expenses, each as often
    as it is stored. *)
Theorem select_expenses_order (db : AsyncSession.t) (search : option string)
    (sort_order : string) :
  let rows := select_expenses db search sort_order in
  (sort_order = "asc"%string ->
   StronglySorted
     (fun a b => date_le (ExpenseModel.expense_date a)
                         (ExpenseModel.expense_date b)) rows)
  /\ (sort_order <> "asc"%string ->
      StronglySorted
        (fun a b => date_le (ExpenseModel.expense_date b)
                            (ExpenseModel.expense_date a)) rows)
  /\ (truthy search = false ->
      Permutation rows (AsyncSession.expenses db))
  /\ (forall e, In e rows -> In e (AsyncSession.expenses db)).
Proof.
  cbv zeta. split; [|split; [|split]].
  - intros ->. unfold select_expenses. cbn [String.eqb Ascii.eqb Bool.eqb].
    apply order_by_date_Sorted.
  - intros Hne. unfold select_expenses. apply String.eqb_neq in Hne.
    rewrite Hne. apply order_by_date_desc_Sorted.
  - intros Hs.
    eapply perm_trans; [apply select_expenses_Permutation|].
    rewrite Hs. destruct search; apply Permutation_refl.
  - intros e He.
    apply (Permutation_in _ (select_expenses_Permutation db search sort_order))
      in He.
    destruct search as [s|]; [|exact He].
    destruct (truthy (Some s)); [|exact He].
    apply filter_In in He. tauto.
Qed.

Lemma lower_app (a b : string) :
  lower (a ++ b) = (lower a ++ lower b)%string.
Proof. induction a as [|c a IH]; cbn; [reflexivity|now rewrite IH]. Qed.

Lemma lower_char_idem (c : ascii) : lower_char (lower_char c) = lower_char c.
Proof. destruct c as [[] [] [] [] [] [] [] []]; reflexivity. Qed.

Lemma lower_idem (s : string) : lower (lower s) = lower s.
Proof.
  induction s as [|c s IH]; cbn; [reflexivity|].
  now rewrite lower_char_idem, IH.
Qed.

Lemma plain_char_lower (c : ascii) : plain_char (lower_char c) = plain_char c.
Proof. destruct c as [[] [] [] [] [] [] [] []]; reflexivity. Qed.

Lemma plain_lower (s : string) : plain (lower s) = plain s.
Proof.
  induction s as [|c s IH]; cbn; [reflexivity|].
  now rewrite plain_char_lower, IH.
Qed.

Lemma like_percent (p t : string) :
  like (String "%" p) t
  = like p t
    || match t with
       | EmptyString => false
       | String _ t' => like (String "%" p) t'
       end.
Proof. destruct t; reflexivity. Qed.

(** A leading [%] lets the rest of the pattern match any suffix. *)
Lemma like_percent_spec (p t : string) :
  like (String "%" p) t = true
  <-> exists a b, t = (a ++ b)%string /\ like p b = true.
Proof.
  induction t as [|d t IH]; rewrite like_percent, orb_true_iff.
  - split.
    + intros [H|H]; [|discriminate]. now exists EmptyString, EmptyString.
    + intros (a & b & Hab & H). left.
      destruct a; [|discriminate]. cbn in Hab. now subst b.
  - rewrite IH. split.
    + intros [H|(a & b & -> & H)].
      * now exists EmptyString, (String d t).
      * now exists (String d a), b.
    + intros (a & b & Hab & H). destruct a as [|c a]; cbn in Hab.
      * left. now subst b.
      * right. injection Hab as _ ->. now exists a, b.
Qed.

Lemma like_percent_only (t : string) : like "%" t = true.
Proof.
  apply like_percent_spec. exists t, EmptyString.
  split; [|reflexivity].
  induction t as [|c t IH]; cbn; [reflexivity|now rewrite <- IH].
Qed.

Lemma plain_char_spec (c : ascii) :
  plain_char c = true -> Ascii.eqb c "%" = false /\ Ascii.eqb c "_" = false.
Proof.
  unfold plain_char. rewrite !andb_true_iff, !negb_true_iff. tauto.
Qed.

(** A plain text followed by [%] matches the texts that start with it. *)
Lemma like_plain_prefix (s t : string) :
  plain s = true ->
  like (s ++ "%") t = true <-> exists b, t = (s ++ b)%string.
Proof.
  revert t. induction s as [|c s IH]; intros t Hs.
  - cbn [append]. split; [intros _; now exists t|intros _].
    apply like_percent_only.
  - cbn [plain] in Hs. apply andb_true_iff in Hs. destruct Hs as (Hc & Hs).
    apply plain_char_spec in Hc. destruct Hc as (Hc1 & Hc2).
    cbn [append like]. rewrite Hc1.
    destruct t as [|d t].
    + split; [discriminate|intros (b & H); discriminate].
    + rewrite Hc2. cbn [orb]. rewrite andb_true_iff, Ascii.eqb_eq, (IH t Hs).
      split.
      * intros (-> & b & ->). now exists b.
      * intros (b & [= -> ->]). eauto.
Qed.

Lemma like_contains (s t : string) :
  plain s = true ->
  like ("%" ++ s ++ "%") t = true <-> contains t s.
Proof.
  intros Hs. cbn [append]. rewrite like_percent_spec. unfold contains.
  split.
  - intros (a & b & -> & H). apply (like_plain_prefix s b Hs) in H.
    destruct H as (c & ->). now exists a, c.
  - intros (a & b & ->). exists a, (s ++ b)%string. split; [reflexivity|].
    apply (like_plain_prefix s _ Hs). now exists b.
Qed.

Lemma ilike_lower_contains (x s : string) :
  plain s = true ->
  ilike (sql_lower (Some x)) ("%" ++ lower s ++ "%") = Some true
  <-> contains (lower x) (lower s).
Proof.
  intros Hs. cbn [sql_lower ilike].
  rewrite lower_idem.
  assert (Hp : lower ("%" ++ lower s ++ "%") = ("%" ++ lower s ++ "%")%string).
  { rewrite !lower_app, lower_idem. reflexivity. }
  rewrite Hp.
  pose proof (like_contains (lower s) (lower x)) as H.
  rewrite plain_lower in H. specialize (H Hs).
  split.
  - intros [= E]. now apply H.
  - intros E. apply H in E. now rewrite E.
Qed.

Lemma is_true_sql_or (a b : option bool) :
  is_true (sql_or a b) = true <-> a = Some true \/ b = Some true.
Proof.
  destruct a as [[|]|], b as [[|]|]; cbn; intuition discriminate.
Qed.

(** X16.  What a search finds.  For a search text that is not empty and
    has no per cent sign, underscore or backslash, [select_expenses] keeps
    exactly the stored expenses whose subject, or whose employee name,
    contains the text, letter case apart.  An expense without employee
    name is kept exactly when its subject contains the text. *)
Theorem select_expenses_search (db : AsyncSession.t) (s : string)
    (sort_order : string) (e : ExpenseModel.t) :
  s <> EmptyString ->
  plain s = true ->
  In e (select_expenses db (Some s) sort_order)
  <-> In e (AsyncSession.expenses db)
      /\ (contains (lower (ExpenseModel.subject e)) (lower s)
          \/ exists employee,
               ExpenseModel.employee e = Some employee
               /\ contains (lower employee) (lower s)).
Proof.
  intros Hne Hs.
  rewrite (Permutation_In_iff _ _ e
             (select_expenses_Permutation db (Some s) sort_order)).
  assert (Ht : truthy (Some s) = true) by (destruct s; [contradiction|easy]).
  rewrite Ht, filter_In, is_true_sql_or.
  rewrite (ilike_lower_contains (ExpenseModel.subject e) s Hs).
  destruct (ExpenseModel.employee e) as [em|].
  - rewrite (ilike_lower_contains em s Hs). split.
    + intros (Hin & [H|H]); (split; [exact Hin|]); [now left|right; eauto].
    + intros (Hin & [H|(x & [= <-] & H)]); (split; [exact Hin|]); auto.
  - cbn [sql_lower ilike]. split.
    + intros (Hin & [H|H]); [|discriminate]. auto.
    + intros (Hin & [H|(x & Hx & _)]); [|discriminate]. auto.
Qed.

Lemma select_expenses_search_witness :
  In Sample.with_receipt (select_expenses Sample.db (Some "LUNCH"%string) "desc")
  /\ ~ In Sample.without_receipt
         (select_expenses Sample.db (Some "LUNCH"%string) "desc")
  /\ In Sample.without_receipt
        (select_expenses Sample.db (Some "jane"%string) "desc").
Proof.
  assert (H1 : "LUNCH"%string <> EmptyString) by discriminate.
  assert (H2 : "jane"%string <> EmptyString) by discriminate.
  split; [|split].
  - apply (select_expenses_search Sample.db "LUNCH" "desc" _ H1 eq_refl).
    split; [now left|]. left. now exists "business "%string, EmptyString.
  - intros H. vm_compute in H. destruct H as [H|[]]. discriminate.
  - apply (select_expenses_search Sample.db "jane" "desc" _ H2 eq_refl).
    split; [right; now left|]. right. exists "Jane Doe"%string.
    split; [reflexivity|]. now exists EmptyString, " doe"%string.
Defined.

(** ** The general summary: how the buckets compare *)

Lemma Qsum_nonneg (l : list Q) :
  (forall x, In x l -> (0 <= x)%Q) -> (0 <= Qsum l)%Q.
Proof.
  induction l as [|x l IH]; intros H; cbn; [apply Qle_refl|].
  assert (H1 : (0 <= x)%Q) by (apply H; now left).
  assert (H2 : (0 <= Qsum l)%Q) by (apply IH; intros y Hy; apply H; now right).
  lra.
Qed.

Lemma Qsum_filter_le {A : Type} (f : A -> Q) (p q : A -> bool) (l : list A) :
  (forall x, In x l -> (0 <= f x)%Q) ->
  (forall x, p x = true -> q x = true) ->
  (Qsum (map f (filter p l)) <= Qsum (map f (filter q l)))%Q.
Proof.
  intros Hpos Hpq. induction l as [|x l IH]; cbn; [apply Qle_refl|].
  assert (H1 : (0 <= f x)%Q) by (apply Hpos; now left).
  assert (H2 : (Qsum (map f (filter p l)) <= Qsum (map f (filter q l)))%Q)
    by (apply IH; intros y Hy; apply Hpos; now right).
  destruct (p x) eqn:Ep.
  - rewrite (Hpq x Ep). cbn. lra.
  - destruct (q x); cbn; lra.
Qed.

Lemma round_half_even_bounds (q : Q) :
  Qfloor q <= round_half_even q <= Qfloor q + 1.
Proof.
  unfold round_half_even.
  destruct (_ ?= _)%Q; [destruct (Z.even _)| |]; lia.
Qed.

Lemma round_half_even_mono (x y : Q) :
  (x <= y)%Q -> round_half_even x <= round_half_even y.
Proof.
  intros H. pose proof (Qfloor_resp_le x y H) as Hf.
  destruct (Z.eq_dec (Qfloor x) (Qfloor y)) as [E|E].
  - unfold round_half_even. rewrite E.
    destruct (Qcompare_spec (x - inject_Z (Qfloor y)) (1 # 2)) as [H1|H1|H1];
      destruct (Qcompare_spec (y - inject_Z (Qfloor y)) (1 # 2))
        as [H2|H2|H2];
      try destruct (Z.even (Qfloor y)); try lia; exfalso; lra.
  - pose proof (round_half_even_bounds x). pose proof (round_half_even_bounds y).
    lia.
Qed.

Lemma round2_mono (x y : Q) : (x <= y)%Q -> (round2 x <= round2 y)%Q.
Proof.
  intros H. unfold round2.
  assert (Hm : round_half_even (x * 100) <= round_half_even (y * 100))
    by (apply round_half_even_mono; lra).
  unfold Qdiv. apply Qmult_le_compat_r; [now rewrite <- Zle_Qle|].
  discriminate.
Qed.

Lemma round2_0 : (round2 0 == 0)%Q.
Proof. reflexivity. Qed.

Lemma round2_nonneg (x : Q) : (0 <= x)%Q -> (0 <= round2 x)%Q.
Proof. intros H. rewrite <- round2_0. now apply round2_mono. Qed.

(** A month lies in its quarter. *)
Lemma month_in_quarter (m : Z) :
  in_ m (quarter_months ((m - 1) / 3 + 1)) = true.
Proof.
  apply in_spec. unfold quarter_months.
  pose proof (Z.div_mod (m - 1) 3 ltac:(lia)) as H1.
  pose proof (Z.mod_pos_bound (m - 1) 3 ltac:(lia)) as H2.
  cbn [In]. lia.
Qed.

Lemma spending_nonneg (db : AsyncSession.t) (year : Z) (months : list Z) :
  (forall e, In e (AsyncSession.expenses db) ->
             (0 <= ExpenseModel.amount e)%Q) ->
  (0 <= spending db year months)%Q.
Proof.
  intros Hpos. unfold spending. apply Qsum_nonneg.
  intros x Hx. apply in_map_iff in Hx. destruct Hx as (e & <- & He).
  apply filter_In in He. now apply Hpos.
Qed.

(** X17.  The buckets of the general summary are consistent.  When no
    stored amount is negative (the schema only lets positive amounts in),
    every figure of [get_general_summary_data] is non-negative, the figure
    of this month is at most that of this quarter, and the figure of this
    quarter is at most the total of the year, rounding included. *)
Theorem general_summary_ordered (db : AsyncSession.t) (year : Z)
    (now : Datetime.t) :
  (forall e, In e (AsyncSession.expenses db) ->
             (0 <= ExpenseModel.amount e)%Q) ->
  let s := get_general_summary_data db year now in
  (0 <= GeneralSummary.this_month s)%Q
  /\ (GeneralSummary.this_month s <= GeneralSummary.this_quarter s)%Q
  /\ (GeneralSummary.this_quarter s <= GeneralSummary.total_spending s)%Q
  /\ (0 <= GeneralSummary.last_month s)%Q
  /\ (0 <= GeneralSummary.last_quarter s)%Q.
Proof.
  intros Hpos. cbv zeta.
  pose proof (general_summary_sums db year now) as H. cbv zeta in H.
  destruct H as (-> & -> & -> & -> & ->).
  split; [|split; [|split; [|split]]].
  - apply round2_nonneg, spending_nonneg, Hpos.
  - apply round2_mono. unfold spending. apply Qsum_filter_le; [exact Hpos|].
    intros e He. apply andb_true_iff in He. destruct He as (Hy & Hm).
    rewrite Hy. cbn [andb].
    unfold in_ in Hm. cbn [existsb] in Hm. rewrite orb_false_r in Hm.
    apply Z.eqb_eq in Hm. rewrite Hm. apply month_in_quarter.
  - apply round2_mono. unfold spending, spending_of_year.
    apply Qsum_filter_le; [exact Hpos|].
    intros e He. apply andb_true_iff in He. tauto.
  - destruct (Datetime.month now =? 1);
      apply round2_nonneg, spending_nonneg, Hpos.
  - destruct ((Datetime.month now - 1) / 3 + 1 =? 1);
      apply round2_nonneg, spending_nonneg, Hpos.
Qed.

Lemma general_summary_ordered_witness :
  let s := get_general_summary_data Fixture.mixed_db 2024
             (Datetime.make 2024 3 20 10 0 0 0) in
  (GeneralSummary.this_month s <= GeneralSummary.this_quarter s)%Q
  /\ (GeneralSummary.this_quarter s <= GeneralSummary.total_spending s)%Q.
Proof.
  assert (Hpos : forall e, In e (AsyncSession.expenses Fixture.mixed_db) ->
                           (0 <= ExpenseModel.amount e)%Q).
  { intros e He. cbn in He.
    destruct He as [<-|[<-|[<-|[<-|[<-|[]]]]]]; discriminate. }
  pose proof (general_summary_ordered Fixture.mixed_db 2024
                (Datetime.make 2024 3 20 10 0 0 0) Hpos) as (_ & H1 & H2 & _).
  split; [exact H1|exact H2].
Defined.

(** ** The category rollup adds up *)

Lemma Qsum_indicator_string (x : string) (a : Q) (ks : list string) :
  NoDup ks -> In x ks ->
  (Qsum (map (fun k => if String.eqb x k then a else 0) ks) == a)%Q.
Proof.
  induction 1 as [|k ks Hnot Hnd IH]; intros Hin; [destruct Hin|].
  cbn. destruct (String.eqb_spec x k) as [->|Hne].
  - rewrite (Qsum_map_ext _ (fun _ => 0%Q)).
    + rewrite Qsum_map_zero. ring.
    + intros y Hy. destruct (String.eqb_spec k y) as [->|_];
        [contradiction|reflexivity].
  - destruct Hin as [->|Hin]; [contradiction|]. rewrite (IH Hin). ring.
Qed.

(** Summing group by group is summing all the rows. *)
Lemma Qsum_group_by {A : Type} (key : A -> string) (val : A -> Q)
    (ks : list string) (l : list A) :
  NoDup ks ->
  (forall x, In x l -> In (key x) ks) ->
  (Qsum (map (fun k =>
           Qsum (map val (filter (fun x => String.eqb (key x) k) l))) ks)
   == Qsum (map val l))%Q.
Proof.
  intros Hnd. induction l as [|x l IH]; intros Hcover.
  - cbn. apply Qsum_map_zero.
  - rewrite (Qsum_map_ext _
               (fun k => (if String.eqb (key x) k then val x else 0)
                         + Qsum (map val
                                   (filter (fun y => String.eqb (key y) k) l)))%Q).
    + rewrite Qsum_map_plus, IH by (intros y Hy; apply Hcover; now right).
      rewrite (Qsum_indicator_string _ _ _ Hnd) by (apply Hcover; now left).
      reflexivity.
    + intros k _. cbn [filter].
      destruct (String.eqb (key x) k); cbn; [reflexivity|].
      now rewrite Qplus_0_l.
Qed.

(** With its category in the table once, an expense joins one row. *)
Lemma join_category_one (db : AsyncSession.t) (e : ExpenseModel.t) :
  category_primary_key db ->
  category_exists db (ExpenseModel.category_id e) ->
  exists c, In c (AsyncSession.category db)
            /\ Category.category_id c = ExpenseModel.category_id e
            /\ join_category db e = [(Category.name c, ExpenseModel.amount e)].
Proof.
  intros Hpk Hex. apply in_map_iff in Hex. destruct Hex as (c & Hc & Hin).
  exists c. split; [exact Hin|]. split; [exact Hc|].
  unfold join_category.
  rewrite (filter_ext _ (fun x => String.eqb (Category.category_id x)
                                             (Category.category_id c))).
  - now rewrite (filter_unique_key Category.category_id _ c Hpk Hin).
  - intros x. rewrite Hc. apply String.eqb_sym.
Qed.

Lemma joined_rows_total (db : AsyncSession.t) (l : list ExpenseModel.t) :
  category_primary_key db ->
  (forall e, In e l -> category_exists db (ExpenseModel.category_id e)) ->
  (Qsum (map snd (flat_map (join_category db) l))
   == Qsum (map ExpenseModel.amount l))%Q.
Proof.
  intros Hpk. induction l as [|e l IH]; intros Hfk; cbn; [reflexivity|].
  destruct (join_category_one db e Hpk (Hfk e (or_introl eq_refl)))
    as (c & _ & _ & ->).
  cbn. rewrite IH; [reflexivity|]. intros x Hx. apply Hfk. now right.
Qed.

(** X18.  The category rollup adds up to the year.  When every category
    is stored once under its id and every expense refers to a stored
    category (the primary and the foreign key of the schema), the amounts
    of [get_expenses_by_category] add up to the sum of all the expenses of
    the year: no expense is lost or counted twice by the grouping. *)
Theorem by_category_total (db : AsyncSession.t) (year : Z) :
  category_primary_key db ->
  category_foreign_key db ->
  (Qsum (map CategoryTotal.amount (get_expenses_by_category db year))
   == spending_of_year db year)%Q.
Proof.
  intros Hpk Hfk. unfold get_expenses_by_category, sort_reverse_Q.
  rewrite (Qsum_Permutation _ _
             (Permutation_map CategoryTotal.amount
                (stable_sort_Permutation _ _))).
  rewrite map_map. cbn [CategoryTotal.amount].
  unfold select_category_totals. rewrite map_map. cbn [snd].
  unfold group_total.
  rewrite (Qsum_group_by fst snd
             (distinct String.eqb (map fst (joined_rows db year)))
             (joined_rows db year)).
  - unfold joined_rows, spending_of_year. apply joined_rows_total; [exact Hpk|].
    intros e He. apply filter_In in He. now apply Hfk.
  - apply distinct_NoDup. apply String.eqb_eq.
  - intros x Hx. apply (distinct_In String.eqb String.eqb_eq).
    now apply in_map.
Qed.

Lemma by_category_total_witness :
  (Qsum (map CategoryTotal.amount
           (get_expenses_by_category Fixture.mixed_db 2024))
   == spending_of_year Fixture.mixed_db 2024)%Q.
Proof.
  apply by_category_total.
  - repeat constructor; cbn; intuition discriminate.
  - intros e He. cbn in He.
    destruct He as [<-|[<-|[<-|[<-|[<-|[]]]]]]; cbn; auto.
Defined.

(** ** The most recent expenses *)

Lemma insert_sorted_map {A B : Type} (f : A -> B) (after : B -> B -> bool)
    (x : A) (l : list A) :
  map f (insert_sorted (fun a b => after (f a) (f b)) x l)
  = insert_sorted after (f x) (map f l).
Proof.
  induction l as [|y l IH]; cbn; [reflexivity|].
  destruct (after (f x) (f y)); cbn; [now rewrite IH|reflexivity].
Qed.

Lemma stable_sort_map {A B : Type} (f : A -> B) (after : B -> B -> bool)
    (l : list A) :
  map f (stable_sort (fun a b => after (f a) (f b)) l)
  = stable_sort after (map f l).
Proof.
  unfold stable_sort. induction l as [|x l IH]; cbn; [reflexivity|].
  now rewrite insert_sorted_map, IH.
Qed.

Lemma find_filter {A : Type} (f : A -> bool) (l : list A) :
  find f l = match filter f l with [] => None | x :: _ => Some x end.
Proof.
  induction l as [|x l IH]; cbn; [reflexivity|].
  now destruct (f x).
Qed.

Lemma In_firstn_In {A : Type} (n : nat) (l : list A) (x : A) :
  In x (firstn n l) -> In x l.
Proof.
  revert l. induction n as [|n IH]; intros [|y l]; cbn; try tauto.
  intros [H|H]; [now left|right; now apply IH].
Qed.

Lemma StronglySorted_firstn_prefix {A : Type} (R : A -> A -> Prop) (n : nat)
    (l : list A) :
  StronglySorted R l -> StronglySorted R (firstn n l).
Proof.
  intros H. revert n. induction H as [|x l Hs IH Hx]; intros [|n]; cbn;
    try constructor.
  - apply IH.
  - rewrite Forall_forall in *. intros y Hy. apply Hx.
    now apply In_firstn_In with n.
Qed.

(** The rows one expense contributes to the join of [select_recent]. *)
Lemma recent_join_one (db : AsyncSession.t) (users : list UserModel.t)
    (e : ExpenseModel.t) :
  referential_integrity db users ->
  In e (AsyncSession.expenses db) ->
  exists u c,
    user_of users e = Some u /\ category_of db e = Some c
    /\ flat_map (fun u =>
          map (fun c => (e, u, c))
              (filter (fun c => String.eqb (ExpenseModel.category_id e)
                                           (Category.category_id c))
                      (AsyncSession.category db)))
         (filter (fun u => String.eqb (ExpenseModel.user_id e)
                                      (UserModel.user_id u))
                 users)
       = [(e, u, c)].
Proof.
  intros (Hu & Hc & Hfk & Hfu) He.
  specialize (Hfk e He). specialize (Hfu e He).
  apply in_map_iff in Hfk. destruct Hfk as (c & Ec & Hcin).
  apply in_map_iff in Hfu. destruct Hfu as (u & Eu & Huin).
  assert (Fc : filter (fun c => String.eqb (ExpenseModel.category_id e)
                                           (Category.category_id c))
                      (AsyncSession.category db) = [c]).
  { rewrite (filter_ext _ (fun x => String.eqb (Category.category_id x)
                                               (Category.category_id c))).
    - apply (filter_unique_key Category.category_id _ c Hc Hcin).
    - intros x. rewrite Ec. apply String.eqb_sym. }
  assert (Fu : filter (fun u => String.eqb (ExpenseModel.user_id e)
                                           (UserModel.user_id u))
                      users = [u]).
  { rewrite (filter_ext _ (fun x => String.eqb (UserModel.user_id x)
                                               (UserModel.user_id u))).
    - apply (filter_unique_key UserModel.user_id _ u Hu Huin).
    - intros x. rewrite Eu. apply String.eqb_sym. }
  exists u, c. unfold user_of, category_of.
  rewrite !find_filter, Fc, Fu. auto.
Qed.

Lemma recent_joined (db : AsyncSession.t) (users : list UserModel.t)
    (l : list ExpenseModel.t) :
  referential_integrity db users ->
  (forall e, In e l -> In e (AsyncSession.expenses db)) ->
  let joined :=
    flat_map (fun e =>
        flat_map (fun u =>
            map (fun c => (e, u, c))
                (filter (fun c => String.eqb (ExpenseModel.category_id e)
                                             (Category.category_id c))
                        (AsyncSession.category db)))
          (filter (fun u => String.eqb (ExpenseModel.user_id e)
                                       (UserModel.user_id u))
                  users)) l in
  map (fun r => fst (fst r)) joined = l
  /\ forall r, In r joined ->
       user_of users (fst (fst r)) = Some (snd (fst r))
       /\ category_of db (fst (fst r)) = Some (snd r).
Proof.
  intros Href. cbv zeta. induction l as [|e l IH]; intros Hin.
  - cbn. split; [reflexivity|intros r []].
  - destruct (recent_join_one db users e Href (Hin e (or_introl eq_refl)))
      as (u & c & Hu & Hc & E).
    destruct IH as (IH1 & IH2); [intros x Hx; apply Hin; now right|].
    cbn [flat_map]. rewrite E. cbn [app map fst snd]. split.
    + now rewrite IH1.
    + intros r [<-|Hr]; [auto|now apply IH2].
Qed.

(** X19.  The five most recent expenses.  With unique user and category
    keys and every expense referring to a stored user and category,
    [get_recent_expenses] returns the rows of the five latest expenses of
    the table, latest date first, each with its subject, its amount, the
    name of its user and the name of its category; their number is the
    smaller of 5 and the number of expenses; and
    [get_recent_expenses_endpoint] answers 404 exactly when no expense is
    stored. *)
Theorem recent_expenses_rows (db : AsyncSession.t)
    (users : list UserModel.t) :
  referential_integrity db users ->
  let latest :=
    firstn 5 (order_by_date_desc ExpenseModel.expense_date
                                 (AsyncSession.expenses db)) in
  map Some (get_recent_expenses db users) = map (recent_row db users) latest
  /\ StronglySorted
       (fun a b => date_le (ExpenseModel.expense_date b)
                           (ExpenseModel.expense_date a)) latest
  /\ List.length (get_recent_expenses db users)
     = Nat.min 5 (List.length (AsyncSession.expenses db))
  /\ (get_recent_expenses_endpoint db users
      = HTTPException 404 expense_recent_not_found
      <-> AsyncSession.expenses db = []).
Proof.
  intros Href. cbv zeta.
  pose proof (recent_joined db users (AsyncSession.expenses db) Href
                (fun e H => H)) as Hj.
  cbv zeta in Hj. destruct Hj as (Hfst & Hrows).
  unfold get_recent_expenses, select_recent.
  set (joined := flat_map _ (AsyncSession.expenses db)) in *.
  set (sorted := order_by_date_desc
                   (fun r => ExpenseModel.expense_date (fst (fst r))) joined).
  assert (Hsorted : map (fun r => fst (fst r)) sorted
                    = order_by_date_desc ExpenseModel.expense_date
                        (AsyncSession.expenses db)).
  { unfold sorted, order_by_date_desc.
    rewrite (stable_sort_map (fun r : ExpenseModel.t * UserModel.t * Category.t
                                => fst (fst r))
               (fun x y => Date.ltb (ExpenseModel.expense_date x)
                                    (ExpenseModel.expense_date y))).
    now rewrite Hfst. }
  assert (Hlen : List.length
                   (map (fun r =>
                       RecentExpense.make (ExpenseModel.subject (fst (fst r)))
                         (ExpenseModel.amount (fst (fst r)))
                         (UserModel.username (snd (fst r)))
                         (Category.name (snd r)))
                      (firstn 5 sorted))
                 = Nat.min 5 (List.length (AsyncSession.expenses db))).
  { rewrite length_map, length_firstn. f_equal.
    rewrite <- (length_map (fun r => fst (fst r)) sorted), Hsorted.
    apply stable_sort_length. }
  split; [|split; [|split]].
  - rewrite <- Hsorted, firstn_map, !map_map.
    apply map_ext_in. intros r Hr.
    apply In_firstn_In in Hr. unfold sorted, order_by_date_desc in Hr.
    apply stable_sort_In in Hr. destruct (Hrows r Hr) as (Hu & Hc).
    unfold recent_row. now rewrite Hu, Hc.
  - apply StronglySorted_firstn_prefix, order_by_date_desc_Sorted.
  - exact Hlen.
  - unfold get_recent_expenses_endpoint, get_recent_expenses, select_recent.
    fold joined. fold sorted.
    destruct (map _ (firstn 5 sorted)) as [|row rows] eqn:E.
    + cbn [List.length] in Hlen. split; [intros _|reflexivity].
      destruct (AsyncSession.expenses db); [reflexivity|discriminate].
    + split; [discriminate|]. intros Hnil. rewrite Hnil in Hlen.
      discriminate.
Qed.

Lemma recent_expenses_rows_witness :
  referential_integrity Fixture.mixed_db Scenario.users
  /\ List.length (get_recent_expenses Fixture.mixed_db Scenario.users) = 5%nat
  /\ map Some (get_recent_expenses Fixture.mixed_db Scenario.users)
     = map (recent_row Fixture.mixed_db Scenario.users)
           (firstn 5 (order_by_date_desc ExpenseModel.expense_date
                        (AsyncSession.expenses Fixture.mixed_db))).
Proof.
  assert (Href : referential_integrity Fixture.mixed_db Scenario.users).
  { split; [|split; [|split]].
    - repeat constructor; cbn; intuition discriminate.
    - repeat constructor; cbn; intuition discriminate.
    - intros e He. cbn in He.
      destruct He as [<-|[<-|[<-|[<-|[<-|[]]]]]]; cbn; auto.
    - intros e He. cbn in He.
      destruct He as [<-|[<-|[<-|[<-|[<-|[]]]]]]; cbn; auto. }
  pose proof (recent_expenses_rows Fixture.mixed_db Scenario.users Href)
    as (H1 & _ & H2 & _).
  split; [exact Href|]. split; [exact H2|exact H1].
Defined.

(** ** Registration: the user schema *)

Lemma re_search_spec (class : ascii -> bool) (s : string) :
  re_search class s = true <-> has_char class s.
Proof.
  unfold has_char. induction s as [|c s IH]; cbn.
  - split; [discriminate|].
    intros (a & x & b & H & _). destruct a; discriminate.
  - rewrite orb_true_iff, IH. split.
    + intros [H|(a & x & b & -> & H)].
      * now exists EmptyString, c, s.
      * now exists (String c a), x, b.
    + intros (a & x & b & H & Hx). destruct a as [|d a]; cbn in H.
      * injection H as -> ->. now left.
      * injection H as -> ->. right. now exists a, x, b.
Qed.

Lemma validate_password_inr (w w' : string) :
  UserCreate.validate_password w = inr w'
  <-> w' = w /\ has_char isupper w /\ has_char islower w
      /\ has_char isdigit w /\ has_char isspecial w.
Proof.
  unfold UserCreate.validate_password. rewrite <- !re_search_spec.
  destruct (re_search isupper w); cbn;
    [|split; [discriminate|intros (_ & H & _); discriminate]].
  destruct (re_search islower w); cbn;
    [|split; [discriminate|intros (_ & _ & H & _); discriminate]].
  destruct (re_search isdigit w); cbn;
    [|split; [discriminate|intros (_ & _ & _ & H & _); discriminate]].
  destruct (re_search isspecial w); cbn;
    [|split; [discriminate|intros (_ & _ & _ & _ & H); discriminate]].
  split; [intros [= <-]; auto|now intros (-> & _)].
Qed.

(** X20.  What a registration needs.  [UserCreate] accepts a body exactly
    when the username is given and has 3 to 80 characters and the password
    is given, has at least 8 characters and contains an upper-case letter,
    a lower-case letter, a digit and one of the listed special characters;
    the accepted object holds the two values as sent.  The length of the
    password is checked before its content: a password of fewer than 8
    characters gets the length message whatever it contains, and a longer
    one without upper-case letter gets the upper-case message whatever
    else it lacks. *)
Theorem register_payload_validation (p : UserCreate.payload) :
  ((exists obj, UserCreate.validate p = inr obj)
   <-> exists u w,
         UserCreate.payload_username p = Value u
         /\ UserCreate.payload_password p = Value w
         /\ (3 <= String.length u <= 80)%nat
         /\ (8 <= String.length w)%nat
         /\ has_char isupper w /\ has_char islower w
         /\ has_char isdigit w /\ has_char isspecial w)
  /\ (forall obj,
        UserCreate.validate p = inr obj ->
        UserCreate.payload_username p = Value (UserCreate.username obj)
        /\ UserCreate.payload_password p = Value (UserCreate.password obj))
  /\ (forall w,
        (String.length w < 8)%nat ->
        UserCreate.validate_password_field (Value w)
        = inl [("password",
                "String should have at least 8 characters")%string])
  /\ (forall w,
        (8 <= String.length w)%nat -> ~ has_char isupper w ->
        UserCreate.validate_password_field (Value w)
        = inl [("password",
                "Password must contain at least one uppercase letter")%string]).
Proof.
  assert (Hu : forall f u,
            UserCreate.validate_username_field f = inr u
            <-> f = Value u /\ (3 <= String.length u <= 80)%nat).
  { intros f u. unfold UserCreate.validate_username_field.
    rewrite required_inr.
    destruct (Nat.ltb_spec (String.length u) 3) as [L1|L1];
      [split; [intros (_ & H); discriminate|lia]|].
    destruct (Nat.ltb_spec 80 (String.length u)) as [L2|L2];
      [split; [intros (_ & H); discriminate|lia]|].
    split; [intros (-> & _); split; [reflexivity|lia]|tauto]. }
  assert (Hw : forall f w,
            UserCreate.validate_password_field f = inr w
            <-> f = Value w /\ (8 <= String.length w)%nat
                /\ has_char isupper w /\ has_char islower w
                /\ has_char isdigit w /\ has_char isspecial w).
  { intros f w. unfold UserCreate.validate_password_field.
    rewrite required_inr.
    destruct (Nat.ltb_spec (String.length w) 8) as [L3|L3];
      [split; [intros (_ & H); discriminate|lia]|].
    destruct (UserCreate.validate_password w) as [msg|w'] eqn:E.
    - split; [intros (_ & H); discriminate|].
      intros (_ & _ & H).
      assert (Hok : UserCreate.validate_password w = inr w)
        by (apply validate_password_inr; tauto).
      congruence.
    - apply validate_password_inr in E. tauto. }
  split; [|split; [|split]].
  - unfold UserCreate.validate. split.
    + intros (obj & H).
      destruct (UserCreate.validate_username_field _) as [e1|u] eqn:E1;
        [discriminate|].
      destruct (UserCreate.validate_password_field _) as [e2|w] eqn:E2;
        [discriminate|].
      apply Hu in E1. apply Hw in E2. exists u, w. tauto.
    + intros (u & w & H1 & H2 & H3 & H4).
      assert (E1 : UserCreate.validate_username_field
                     (UserCreate.payload_username p) = inr u)
        by (apply Hu; tauto).
      assert (E2 : UserCreate.validate_password_field
                     (UserCreate.payload_password p) = inr w)
        by (apply Hw; tauto).
      rewrite E1, E2. eauto.
  - intros obj. unfold UserCreate.validate.
    destruct (UserCreate.validate_username_field _) as [e1|u] eqn:E1;
      [discriminate|].
    destruct (UserCreate.validate_password_field _) as [e2|w] eqn:E2;
      [discriminate|].
    intros [= <-]. apply Hu in E1. apply Hw in E2. cbn. tauto.
  - intros w Hlen. unfold UserCreate.validate_password_field, required.
    destruct (Nat.ltb_spec (String.length w) 8) as [L4|L4]; [reflexivity|lia].
  - intros w Hlen Hup. unfold UserCreate.validate_password_field, required.
    destruct (Nat.ltb_spec (String.length w) 8) as [L5|L5]; [lia|].
    unfold UserCreate.validate_password.
    destruct (re_search isupper w) eqn:E; [|reflexivity].
    apply re_search_spec in E. contradiction.
Qed.

Lemma register_payload_validation_witness :
  (exists obj,
     UserCreate.validate
       (UserCreate.make_payload (Value "testuser"%string) (Value "Str0ng!pass"%string))
     = inr obj)
  /\ UserCreate.validate_password_field (Value "Ab1!"%string)
     = inl [("password", "String should have at least 8 characters")%string]
  /\ UserCreate.validate_password_field (Value "weakpassword"%string)
     = inl [("password",
             "Password must contain at least one uppercase letter")%string].
Proof.
  pose proof (register_payload_validation
                (UserCreate.make_payload (Value "testuser"%string)
                   (Value "Str0ng!pass"%string))) as (H1 & _ & H2 & H3).
  split; [|split].
  - apply H1. exists "testuser"%string, "Str0ng!pass"%string.
    split; [reflexivity|]. split; [reflexivity|].
    split; [cbn; lia|]. split; [cbn; lia|].
    split; [now exists EmptyString, "S"%char, "tr0ng!pass"%string|].
    split; [now exists "S"%string, "t"%char, "r0ng!pass"%string|].
    split; [now exists "Str"%string, "0"%char, "ng!pass"%string|].
    now exists "Str0ng"%string, "!"%char, "pass"%string.
  - apply H2. cbn. lia.
  - apply H3; [cbn; lia|]. intros H. apply re_search_spec in H. discriminate.
Defined.

(** ** Pages of the list *)

Lemma firstn_add_skipn {A : Type} (a b : nat) (l : list A) :
  firstn (a + b) l = firstn a l ++ firstn b (skipn a l).
Proof.
  revert l. induction a as [|a IH]; intros l; cbn; [reflexivity|].
  destruct l as [|x l]; cbn; [now rewrite firstn_nil|].
  now rewrite IH.
Qed.

Lemma concat_pages {A : Type} (size n : nat) (l : list A) :
  List.concat (map (fun k => firstn size (skipn (k * size) l)) (seq 0 n))
  = firstn (n * size) l.
Proof.
  induction n as [|n IH]; [reflexivity|].
  rewrite seq_S, map_app, List.concat_app, IH. cbn [map List.concat Nat.add].
  rewrite app_nil_r, <- firstn_add_skipn. f_equal. lia.
Qed.

Lemma pages_cover (size len : nat) :
  (0 < size)%nat -> (len <= (len + size - 1) / size * size)%nat.
Proof.
  intros Hs.
  pose proof (Nat.div_mod_eq (len + size - 1) size) as H1.
  pose proof (Nat.mod_upper_bound (len + size - 1) size ltac:(lia)) as H2.
  nia.
Qed.

(** X21.  The pages of [get_expenses] partition the list.  For a page
    size greater than 0: a page holds at most [size] rows; [total] is the
    number of rows the search keeps, whatever the page; the items of the
    pages 1, 2, ..., [pages], one after the other, are exactly the rows
    the query returns, in its order; and a page after the last one is
    empty.  ([paginate] is the library call, read as COUNT, LIMIT and
    OFFSET.) *)
Theorem get_expenses_pages (db : AsyncSession.t) (size : nat)
    (search : option string) (sort_order : string) :
  (0 < size)%nat ->
  let page := fun k => get_expenses db (Params.make k size) search sort_order in
  let rows := select_expenses db search sort_order in
  (forall k, (List.length (Page.items (page k)) <= size)%nat
             /\ Page.total (page k) = List.length rows
             /\ Page.pages (page k) = Page.pages (page 1%nat))
  /\ List.concat (map (fun k => Page.items (page (S k)))
                 (seq 0 (Page.pages (page 1%nat))))
     = rows
  /\ (forall k, (Page.pages (page 1%nat) < k)%nat -> Page.items (page k) = []).
Proof.
  intros Hs. cbv zeta. unfold get_expenses, paginate.
  cbn [Page.items Page.total Page.pages Params.page Params.size].
  set (rows := select_expenses db search sort_order).
  pose proof (pages_cover size (List.length rows) Hs) as Hcover.
  split; [|split].
  - intros k. split; [|split; reflexivity].
    rewrite length_firstn. lia.
  - rewrite (map_ext _ (fun k => firstn size (skipn (k * size) rows))).
    + rewrite concat_pages. now apply firstn_all2.
    + intros k. now rewrite Nat.sub_succ, Nat.sub_0_r.
  - intros k Hk. rewrite skipn_all2; [apply firstn_nil|]. nia.
Qed.

Lemma get_expenses_pages_witness :
  List.concat (map (fun k =>
            Page.items (get_expenses Fixture.mixed_db
                          (Params.make (S k) 2) None "desc"))
            (seq 0 3))
  = select_expenses Fixture.mixed_db None "desc"
  /\ Page.pages (get_expenses Fixture.mixed_db (Params.make 1 2) None "desc")
     = 3%nat.
Proof.
  pose proof (get_expenses_pages Fixture.mixed_db 2 None "desc"
                ltac:(lia)) as (_ & H & _).
  split; [exact H|reflexivity].
Defined.

(** ** The month rollup adds up *)

Lemma Qsum_indicator_Z (x : Z) (a : Q) (ks : list Z) :
  NoDup ks -> In x ks ->
  (Qsum (map (fun k => if Z.eqb x k then a else 0) ks) == a)%Q.
Proof.
  induction 1 as [|k ks Hnot Hnd IH]; intros Hin; [destruct Hin|].
  cbn. destruct (Z.eqb_spec x k) as [->|Hne].
  - rewrite (Qsum_map_ext _ (fun _ => 0%Q)).
    + rewrite Qsum_map_zero. ring.
    + intros y Hy. destruct (Z.eqb_spec k y) as [->|_];
        [contradiction|reflexivity].
  - destruct Hin as [->|Hin]; [contradiction|]. rewrite (IH Hin). ring.
Qed.

Lemma Qsum_group_by_Z {A : Type} (key : A -> Z) (val : A -> Q)
    (ks : list Z) (l : list A) :
  NoDup ks ->
  (forall x, In x l -> In (key x) ks) ->
  (Qsum (map (fun k =>
           Qsum (map val (filter (fun x => Z.eqb (key x) k) l))) ks)
   == Qsum (map val l))%Q.
Proof.
  intros Hnd. induction l as [|x l IH]; intros Hcover.
  - cbn. apply Qsum_map_zero.
  - rewrite (Qsum_map_ext _
               (fun k => (if Z.eqb (key x) k then val x else 0)
                         + Qsum (map val
                                   (filter (fun y => Z.eqb (key y) k) l)))%Q).
    + rewrite Qsum_map_plus, IH by (intros y Hy; apply Hcover; now right).
      rewrite (Qsum_indicator_Z _ _ _ Hnd) by (apply Hcover; now left).
      reflexivity.
    + intros k _. cbn [filter].
      destruct (Z.eqb (key x) k); cbn; [reflexivity|].
      now rewrite Qplus_0_l.
Qed.

(** The months with data share out the expenses of the year. *)
Lemma months_with_data_total (db : AsyncSession.t) (year : Z) :
  valid_dates db ->
  (Qsum (map (fun m => spending db year [m]) (months_with_data db year))
   == spending_of_year db year)%Q.
Proof.
  intros Hvalid. unfold spending_of_year.
  rewrite <- (Qsum_group_by_Z extract_month ExpenseModel.amount
                (months_with_data db year)
                (filter (fun e => extract_year e =? year)
                        (AsyncSession.expenses db))).
  - apply Qsum_map_ext. intros m _. unfold spending.
    rewrite filter_andb.
    rewrite (filter_ext
               (fun e => (extract_year e =? year) && in_ (extract_month e) [m])
               (fun e => (extract_year e =? year) && (extract_month e =? m)));
      [reflexivity|].
    intros e. unfold in_. cbn [existsb]. now rewrite orb_false_r.
  - unfold months_with_data. apply NoDup_filter.
    unfold months_descending. repeat constructor; cbn; lia.
  - intros e He. apply filter_In in He. destruct He as (He & Hy).
    apply Z.eqb_eq in Hy.
    apply (months_with_data_In db year _ Hvalid), has_data_spec. eauto.
Qed.

Lemma Qsum_month_totals (a b : list MonthTotal.t) :
  Forall2 MonthTotal.equiv a b ->
  (Qsum (map MonthTotal.amount a) == Qsum (map MonthTotal.amount b))%Q.
Proof.
  induction 1 as [|x y a b (_ & Hxy) _ IH]; cbn; [reflexivity|].
  now rewrite Hxy, IH.
Qed.

Lemma Qsum_firstn_le {A : Type} (f : A -> Q) (n : nat) (l : list A) :
  (forall x, In x l -> (0 <= f x)%Q) ->
  (Qsum (map f (firstn n l)) <= Qsum (map f l))%Q.
Proof.
  revert n. induction l as [|x l IH]; intros n Hpos.
  - rewrite firstn_nil. apply Qle_refl.
  - assert (H1 : (0 <= f x)%Q) by (apply Hpos; now left).
    assert (H2 : (0 <= Qsum (map f l))%Q).
    { apply Qsum_nonneg. intros y Hy. apply in_map_iff in Hy.
      destruct Hy as (z & <- & Hz). apply Hpos. now right. }
    destruct n as [|n]; cbn; [lra|].
    assert (H3 : (Qsum (map f (firstn n l)) <= Qsum (map f l))%Q)
      by (apply IH; intros y Hy; apply Hpos; now right).
    lra.
Qed.

(** X22.  The month rollup against the year.  With valid calendar dates,
    the amounts of [get_last_5_months_summary] add up to the sum of all
    the expenses of the year when at most five months of the year have
    expenses; and when no stored amount is negative they never add up to
    more than that sum. *)
Theorem last_5_months_total (db : AsyncSession.t) (year : Z) :
  valid_dates db ->
  let total :=
    Qsum (map MonthTotal.amount (get_last_5_months_summary db year)) in
  ((List.length (months_with_data db year) <= 5)%nat ->
   (total == spending_of_year db year)%Q)
  /\ ((forall e, In e (AsyncSession.expenses db) ->
                 (0 <= ExpenseModel.amount e)%Q) ->
      (total <= spending_of_year db year)%Q).
Proof.
  intros Hvalid. cbv zeta.
  rewrite (Qsum_month_totals _ _ (last_5_months_equiv db year Hvalid)).
  unfold last_5_months. rewrite map_map. cbn [MonthTotal.amount].
  rewrite <- (months_with_data_total db year Hvalid).
  split.
  - intros Hlen. rewrite firstn_all2 by exact Hlen. reflexivity.
  - intros Hpos. apply Qsum_firstn_le.
    intros m _. now apply spending_nonneg.
Qed.

Lemma last_5_months_total_witness :
  valid_dates Fixture.mixed_db
  /\ (Qsum (map MonthTotal.amount
              (get_last_5_months_summary Fixture.mixed_db 2024))
      == spending_of_year Fixture.mixed_db 2024)%Q.
Proof.
  assert (Hvalid : valid_dates Fixture.mixed_db).
  { intros e He. cbn in He.
    destruct He as [<-|[<-|[<-|[<-|[<-|[]]]]]]; unfold Date.valid; cbn; lia. }
  split; [exact Hvalid|].
  apply (proj1 (last_5_months_total Fixture.mixed_db 2024 Hvalid)).
  cbn. lia.
Defined.

(** ** The available years follow the table *)

Lemma general_summary_endpoint_available (db : AsyncSession.t) (y : Z)
    (now : Datetime.t) :
  In y (get_available_years db) ->
  get_general_summary_endpoint (Some y) db now
  = Response 200 (get_general_summary_data db y now).
Proof.
  intros Hy. unfold get_general_summary_endpoint.
  destruct (get_available_years db) as [|y0 ys] eqn:E; [destruct Hy|].
  apply in_spec in Hy. now rewrite Hy.
Qed.

Lemma general_summary_endpoint_unavailable (db : AsyncSession.t) (y : Z)
    (now : Datetime.t) :
  ~ In y (get_available_years db) ->
  status_code_of (get_general_summary_endpoint (Some y) db now) = 404
  \/ status_code_of (get_general_summary_endpoint (Some y) db now) = 400.
Proof.
  intros Hy. unfold get_general_summary_endpoint.
  destruct (get_available_years db) as [|y0 ys] eqn:E; [now left|].
  apply in_false in Hy. rewrite Hy. now right.
Qed.

(** X23.  A created expense makes its year available.  After
    [create_expense_endpoint] has answered 201, the year of the created
    expense is among the available years, as is every year that was
    available before; the general-summary route then answers 200 when
    asked for that year. *)
Theorem create_makes_year_available (upload_dir : string)
    (splitext_ext : string -> string) (expense : form) (current_user : UUID)
    (db db' : AsyncSession.t) (fs fs' : FileSystem.t)
    (invoice_image : option UploadFile.t) (uuid4 new_id : UUID)
    (now : Datetime.t) (row : ExpenseModel.t) :
  create_expense_endpoint upload_dir splitext_ext expense current_user
    db fs invoice_image uuid4 new_id now = (Response 201 row, db', fs') ->
  In (extract_year row) (get_available_years db')
  /\ (forall y, In y (get_available_years db) ->
                In y (get_available_years db'))
  /\ (forall clock,
        get_general_summary_endpoint (Some (extract_year row)) db' clock
        = Response 200 (get_general_summary_data db' (extract_year row)
                          clock)).
Proof.
  intros H. apply created_response_eq in H.
  destruct H as (p & obj & image & _ & _ & _ & -> & _).
  assert (Hin : In (extract_year row)
                   (get_available_years (commit_add db row))).
  { apply available_years_In. exists row. split; [|reflexivity].
    unfold commit_add. cbn. apply in_or_app. right. now left. }
  split; [exact Hin|]. split.
  - intros y Hy. apply available_years_In in Hy.
    destruct Hy as (e & He & Hy). apply available_years_In.
    exists e. split; [|exact Hy].
    unfold commit_add. cbn. apply in_or_app. now left.
  - intros clock. now apply general_summary_endpoint_available.
Qed.

Lemma create_makes_year_available_witness :
  ~ In 2025 (get_available_years Sample.db)
  /\ exists row db' fs',
       create_expense_endpoint Sample.upload_dir Sample.splitext_ext
         (Decoded Scenario.new_year_dinner)
         "user-1" Sample.db Sample.fs None "u-1" "e3" Sample.later
       = (Response 201 row, db', fs')
       /\ In 2025 (get_available_years db').
Proof.
  split; [vm_compute; intros [H|[]]; discriminate|].
  eexists _, _, _. split; [reflexivity|].
  exact (proj1 (create_makes_year_available Sample.upload_dir
                  Sample.splitext_ext (Decoded Scenario.new_year_dinner)
                  "user-1" Sample.db _ Sample.fs _
                  None "u-1" "e3" Sample.later _ eq_refl)).
Defined.

(** X24.  A deleted expense can take its year away.  After
    [delete_expense_endpoint] has answered 200, every available year was
    available before; and when no other stored expense is dated in the
    year of the deleted one, that year is no longer available, so that the
    general-summary route answers 404 or 400 when asked for it. *)
Theorem delete_takes_year_away (upload_dir : string) (expense_id : UUID)
    (db db' : AsyncSession.t) (fs fs' : FileSystem.t) (body : Deleted.t)
    (stored : ExpenseModel.t) :
  select_by_id db expense_id = Some stored ->
  delete_expense_endpoint upload_dir expense_id db fs
  = (Response 200 body, db', fs') ->
  (forall y, In y (get_available_years db') ->
             In y (get_available_years db))
  /\ ((forall e, In e (AsyncSession.expenses db) ->
                 ExpenseModel.expenses_id e <> expense_id ->
                 extract_year e <> extract_year stored) ->
      ~ In (extract_year stored) (get_available_years db')
      /\ forall clock,
           status_code_of
             (get_general_summary_endpoint (Some (extract_year stored)) db'
                clock) = 404
           \/ status_code_of
                (get_general_summary_endpoint (Some (extract_year stored)) db'
                   clock) = 400).
Proof.
  intros Hsel. unfold delete_expense_endpoint.
  destruct (delete_expense_cases upload_dir db fs expense_id)
    as [(Hno & E)|[(x & Hx & Hf & E)|(x & fs1 & Hx & Hf & E)]];
    rewrite E; try discriminate.
  intros [= _ <- _]. rewrite Hsel in Hx. injection Hx as <-.
  destruct (select_by_id_Some db expense_id stored Hsel) as (_ & Hid).
  split.
  - intros y Hy. apply available_years_In in Hy.
    destruct Hy as (e & He & Hy). apply commit_delete_In in He.
    apply available_years_In. exists e. tauto.
  - intros Honly.
    assert (Hnot : ~ In (extract_year stored)
                     (get_available_years (commit_delete db stored))).
    { intros Hy. apply available_years_In in Hy.
      destruct Hy as (e & He & Hy). apply commit_delete_In in He.
      destruct He as (He & Hne). rewrite Hid in Hne.
      now apply (Honly e He Hne). }
    split; [exact Hnot|]. intros clock.
    now apply general_summary_endpoint_unavailable.
Qed.

Lemma delete_takes_year_away_witness :
  In 2023 (get_available_years Fixture.mixed_db)
  /\ exists body db' fs',
       delete_expense_endpoint Sample.upload_dir "e5" Fixture.mixed_db
         Sample.fs
       = (Response 200 body, db', fs')
       /\ ~ In 2023 (get_available_years db').
Proof.
  split; [vm_compute; auto|].
  eexists _, _, _. split; [reflexivity|].
  refine (proj1 (proj2 (delete_takes_year_away Sample.upload_dir "e5"
                          Fixture.mixed_db _ Sample.fs _ _
                          Scenario.flight
                          eq_refl eq_refl) _)).
  intros e He Hne. cbn in He.
  destruct He as [<-|[<-|[<-|[<-|[<-|[]]]]]]; cbn;
    try discriminate. now contradiction Hne.
Defined.
